(** * Partly product-enrichment pipeline: a shallow embedding

    The TypeScript services of the repository (discovery, crawl, HTML and PDF
    extraction, normalisation, synthesis and the pipeline driver) are embedded
    as Rocq functions, and the properties stated for them are proved or
    refuted on that embedding.

    Conventions of the embedding.
    - A JavaScript [string] is a Rocq [string]; its characters are read as
      bytes, so the character classes below are the ASCII part of the
      JavaScript ones ([\s], [\w], case mapping).
    - A JavaScript [number] is a rational [Q]; arithmetic is exact, where
      the program rounds to the nearest double.
    - A [Record<string, T>] is an association list in insertion order
      (JavaScript enumerates keys that are array indices first; spec names
      are taken not to be such).
    - [null]/[undefined] is [None].
    - A function that can throw returns an [outcome].
    - Network, browser, file system, DOM library and language model are
      parameters collected in a [World] record per service. *)

From Stdlib Require Import List String Ascii Bool Arith ZArith QArith Qround Lia Lqa.
From Stdlib Require Import Sorted.
From Stdlib Require DecimalString.
Import ListNotations.
Open Scope string_scope.

Set Implicit Arguments.

(* ================================================================== *)
(** * Results of code that may throw *)

Inductive outcome (A : Type) : Type :=
| Returned (a : A)
| Thrown (msg : string).
Arguments Returned {A} a.
Arguments Thrown {A} msg.

Definition bind {A B} (m : outcome A) (k : A -> outcome B) : outcome B :=
  match m with
  | Returned a => k a
  | Thrown e => Thrown e
  end.

Notation "x <- m ;; k" := (bind m (fun x => k))
  (at level 61, m at next level, right associativity).

Definition returns {A} (m : outcome A) : bool :=
  match m with Returned _ => true | Thrown _ => false end.

(* ================================================================== *)
(** * The JavaScript string methods the services use *)

Module JS.

Definition code (c : ascii) : nat := nat_of_ascii c.

(** The double-quote character, as a string. *)
Definition dq : string := String (ascii_of_nat 34) EmptyString.

(** [String(n)] for a non-negative integer *)
Definition natToString (n : nat) : string :=
  DecimalString.NilZero.string_of_uint (Nat.to_uint n).

(** [s.length] *)
Definition len (s : string) : Z := Z.of_nat (String.length s).

Definition inRange (lo hi : nat) (c : ascii) : bool :=
  (lo <=? code c)%nat && (code c <=? hi)%nat.

Definition isUpper (c : ascii) : bool := inRange 65 90 c.
Definition isLower (c : ascii) : bool := inRange 97 122 c.
Definition isDigit (c : ascii) : bool := inRange 48 57 c.

(** [\w] *)
Definition isWordChar (c : ascii) : bool :=
  isUpper c || isLower c || isDigit c || Ascii.eqb c "_".

(** [\s], ASCII part: tab, line feed, vertical tab, form feed, carriage
    return, space. *)
Definition isSpace (c : ascii) : bool :=
  inRange 9 13 c || Ascii.eqb c " ".

Definition lowerChar (c : ascii) : ascii :=
  if isUpper c then ascii_of_nat (code c + 32) else c.

Definition upperChar (c : ascii) : ascii :=
  if isLower c then ascii_of_nat (code c - 32) else c.

Fixpoint mapStr (f : ascii -> ascii) (s : string) : string :=
  match s with
  | EmptyString => EmptyString
  | String c t => String (f c) (mapStr f t)
  end.

Definition toLowerCase : string -> string := mapStr lowerChar.
Definition toUpperCase : string -> string := mapStr upperChar.

(** [s.startsWith(p)] *)
Definition startsWith (s p : string) : bool := prefix p s.

(** [s.includes(sub)] *)
Fixpoint includes (s sub : string) : bool :=
  if prefix sub s then true
  else match s with
       | EmptyString => false
       | String _ t => includes t sub
       end.

Fixpoint dropStr (n : nat) (s : string) : string :=
  match n, s with
  | O, _ => s
  | S k, EmptyString => EmptyString
  | S k, String _ t => dropStr k t
  end.

(** [s.endsWith(p)] *)
Definition endsWith (s p : string) : bool :=
  (String.length p <=? String.length s)%nat &&
  String.eqb (dropStr (String.length s - String.length p) s) p.

(** [s.slice(0, n)] for [0 <= n] *)
Fixpoint takeStr (n : nat) (s : string) : string :=
  match n, s with
  | O, _ => EmptyString
  | S k, EmptyString => EmptyString
  | S k, String c t => String c (takeStr k t)
  end.

Fixpoint trimStart (s : string) : string :=
  match s with
  | EmptyString => EmptyString
  | String c t => if isSpace c then trimStart t else s
  end.

(** Drops the trailing white space: the result is empty exactly when
    everything from here on is white space. *)
Fixpoint trimEnd (s : string) : string :=
  match s with
  | EmptyString => EmptyString
  | String c t =>
      match trimEnd t with
      | EmptyString => if isSpace c then EmptyString else String c EmptyString
      | t' => String c t'
      end
  end.

(** [s.trim()] *)
Definition trim (s : string) : string := trimEnd (trimStart s).

(** [s.indexOf(":")]: the position of the first occurrence of a
    character, [None] for [-1]. *)
Fixpoint indexOfChar (c : ascii) (s : string) : option nat :=
  match s with
  | EmptyString => None
  | String d t =>
      if Ascii.eqb c d then Some O
      else option_map S (indexOfChar c t)
  end.

(** Truthiness of a string: [!!s]. *)
Definition truthy (s : string) : bool :=
  match s with EmptyString => false | _ => true end.

(** [(s.match(/lit/g)?.length ?? 0)] for a literal [lit] without regex
    operators and not empty: the number of occurrences found left to right,
    each search resuming after the previous match. *)
Fixpoint countFrom (lit : string) (skip : nat) (s : string) : nat :=
  match s with
  | EmptyString => 0
  | String _ t =>
      match skip with
      | S k => countFrom lit k t
      | O =>
          if prefix lit s
          then S (countFrom lit (String.length lit - 1) t)
          else countFrom lit 0 t
      end
  end.

Definition countMatches (lit s : string) : nat := countFrom lit 0 s.

(** [s.replace(/[-\s]/g, "")] *)
Fixpoint stripDashSpace (s : string) : string :=
  match s with
  | EmptyString => EmptyString
  | String c t =>
      if Ascii.eqb c "-" || isSpace c then stripDashSpace t
      else String c (stripDashSpace t)
  end.

End JS.

(* ================================================================== *)
(** * Shared enumerations *)

(** ["high" | "medium" | "low"], used by discovery and by the crawler. *)
Inductive Level : Type := high | medium | low.

Definition Level_eqb (a b : Level) : bool :=
  match a, b with
  | high, high | medium, medium | low, low => true
  | _, _ => false
  end.

(* ================================================================== *)
(** * services/crawlService.ts *)

Module Crawl.

Inductive FallbackReason : Type :=
| fetch_failed | invalid_html | non_product | captcha_or_js.

Record CrawlResult : Type := {
  finalUrl : string;
  html : option string;
  usedPlaywright : bool;
  contentType : option string;
  fallbackReason : option FallbackReason;
  crawlConfidence : option Level
}.

(** ** Page heuristics *)

Definition isValidHtml (h : string) : bool :=
  if negb (JS.truthy h) then false
  else if (JS.len h <? 1000)%Z then false
  else if JS.includes (JS.toLowerCase h) "enable javascript" then false
  else if JS.includes (JS.toLowerCase h) "captcha" then false
  else true.

Definition isHomepageLike (h : string) : bool :=
  let lower := JS.toLowerCase h in
  let navHeavy :=
    (2 <=? JS.countMatches "<nav" lower)%nat ||
    (2 <=? JS.countMatches ("class=" ++ JS.dq ++ "nav") lower)%nat in
  let productGridSignals :=
    JS.includes lower "featured products" ||
    JS.includes lower "categories" ||
    JS.includes lower "shop by" ||
    JS.includes lower "our products" in
  let multipleCards := (3 <=? JS.countMatches "product-card" lower)%nat in
  navHeavy && (productGridSignals || multipleCards).

(** [/<h1[^>]*>/.test(s)]: some occurrence of [<h1] is followed, after
    characters other than [>], by a [>]; that is, a [>] occurs after the
    first occurrence of [<h1]. *)
Fixpoint hasH1Tag (s : string) : bool :=
  if prefix "<h1" s then JS.includes (JS.dropStr 3 s) ">"
  else match s with
       | EmptyString => false
       | String _ t => hasH1Tag t
       end.

Definition looksLikeProductPage (h : string) : bool :=
  if isHomepageLike h then false
  else
    let lower := JS.toLowerCase h in
    let hasTitle := hasH1Tag lower || JS.includes lower "<title>" in
    let hasSpecs :=
      JS.includes lower "specification" ||
      JS.includes lower "technical data" ||
      JS.includes lower "<table" ||
      JS.includes lower "<dl" in
    let hasDatasheet :=
      JS.includes lower ".pdf" &&
      (JS.includes lower "datasheet" || JS.includes lower "download") in
    hasTitle && (hasSpecs || hasDatasheet).

(** *** [/\b[0-9a-z\-]{6,}\b/g] *)

Definition isTokenChar (c : ascii) : bool :=
  JS.isDigit c || JS.isLower c || Ascii.eqb c "-".

Definition wordAt (c : option ascii) : bool :=
  match c with Some x => JS.isWordChar x | None => false end.

(** [\b] between two neighbouring positions. *)
Definition boundary (before after : option ascii) : bool :=
  xorb (wordAt before) (wordAt after).

Fixpoint runLength (s : string) : nat :=
  match s with
  | String c t => if isTokenChar c then S (runLength t) else 0
  | EmptyString => 0
  end.

(** The greedy quantifier gives back one character at a time until the
    closing [\b] holds: the longest [n] with [6 <= n <= bound] such that
    a word boundary lies after the first [n] characters of [s]. *)
Fixpoint longestToken (bound : nat) (s : string) : option nat :=
  match bound with
  | O => None
  | S k =>
      if (6 <=? bound)%nat &&
         boundary (String.get k s) (String.get bound s)
      then Some bound
      else longestToken k s
  end.

Definition tokenAt (prev : option ascii) (s : string) : option nat :=
  if boundary prev (String.get 0 s)
  then longestToken (runLength s) s
  else None.

Fixpoint countTokensFrom (prev : option ascii) (skip : nat) (s : string) : nat :=
  match s with
  | EmptyString => 0
  | String c t =>
      match skip with
      | S k => countTokensFrom (Some c) k t
      | O =>
          match tokenAt prev s with
          | Some n => S (countTokensFrom (Some c) (n - 1) t)
          | None => countTokensFrom (Some c) 0 t
          end
      end
  end.

Definition countTokens (s : string) : nat := countTokensFrom None 0 s.

Definition hasUsableProductSignals (h : string) : bool :=
  if negb (JS.truthy h) then false
  else
    let lower := JS.toLowerCase h in
    let textDensityOk := (8000 <? JS.len h)%Z in
    let hasSpecTable := JS.includes lower "<table" || JS.includes lower "<dl" in
    let hasDatasheet :=
      JS.includes lower ".pdf" &&
      (JS.includes lower "datasheet" || JS.includes lower "manual") in
    let repeatedMpn := (5 <=? countTokens lower)%nat in
    let strongSignal := hasSpecTable || hasDatasheet || repeatedMpn in
    textDensityOk && strongSignal.

(** ** The network and the browser *)

(** What [fetch] does on one attempt. *)
Inductive FetchOutcome : Type :=
| NetworkError                      (* rejected, or aborted by the timeout *)
| Response (ok : bool) (body : string) (url : string)
           (contentTypeHeader : option string).

(** What happens inside the [try] block of [crawlWithPlaywright]. *)
Inductive PageOutcome : Type :=
| NavigationThrows
| Rendered (content : string) (pageUrl : string).

Record BrowserRun : Type := {
  launches : bool;      (* [chromium.launch] and [newPage] succeed *)
  page : PageOutcome;
  closes : bool         (* [browser.close()] in [finally] succeeds *)
}.

Record World : Type := {
  fetch : string -> nat -> FetchOutcome;    (* url, attempt number *)
  browser : string -> BrowserRun
}.

Record Fetched : Type := {
  f_html : string;
  f_finalUrl : string;
  f_contentType : option string
}.

Section WithWorld.

Variable W : World.

Definition tryFetchOnce (url : string) (attempt : nat) : option Fetched :=
  match fetch W url attempt with
  | NetworkError => None
  | Response ok body u ct =>
      if ok && isValidHtml body
      then Some {| f_html := body; f_finalUrl := u; f_contentType := ct |}
      else None
  end.

Definition crawlWithPlaywright (url : string) (fr : option FallbackReason)
  : outcome CrawlResult :=
  let run := browser W url in
  if negb (launches run) then Thrown "browser launch failed"
  else
    let r :=
      match page run with
      | Rendered content pageUrl =>
          if negb (hasUsableProductSignals content) then
            {| finalUrl := pageUrl; html := Some content;
               usedPlaywright := true; contentType := Some "text/html";
               fallbackReason := Some non_product;
               crawlConfidence := Some low |}
          else
            {| finalUrl := pageUrl; html := Some content;
               usedPlaywright := true; contentType := Some "text/html";
               fallbackReason := fr;
               crawlConfidence :=
                 Some (if hasUsableProductSignals content then medium else low) |}
      | NavigationThrows =>
          {| finalUrl := url; html := None;
             usedPlaywright := true; contentType := None;
             fallbackReason :=
               Some (match fr with Some r => r | None => captcha_or_js end);
             crawlConfidence := Some low |}
      end in
    if closes run then Returned r else Thrown "browser close failed".

(** One iteration of the fast-fetch loop: either the page to return, or
    the reason recorded before [continue]. *)
Definition fastAttempt (url : string) (attempt : nat)
  : CrawlResult + FallbackReason :=
  match tryFetchOnce url attempt with
  | None => inr fetch_failed
  | Some t =>
      if negb (looksLikeProductPage (f_html t)) then inr non_product
      else if negb (hasUsableProductSignals (f_html t)) then inr non_product
      else inl {| finalUrl := f_finalUrl t; html := Some (f_html t);
                  usedPlaywright := false; contentType := f_contentType t;
                  fallbackReason := None; crawlConfidence := Some high |}
  end.

(** [for (let attempt = ...; attempt < 2; attempt++)], with [n] iterations
    left. *)
Fixpoint fastLoop (url : string) (n attempt : nat) (fr : option FallbackReason)
  : CrawlResult + option FallbackReason :=
  match n with
  | O => inr fr
  | S k =>
      match fastAttempt url attempt with
      | inl r => inl r
      | inr reason => fastLoop url k (S attempt) (Some reason)
      end
  end.

Definition crawlPage (url : string) : outcome CrawlResult :=
  match fastLoop url 2 0 None with
  | inl r => Returned r
  | inr fr => crawlWithPlaywright url fr
  end.

End WithWorld.

End Crawl.


(* ================================================================== *)
(** * Comparisons of numbers *)

Definition Qleb (x y : Q) : bool := Qle_bool x y.     (* x <= y *)
Definition Qltb (x y : Q) : bool := negb (Qle_bool y x).   (* x < y *)
Definition Qgeb (x y : Q) : bool := Qle_bool y x.     (* x >= y *)
Definition Qgtb (x y : Q) : bool := negb (Qle_bool x y).   (* x > y *)

Definition Qsum (l : list Q) : Q := fold_left Qplus l 0%Q.

Definition ofBool (b : bool) : Q := if b then 1%Q else 0%Q.

(* ================================================================== *)
(** * services/discoveryService.ts *)

Module Discovery.

Record DiscoveryResult : Type := {
  primaryProductUrl : option string;
  backupUrls : list string;
  pdfUrls : list string;
  confidence : Level
}.

Record SerperResult : Type := {
  link : string;
  title : string;
  snippet : string
}.

Record Scored : Type := {
  url : string;
  score : Q
}.

Record Features : Type := {
  f_url : string;
  mpnInUrl : Q;
  mpnInTitle : Q;
  mfgInText : Q;
  productPath : Q;
  domainTrust : Q;
  junkPath : Q
}.

(** The search backend, the URL parser behind [new URL(u).hostname]
    ([None] when it throws) and [Math.exp]. *)
Record World : Type := {
  runSerperQuery : string -> outcome (list SerperResult);
  hostname : string -> option string;
  mathExp : Q -> Q
}.

Definition isBlogOrForum (u : string) : bool :=
  JS.includes u "blog" || JS.includes u "forum" ||
  JS.includes u "reddit" || JS.includes u "stackexchange".

Fixpoint countChar (c : ascii) (s : string) : nat :=
  match s with
  | EmptyString => 0
  | String d t => (if Ascii.eqb c d then 1 else 0) + countChar c t
  end.

Definition bootstrapDomainTrust (domain : string) : Q :=
  if negb (JS.truthy domain) then 0.0
  else if JS.includes domain "forum" || JS.includes domain "reddit" then -0.7
  else if JS.includes domain "blog" then -0.6
  else if JS.includes domain "viewer" then -0.4
  else if JS.includes domain "datasheet" then -0.3
  else if JS.includes domain "digikey" then 0.9
  else if JS.includes domain "mouser" then 0.9
  else if JS.includes domain "tti" then 0.9
  else if JS.includes domain "rs-online" || JS.includes domain "rs-components"
       then 0.9
  else if JS.includes domain "farnell" || JS.includes domain "newark" then 0.9
  (* [domain.split(".").length === 2]: exactly one dot *)
  else if (countChar "." domain =? 1)%nat then 0.4
  else 0.0.

Section WithWorld.

Variable W : World.

Definition extractDomain (u : string) : string :=
  match hostname W u with
  | Some h => if prefix "www." h then JS.dropStr 4 h else h
  | None => EmptyString
  end.

Definition featuresOf (mpnLower mfgLower : string) (r : SerperResult)
  : Features :=
  let u := JS.toLowerCase (link r) in
  let t := JS.toLowerCase (title r) in
  let sn := JS.toLowerCase (snippet r) in
  {| f_url := link r;
     mpnInUrl := ofBool (JS.includes u mpnLower);
     mpnInTitle := ofBool (JS.includes t mpnLower);
     mfgInText := ofBool (JS.includes t mfgLower || JS.includes sn mfgLower);
     productPath :=
       ofBool (JS.includes u "/product" || JS.includes u "/products/");
     domainTrust := bootstrapDomainTrust (extractDomain u);
     junkPath :=
       ofBool (JS.includes u "/search" || JS.includes u "?q=" ||
               isBlogOrForum u) |}.

(** [features.reduce((sum, f) => sum + f.x, 0) / (features.length || 1)] *)
Definition meanOf (sel : Features -> Q) (fs : list Features) : Q :=
  (Qsum (map sel fs) /
   inject_Z (Z.of_nat (match List.length fs with O => 1%nat | n => n end)))%Q.

Definition weights : list Q := [4.2; 3.4; 2.6; 2.0; 1.6; -3.8]%Q.
Definition bias : Q := 0.0.

(** [linear += weights[i] * x[i]] for [i] over the positions of [x] *)
Fixpoint linearModel (acc : Q) (ws xs : list Q) : Q :=
  match ws, xs with
  | w :: ws', x :: xs' => linearModel (acc + w * x)%Q ws' xs'
  | _, _ => acc
  end.

Definition scoreOne (fs : list Features) (f : Features) : Scored :=
  let x := [ mpnInUrl f - meanOf mpnInUrl fs;
             mpnInTitle f - meanOf mpnInTitle fs;
             mfgInText f - meanOf mfgInText fs;
             productPath f - meanOf productPath fs;
             domainTrust f - meanOf domainTrust fs;
             junkPath f - meanOf junkPath fs ]%Q in
  let linear := linearModel bias weights x in
  {| url := f_url f; score := (1 / (1 + mathExp W (- linear)))%Q |}.

(** [Array.prototype.sort((a, b) => b.score - a.score)]: stable, by
    descending score. *)
Fixpoint insertByScore (x : Scored) (l : list Scored) : list Scored :=
  match l with
  | [] => [x]
  | y :: t =>
      if Qltb (score y) (score x) then x :: y :: t
      else y :: insertByScore x t
  end.

Definition sortByScore (l : list Scored) : list Scored :=
  fold_left (fun acc x => insertByScore x acc) l [].

Definition scoreResults (results : list SerperResult)
  (mpn manufacturer : string) : list Scored :=
  let mpnLower := JS.toLowerCase mpn in
  let mfgLower := JS.toLowerCase manufacturer in
  let features := map (featuresOf mpnLower mfgLower) results in
  sortByScore (map (scoreOne features) features).

Definition isPdfUrl (r : Scored) : bool :=
  JS.endsWith (JS.toLowerCase (url r)) ".pdf".

(** The confidence of a ranking with a primary: the immediately invoked
    arrow function of the final [return]. *)
Definition rankingConfidence (primary : Scored) (second : option Scored)
  : Level :=
  match second with
  | None => high
  | Some s =>
      let separation := (score primary - score s)%Q in
      if Qgtb separation 0.15 then high
      else if Qgtb separation 0.05 then medium
      else low
  end.

Definition discoverProductSources (mpn manufacturer : string)
  : outcome DiscoveryResult :=
  results <- runSerperQuery W
    (JS.dq ++ mpn ++ JS.dq ++ " " ++ JS.dq ++ manufacturer ++ JS.dq) ;;
  let scored := scoreResults results mpn manufacturer in
  match scored with
  | [] =>
      pdfResults <- runSerperQuery W
        (JS.dq ++ mpn ++ JS.dq ++ " datasheet pdf") ;;
      let pdfOnly :=
        map url (filter isPdfUrl (scoreResults pdfResults mpn manufacturer)) in
      Returned {| primaryProductUrl := None;
                  backupUrls := [];
                  pdfUrls := firstn 3 pdfOnly;
                  confidence :=
                    match pdfOnly with [] => low | _ => medium end |}
  | primary :: _ =>
      let backups :=
        map url
          (firstn 3
             (filter (fun r => negb (String.eqb (url r) (url primary)))
                     scored)) in
      let pdfs := map url (filter isPdfUrl scored) in
      Returned {| primaryProductUrl := Some (url primary);
                  backupUrls := backups;
                  pdfUrls := firstn 3 pdfs;
                  confidence := rankingConfidence primary (nth_error scored 1) |}
  end.

End WithWorld.

End Discovery.

(* ================================================================== *)
(** * Plain objects used as string-keyed records *)

Module Rec.

Section Assoc.
Variable V : Type.

Definition t : Type := list (string * V).

Fixpoint lookup (k : string) (m : t) : option V :=
  match m with
  | [] => None
  | (k', v) :: r => if String.eqb k k' then Some v else lookup k r
  end.

(** [m[k] = v]: an existing key keeps its position, a new key goes last. *)
Fixpoint set (k : string) (v : V) (m : t) : t :=
  match m with
  | [] => [(k, v)]
  | (k', v') :: r =>
      if String.eqb k k' then (k, v) :: r else (k', v') :: set k v r
  end.

Definition keys (m : t) : list string := map fst m.
Definition values (m : t) : list V := map snd m.
Definition has (k : string) (m : t) : bool :=
  match lookup k m with Some _ => true | None => false end.

End Assoc.

(** The property names every object literal inherits from
    [Object.prototype]; [k in o] and [o[k]] see them as well. *)
Definition objectPrototypeKeys : list string :=
  [ "constructor"; "__proto__"; "hasOwnProperty"; "isPrototypeOf";
    "propertyIsEnumerable"; "toLocaleString"; "toString"; "valueOf";
    "__defineGetter__"; "__defineSetter__"; "__lookupGetter__";
    "__lookupSetter__" ].

Definition inherited (k : string) : bool :=
  existsb (String.eqb k) objectPrototypeKeys.

(** [!!m[k]] for a record of strings and a key that is not inherited. *)
Definition truthyAt (k : string) (m : t string) : bool :=
  match lookup k m with Some v => JS.truthy v | None => false end.

End Rec.

Arguments Rec.lookup {V} k m.
Arguments Rec.set {V} k v m.
Arguments Rec.keys {V} m.
Arguments Rec.values {V} m.
Arguments Rec.has {V} k m.

(** [a || b] on optional strings: the first truthy operand, else the last
    one. *)
Definition orElse (a b : option string) : option string :=
  match a with
  | Some s => if JS.truthy s then a else b
  | None => b
  end.

(** [a || null] *)
Definition orNull (a : option string) : option string :=
  match a with
  | Some s => if JS.truthy s then a else None
  | None => None
  end.

(** [a || ""] *)
Definition orEmpty (a : option string) : string :=
  match a with Some s => s | None => EmptyString end.

(* ================================================================== *)
(** * Hand-compiled regular expressions of [promoteSpecsFromText]

    All five tests carry the [i] flag: they are run on the lower-cased
    text with lower-case literals (the two characters after the digit in
    the second alternative of [phase] are not ASCII and are compared as
    they are). *)

Module Rx.

Definition lit (p s : string) : option string :=
  if prefix p s then Some (JS.dropStr (String.length p) s) else None.

(** [\s*] *)
Definition spaces0 (s : string) : string := JS.trimStart s.

(** [\s+] *)
Definition spaces1 (s : string) : option string :=
  match s with
  | String c t => if JS.isSpace c then Some (JS.trimStart t) else None
  | EmptyString => None
  end.

(** [[-\s]?] before a literal that starts with a letter: taking the
    separator when it is there loses no match. *)
Definition optDashSpace (s : string) : string :=
  match s with
  | String c t => if Ascii.eqb c "-" || JS.isSpace c then t else s
  | EmptyString => s
  end.

Definition isWord (c : option ascii) : bool :=
  match c with Some x => JS.isWordChar x | None => false end.

Definition andThen (m : option string) (k : string -> bool) : bool :=
  match m with Some s => k s | None => false end.

(** A match starting at some position of the text; the matcher sees the
    character before that position. *)
Fixpoint anywhere (m : option ascii -> string -> bool)
  (prev : option ascii) (s : string) : bool :=
  if m prev s then true
  else match s with
       | EmptyString => false
       | String c t => anywhere m (Some c) t
       end.

Definition test (m : option ascii -> string -> bool) (text : string) : bool :=
  anywhere m None (JS.toLowerCase text).

(** [/120\s*\/\s*240\s*V/i] *)
Definition voltage (_ : option ascii) (s : string) : bool :=
  andThen (lit "120" s) (fun s1 =>
  andThen (lit "/" (spaces0 s1)) (fun s2 =>
  andThen (lit "240" (spaces0 s2)) (fun s3 =>
  andThen (lit "v" (spaces0 s3)) (fun _ => true)))).

(** [/\b1\s*PH\b|\b1Ã˜\b|\bSingle[-\s]?Phase\b/i] *)
Definition phase (prev : option ascii) (s : string) : bool :=
  negb (isWord prev) &&
  ( andThen (lit "1" s) (fun s1 =>
      andThen (lit "ph" (spaces0 s1)) (fun s2 =>
        negb (isWord (String.get 0 s2))))
  || andThen (lit "1Ã˜" s) (fun s1 => isWord (String.get 0 s1))
  || andThen (lit "single" s) (fun s1 =>
       andThen (lit "phase" (optDashSpace s1)) (fun s2 =>
         negb (isWord (String.get 0 s2)))) ).

(** [/200\s*A(MP)?/i] *)
Definition amps (_ : option ascii) (s : string) : bool :=
  andThen (lit "200" s) (fun s1 =>
  andThen (lit "a" (spaces0 s1)) (fun _ => true)).

(** [/downline|sub[-\s]?panel/i] *)
Definition downline (_ : option ascii) (s : string) : bool :=
  prefix "downline" s ||
  andThen (lit "sub" s) (fun s1 =>
  andThen (lit "panel" (optDashSpace s1)) (fun _ => true)).

(** [/surge\s+protection/i] *)
Definition surge (_ : option ascii) (s : string) : bool :=
  andThen (lit "surge" s) (fun s1 =>
  andThen (spaces1 s1) (fun s2 => prefix "protection" s2)).

End Rx.

(* ================================================================== *)
(** * services/extractService.ts *)

Module Extract.

Inductive Reason : Type :=
| no_html | blocked | non_product | parse_error | low_quality.

Record Datasheet : Type := {
  ds_url : string;
  ds_label : option string
}.

Record ExtractResult : Type := {
  ok : bool;
  reason : option Reason;
  qualityScore : option Q;
  sourceUrl : string;
  displayTitle : option string;
  canonicalTitle : string;
  productTitle : string;
  mpn : string;
  manufacturer : option string;
  specs : Rec.t string;
  overview : option string;
  images : list string;
  datasheets : list Datasheet
}.

(** What the DOM library ([cheerio]) reports about a loaded page: the
    attribute and text lookups of stages B to G, and the results of the
    three selector walks [extractDatasheets], [extractImages] and
    [extractSpecs], and of the two script scans. *)
Record Dom : Type := {
  metaDescriptionAttr : option string;  (* meta[name="description"] content *)
  ogDescriptionAttr : option string;    (* meta[property="og:description"] *)
  ogTitleAttr : option string;          (* meta[property="og:title"] *)
  twitterTitleAttr : option string;     (* meta[name="twitter:title"] *)
  h1Text : string;                      (* $("h1").first().text() *)
  titleText : string;                   (* $("title").text() *)
  bcWeight : option string;             (* BCData product_attributes.weight.formatted *)
  bcSku : option string;                (* BCData product_attributes.sku *)
  jsonLdDescription : option string;    (* first JSON-LD Product description *)
  domDatasheets : list Datasheet;       (* extractDatasheets($, sourceUrl) *)
  domImages : list string;              (* extractImages($, sourceUrl) *)
  domSpecs : Rec.t string               (* extractSpecs($) *)
}.

Record World : Type := {
  load : string -> option Dom;                    (* [None]: cheerio.load throws *)
  decodeURIComponent : string -> option string    (* [None]: URIError *)
}.

Record Params : Type := {
  p_html : option string;
  p_sourceUrl : string;
  p_mpn : string;
  p_manufacturer : option string
}.

(** [`${manufacturer ?? ""} ${mpn}`.trim()] *)
Definition fallbackTitle (manufacturer : option string) (mpn : string)
  : string :=
  JS.trim (orEmpty manufacturer ++ " " ++ mpn).

Definition fail (r : Reason) (sourceUrl mpn : string)
  (manufacturer : option string) : ExtractResult :=
  let canonicalTitle := fallbackTitle manufacturer mpn in
  {| ok := false; reason := Some r; qualityScore := None;
     sourceUrl := sourceUrl; displayTitle := None;
     canonicalTitle := canonicalTitle; productTitle := canonicalTitle;
     mpn := mpn; manufacturer := manufacturer;
     specs := []; overview := None; images := []; datasheets := [] |}.

(** [s.replace(/\s+/g, " ")] *)
Fixpoint collapseSpaces (inRun : bool) (s : string) : string :=
  match s with
  | EmptyString => EmptyString
  | String c t =>
      if JS.isSpace c
      then if inRun then collapseSpaces true t
           else String " " (collapseSpaces true t)
      else String c (collapseSpaces false t)
  end.

(** [s.replace(/[\n\r\t]/g, " ")] *)
Definition blankControls : string -> string :=
  JS.mapStr (fun c =>
    if Ascii.eqb c (ascii_of_nat 10) || Ascii.eqb c (ascii_of_nat 13) ||
       Ascii.eqb c (ascii_of_nat 9) then " "%char else c).

Definition cleanText (input : option string) : option string :=
  match input with
  | None => None
  | Some s =>
      if negb (JS.truthy s) then None
      else Some (JS.trim (blankControls (collapseSpaces false s)))
  end.

Definition promoteSpecsFromText (text : string) : Rec.t string :=
  let p0 : Rec.t string := [] in
  let p1 := if Rx.test Rx.voltage text
            then Rec.set "System Voltage" "120/240 V" p0 else p0 in
  let p2 := if Rx.test Rx.phase text
            then Rec.set "Phase" "Single Phase" p1 else p1 in
  let p3 := if Rx.test Rx.amps text
            then Rec.set "Max Service Size" "200 A" p2 else p2 in
  let p4 := if Rx.test Rx.downline text
            then Rec.set "Application" "Downline / Sub-panel Protection" p3
            else p3 in
  let p5 := if Rx.test Rx.surge text
            then Rec.set "Product Type" "Surge Protection Device" p4
            else p4 in
  p5.

Definition looksLikeChallenge (lowerHtml : string) : bool :=
  JS.includes lowerHtml "__cf_chl" ||
  JS.includes lowerHtml "cf-challenge" ||
  JS.includes lowerHtml "attention required" ||
  JS.includes lowerHtml "verify you are human".

Definition looksLikeDistributor (sourceUrl : string) : bool :=
  JS.includes sourceUrl "/product" ||
  JS.includes sourceUrl "/products" ||
  JS.includes sourceUrl "mc-mc.com" ||
  JS.includes sourceUrl "dosupply.com" ||
  JS.includes sourceUrl "radwell" ||
  JS.includes sourceUrl "gerrie" ||
  JS.includes sourceUrl "mro".

(** Stage A. [None] when every guardrail is passed. *)
Definition guardrails (p : Params) : option Reason :=
  match p_html p with
  | None => Some no_html
  | Some h =>
      if negb (JS.truthy h) then Some no_html
      else
        let lowerHtml := JS.toLowerCase h in
        if (JS.len h <? 12000)%Z && looksLikeChallenge lowerHtml
        then Some blocked
        else
          let normalizedMpn :=
            JS.toLowerCase (JS.stripDashSpace (p_mpn p)) in
          let normalizedHtml := JS.stripDashSpace lowerHtml in
          if negb (JS.includes normalizedHtml normalizedMpn) &&
             negb (looksLikeDistributor (p_sourceUrl p))
          then Some non_product
          else None
  end.

(** [for (const c of candidates) { ... break; }] *)
Fixpoint pickTitle (normalizedMpn : string) (candidates : list string)
  (current : string) : string :=
  match candidates with
  | [] => current
  | c :: r =>
      if JS.includes (JS.stripDashSpace (JS.toLowerCase c)) normalizedMpn
      then c
      else pickTitle normalizedMpn r current
  end.

Record FeatureVector : Type := {
  hasTitle : bool;
  hasSpecs : bool;
  hasImages : bool;
  hasDatasheets : bool;
  hasOverview : bool
}.

Definition longerThan (n : Z) (s : option string) : bool :=
  match s with
  | Some t => JS.truthy t && (n <? JS.len t)%Z
  | None => false
  end.

Definition nonEmpty {A} (l : list A) : bool :=
  match l with [] => false | _ => true end.

(** The weighted linear model of stage H. *)
Definition qualityOf (fv : FeatureVector) : Q :=
  (0.30 * ofBool (hasSpecs fv) +
   0.25 * ofBool (hasDatasheets fv) +
   0.20 * ofBool (hasImages fv) +
   0.15 * ofBool (hasTitle fv) +
   0.10 * ofBool (hasOverview fv))%Q.

(** Stages C to G: the fields of the result before scoring. *)
Definition gather (W : World) (p : Params) (d : Dom) : ExtractResult :=
  let mpn := p_mpn p in
  let manufacturer := p_manufacturer p in
  let normalizedMpn := JS.toLowerCase (JS.stripDashSpace mpn) in
  let metaDescription := cleanText (metaDescriptionAttr d) in
  let ogDescription := cleanText (ogDescriptionAttr d) in
  (* Stage C *)
  let displayTitle :=
    orNull (cleanText
      (orElse (ogTitleAttr d)
         (orElse (twitterTitleAttr d)
            (orElse (Some (h1Text d)) (Some (titleText d)))))) in
  let h1 := orEmpty (cleanText (Some (h1Text d))) in
  let ogTitle := orEmpty (cleanText (ogTitleAttr d)) in
  let docTitle := orEmpty (cleanText (Some (titleText d))) in
  let candidates := filter JS.truthy [h1; ogTitle; docTitle] in
  let productTitleCandidate :=
    pickTitle normalizedMpn candidates (fallbackTitle manufacturer mpn) in
  let canonicalTitle :=
    if JS.truthy productTitleCandidate &&
       JS.includes (JS.toLowerCase productTitleCandidate) (JS.toLowerCase mpn)
    then productTitleCandidate
    else fallbackTitle manufacturer mpn in
  (* Stage D *)
  let overview0 := orNull (cleanText (metaDescriptionAttr d)) in
  let overview :=
    match overview0, orNull (jsonLdDescription d) with
    | None, Some j =>
        match decodeURIComponent W j with
        | Some dec => Some dec
        | None => Some j
        end
    | _, _ => overview0
    end in
  (* Stages E, F, G *)
  let specs0 := domSpecs d in
  let specs1 :=
    match orNull (bcWeight d) with
    | Some w => if negb (Rec.truthyAt "Weight" specs0)
                then Rec.set "Weight" w specs0 else specs0
    | None => specs0
    end in
  let specs2 :=
    match orNull (bcSku d) with
    | Some s => if negb (Rec.truthyAt "SKU" specs1)
                then Rec.set "SKU" s specs1 else specs1
    | None => specs1
    end in
  let promotionText :=
    String.concat " "
      (filter JS.truthy [orEmpty metaDescription; orEmpty ogDescription]) in
  let specs3 :=
    fold_left
      (fun acc kv => if negb (Rec.truthyAt (fst kv) acc)
                     then Rec.set (fst kv) (snd kv) acc else acc)
      (promoteSpecsFromText promotionText) specs2 in
  {| ok := true; reason := None; qualityScore := None;
     sourceUrl := p_sourceUrl p; displayTitle := displayTitle;
     canonicalTitle := canonicalTitle; productTitle := productTitleCandidate;
     mpn := mpn; manufacturer := manufacturer;
     specs := specs3; overview := overview;
     images := domImages d; datasheets := domDatasheets d |}.

Definition featureVector (g : ExtractResult) : FeatureVector :=
  {| hasTitle := longerThan 15 (displayTitle g);
     hasSpecs := nonEmpty (Rec.keys (specs g));
     hasImages := nonEmpty (images g);
     hasDatasheets := nonEmpty (datasheets g);
     hasOverview := longerThan 40 (overview g) |}.

Definition withVerdict (g : ExtractResult) (okv : bool) (r : option Reason)
  (q : Q) : ExtractResult :=
  {| ok := okv; reason := r; qualityScore := Some q;
     sourceUrl := sourceUrl g; displayTitle := displayTitle g;
     canonicalTitle := canonicalTitle g; productTitle := productTitle g;
     mpn := mpn g; manufacturer := manufacturer g;
     specs := specs g; overview := overview g;
     images := images g; datasheets := datasheets g |}.

Definition extractFromHtml (W : World) (p : Params) : ExtractResult :=
  match guardrails p with
  | Some r => fail r (p_sourceUrl p) (p_mpn p) (p_manufacturer p)
  | None =>
      match load W (orEmpty (p_html p)) with
      | None => fail parse_error (p_sourceUrl p) (p_mpn p) (p_manufacturer p)
      | Some d =>
          let g := gather W p d in
          let q := qualityOf (featureVector g) in
          if Qltb q 0.30
          then withVerdict g false (Some low_quality) q
          else withVerdict g true None q
      end
  end.

End Extract.

(* ================================================================== *)
(** * services/pdfExtractService.ts *)

Module Pdf.

Record PdfSpec : Type := {
  model : string;
  key : string;
  value : string;
  source : option string      (* { url } *)
}.

Record PdfRawRow : Type := {
  r_key : string;
  raw : string
}.

Record PdfExtractionResult : Type := {
  detectedModels : list string;
  specs : list PdfSpec;
  rawRows : list PdfRawRow;
  features : list string;
  rawText : string;
  overviewText : option string;
  sidebarBullets : option (list string)
}.

(** The JSON object the model answers with; a [null] value is [None]. *)
Record GeminiMappedResult : Type := {
  g_model : string;
  g_specs : Rec.t (option string);
  g_overview : option string;
  g_highlights : option (list string)
}.

(** What [extractSpecs] leaves in the three properties it stores on
    itself. *)
Record TableScan : Type := {
  t_rawRows : list PdfRawRow;
  t_overviewText : string;
  t_sidebarBullets : list string
}.

(** Download, PDF library and language model, and the regular-expression
    passes over the text, which are taken as given functions of their
    arguments. *)
Record World : Type := {
  fetchPdfBuffer : string -> outcome string;
  parsePdfText : string -> outcome string;
  normalizePdfText : string -> string;
  repairModelTokens : string -> string;
  detectModels : string -> list string;
  extractSpecs : string -> list string -> string -> TableScan;
  extractFeatures : string -> list string -> list string;
  mapWithGemini :
    option string -> list string -> list PdfRawRow ->
    outcome GeminiMappedResult
}.

Definition rowCountError (n : nat) : string :=
  "Spec table incomplete: expected ~20 rows, got " ++ JS.natToString n.

Definition includesModel (models : list string) (m : string) : bool :=
  existsb (String.eqb m) models.

(** [targetModel && detectedModels.includes(targetModel) ? targetModel
    : detectedModels[0]] *)
Definition resolvedTargetModel (targetModel : option string)
  (detected : list string) : option string :=
  match targetModel with
  | Some m => if JS.truthy m && includesModel detected m
              then Some m else hd_error detected
  | None => hd_error detected
  end.

Section WithWorld.

Variable W : World.

(** Everything after the row-count gate. *)
Definition mapRows (pdfUrl : string) (targetModel : option string)
  (rawText text : string) (detected : list string) (rows : list PdfRawRow)
  : outcome PdfExtractionResult :=
  let feats := extractFeatures W text detected in
  geminiResult <-
    mapWithGemini W (resolvedTargetModel targetModel detected) detected rows ;;
  let specsMapped :=
    map (fun kv =>
           {| model := g_model geminiResult;
              key := fst kv;
              value := match snd kv with Some v => v | None => "N/A" end;
              source := Some pdfUrl |})
        (g_specs geminiResult) in
  Returned {| detectedModels := detected;
              specs := specsMapped;
              rawRows := rows;
              features := feats;
              rawText := rawText;
              overviewText := g_overview geminiResult;
              sidebarBullets := g_highlights geminiResult |}.

Definition extractFromPdf (pdfUrl : string) (targetModel : option string)
  : outcome PdfExtractionResult :=
  buffer <- fetchPdfBuffer W pdfUrl ;;
  rawText <- parsePdfText W buffer ;;
  let text := normalizePdfText W rawText in
  let repairedText := repairModelTokens W text in
  let detected := detectModels W repairedText in
  let scan := extractSpecs W text detected pdfUrl in
  let rows := t_rawRows scan in
  if (List.length rows <? 18)%nat
  then Thrown (rowCountError (List.length rows))
  else mapRows pdfUrl targetModel rawText text detected rows.

End WithWorld.

End Pdf.

(* ================================================================== *)
(** * Parsed JSON values *)

Module Json.

#[warnings="-register-all"]
Inductive t : Type :=
| JNull
| JBool (b : bool)
| JNum (repr : string)      (* the number, as [String(n)] prints it *)
| JStr (s : string)
| JArr (items : list t)
| JObj (fields : list (string * t)).

(** [String(v)] *)
Fixpoint toString (v : t) : string :=
  match v with
  | JNull => "null"
  | JBool true => "true"
  | JBool false => "false"
  | JNum r => r
  | JStr s => s
  | JArr items =>
      (* [Array.prototype.join]: [null] elements print as nothing *)
      String.concat ","
        (map (fun x => match x with JNull => EmptyString | _ => toString x end)
             items)
  | JObj _ => "[object Object]"
  end.

(** [items.join(sep)] *)
Definition join (sep : string) (items : list t) : string :=
  String.concat sep
    (map (fun x => match x with JNull => EmptyString | _ => toString x end)
         items).

(** [!!v] *)
Definition truthy (v : t) : bool :=
  match v with
  | JNull => false
  | JBool b => b
  | JNum r => negb (String.eqb r "0" || String.eqb r "-0" || String.eqb r "NaN")
  | JStr s => JS.truthy s
  | JArr _ | JObj _ => true
  end.

(** [v.k] and [v?.k], for the property names the services read: own
    properties of an object; [undefined] otherwise. *)
Definition prop (k : string) (v : option t) : option t :=
  match v with
  | Some (JObj fields) =>
      match Rec.lookup k fields with
      | Some JNull => None
      | r => r
      end
  | _ => None
  end.

(** [typeof v === "string" && v], as the truthy string or nothing. *)
Definition asTruthyString (v : option t) : option string :=
  match v with
  | Some (JStr s) => if JS.truthy s then Some s else None
  | _ => None
  end.

(** [Array.isArray(v) ? v : ...] *)
Definition asArray (v : option t) : option (list t) :=
  match v with
  | Some (JArr items) => Some items
  | _ => None
  end.

Fixpoint indexed (i : nat) (items : list t) : list (string * t) :=
  match items with
  | [] => []
  | x :: r => (JS.natToString i, x) :: indexed (S i) r
  end.

Fixpoint chars (i : nat) (s : string) : list (string * t) :=
  match s with
  | EmptyString => []
  | String c r => (JS.natToString i, JStr (String c EmptyString)) :: chars (S i) r
  end.

(** [Object.entries(v)] for a truthy [v] *)
Definition entries (v : t) : list (string * t) :=
  match v with
  | JObj fields => fields
  | JArr items => indexed 0 items
  | JStr s => chars 0 s
  | _ => []
  end.

End Json.

(* ================================================================== *)
(** * services/synthesizeService.ts *)

Module Synth.

Record SynthesisInput : Type := {
  mpn : string;
  manufacturer : string;
  canonicalTitle : string;
  specs : Rec.t string;
  images : list string;
  datasheets : list Extract.Datasheet;
  notes : option (list string);
  verbatimDescriptors : list string
}.

Record SynthesisOutput : Type := {
  o_canonicalTitle : string;
  o_displayTitle : option string;
  keyFeatures : list string;
  overview : string;
  shortDescription : string;
  longDescription : string;
  bulletHighlights : list string;
  seoDescription : string;
  disclaimers : list string;
  o_confidence : option Q            (* _confidence *)
}.

(** The language model ([client.models.generateContent] and the choice of
    the answer's text) and [extractJson], whose work is done by
    [JSON.parse]. *)
Record World : Type := {
  generateContent : SynthesisInput -> outcome string;
  extractJson : string -> outcome Json.t
}.

(** [Array.isArray(out.f) ? out.f.map(s => String(s).trim()).filter(Boolean) : []] *)
Definition stringList (out : Json.t) (f : string) : list string :=
  match Json.asArray (Json.prop f (Some out)) with
  | Some items =>
      filter JS.truthy (map (fun s => JS.trim (Json.toString s)) items)
  | None => []
  end.

(** [String(out.f ?? "").trim()] *)
Definition stringField (out : Json.t) (f : string) : string :=
  match Json.prop f (Some out) with
  | Some v => JS.trim (Json.toString v)
  | None => EmptyString
  end.

(** [f.replace(/^[^:]+:\s*/, "")] *)
Definition stripLabel (f : string) : string :=
  match JS.indexOfChar ":" f with
  | Some (S n) => JS.trimStart (JS.dropStr (S (S n)) f)
  | _ => f
  end.

Definition isObject (out : Json.t) : bool :=
  match out with
  | Json.JArr _ | Json.JObj _ => true
  | _ => false
  end.

Definition normalizeSynthesisOutput (out : Json.t) (canonicalTitle : string)
  : outcome SynthesisOutput :=
  if negb (isObject out) then Thrown "Gemini returned non-object JSON"
  else
    let keyFeatures := stringList out "keyFeatures" in
    let overview0 := stringField out "overview" in
    let shortDescriptionRaw := stringField out "shortDescription" in
    let longDescription := stringField out "longDescription" in
    let bulletHighlights := stringList out "bulletHighlights" in
    let seo0 := stringField out "seoDescription" in
    let seoDescription :=
      if (160 <? JS.len seo0)%Z then JS.trim (JS.takeStr 160 seo0) else seo0 in
    let disclaimers := stringList out "disclaimers" in
    let finalKeyFeatures :=
      match keyFeatures with [] => bulletHighlights | _ => keyFeatures end in
    let finalBulletHighlights :=
      match bulletHighlights with [] => keyFeatures | _ => bulletHighlights end in
    let overview :=
      if negb (JS.truthy overview0) &&
         (4 <=? List.length finalKeyFeatures)%nat
      then "The " ++ canonicalTitle ++
           " is a digital input module designed for industrial automation systems. " ++
           "Based on available specifications, it supports " ++
           String.concat ", " (map stripLabel finalKeyFeatures) ++ "."
      else overview0 in
    let shortDescription :=
      if negb (JS.truthy shortDescriptionRaw) &&
         (0 <? List.length finalKeyFeatures)%nat
      then "The " ++ canonicalTitle ++
           " is a digital input module featuring " ++
           String.concat " and " (firstn 2 finalKeyFeatures) ++ "."
      else shortDescriptionRaw in
    Returned {| o_canonicalTitle := canonicalTitle;
                o_displayTitle := None;
                keyFeatures := finalKeyFeatures;
                overview := overview;
                shortDescription := shortDescription;
                longDescription := longDescription;
                bulletHighlights := finalBulletHighlights;
                seoDescription := seoDescription;
                disclaimers := disclaimers;
                o_confidence := None |}.

(** [Array.from(new Set(l))] *)
Fixpoint dedupe (seen l : list string) : list string :=
  match l with
  | [] => []
  | x :: r =>
      if existsb (String.eqb x) seen then dedupe seen r
      else x :: dedupe (x :: seen) r
  end.

(** [set.add(x)] on a set kept as its list of elements in insertion
    order. *)
Definition setAdd (x : string) (l : list string) : list string :=
  if existsb (String.eqb x) l then l else l ++ [x].

Definition missingNotice : string :=
  "Some specifications were not provided and are listed as Not specified.".

Definition installationNotice : string :=
  "Installation should follow local electrical codes and be performed by qualified personnel.".

Definition validateAgainstInput (input : SynthesisInput)
  (output : SynthesisOutput) : SynthesisOutput :=
  let title :=
    if JS.includes (o_canonicalTitle output) ".com" ||
       JS.includes (o_canonicalTitle output) ".net"
    then manufacturer input ++ " " ++ mpn input
    else o_canonicalTitle output in
  let inputSpecKeys := dedupe [] (Rec.keys (specs input)) in
  let keyFeaturesChanged := false in
  let filteredKeyFeatures := keyFeatures output in
  let anySpecMissing :=
    existsb
      (fun val => negb (JS.truthy val) ||
                  String.eqb (JS.toLowerCase (JS.trim val)) "not specified")
      (Rec.values (specs input)) in
  let disclaimersSet := dedupe [] (disclaimers output) in
  let disclaimersSet1 :=
    if anySpecMissing || keyFeaturesChanged
    then setAdd missingNotice disclaimersSet else disclaimersSet in
  let disclaimersSet2 := setAdd installationNotice disclaimersSet1 in
  {| o_canonicalTitle := title;
     o_displayTitle := o_displayTitle output;
     keyFeatures := filteredKeyFeatures;
     overview := overview output;
     shortDescription := shortDescription output;
     longDescription := longDescription output;
     bulletHighlights := bulletHighlights output;
     seoDescription := seoDescription output;
     disclaimers := disclaimersSet2;
     o_confidence := o_confidence output |}.

(** The label of a key feature: [feature.slice(0, colonIndex).trim()],
    when the feature has a colon. *)
Definition labelOf (feature : string) : option string :=
  match JS.indexOfChar ":" feature with
  | Some i => Some (JS.trim (JS.takeStr i feature))
  | None => None
  end.

(** [label in input.specs] *)
Definition inSpecs (label : string) (sp : Rec.t string) : bool :=
  Rec.has label sp || Rec.inherited label.

Definition Qmin (a b : Q) : Q := if Qleb a b then a else b.

Definition computeContentConfidence (input : SynthesisInput)
  (output : SynthesisOutput) : Q :=
  let totalSpecs := List.length (Rec.keys (specs input)) in
  if (totalSpecs =? 0)%nat then 0%Q
  else
    let usedSpecsCount :=
      fold_left
        (fun count feature =>
           match labelOf feature with
           | None => count
           | Some label =>
               if inSpecs label (specs input) then S count else count
           end)
        (keyFeatures output) 0%nat in
    let specFraction :=
      (inject_Z (Z.of_nat usedSpecsCount) /
       inject_Z (Z.of_nat totalSpecs))%Q in
    let hasImages := if Extract.nonEmpty (images input) then 0.1%Q else 0%Q in
    let hasDatasheets :=
      if Extract.nonEmpty (datasheets input) then 0.1%Q else 0%Q in
    Qmin 0.85 (specFraction + hasImages + hasDatasheets)%Q.

Section WithWorld.

Variable W : World.

Definition synthesizeProductContent (input : SynthesisInput)
  : outcome SynthesisOutput :=
  let descriptors :=
    filter JS.truthy (map JS.trim (verbatimDescriptors input)) in
  let resolvedDisplayTitle :=
    if JS.truthy (canonicalTitle input) then canonicalTitle input
    else manufacturer input ++ " " ++ mpn input in
  match Rec.keys (specs input) with
  | [] =>
      let shortDescriptionFallback :=
        match descriptors with
        | [] => EmptyString
        | _ => manufacturer input ++ " " ++ mpn input ++ " " ++
               String.concat " " descriptors
        end in
      Returned {| o_canonicalTitle := canonicalTitle input;
                  o_displayTitle := Some resolvedDisplayTitle;
                  keyFeatures := [];
                  overview := EmptyString;
                  shortDescription := shortDescriptionFallback;
                  longDescription := EmptyString;
                  bulletHighlights := [];
                  seoDescription := EmptyString;
                  disclaimers :=
                    [ "Insufficient verified product data available to generate content.";
                      installationNotice ];
                  o_confidence := Some 0%Q |}
  | _ =>
      text <- generateContent W input ;;
      match
        (parsed <- extractJson W text ;;
         normalized <- normalizeSynthesisOutput parsed (canonicalTitle input) ;;
         Returned (validateAgainstInput input normalized))
      with
      | Returned normalized =>
          let confidence := computeContentConfidence input normalized in
          Returned {| o_canonicalTitle := canonicalTitle input;
                      o_displayTitle := Some resolvedDisplayTitle;
                      keyFeatures := keyFeatures normalized;
                      overview := overview normalized;
                      shortDescription := shortDescription normalized;
                      longDescription := longDescription normalized;
                      bulletHighlights := bulletHighlights normalized;
                      seoDescription := seoDescription normalized;
                      disclaimers := disclaimers normalized;
                      o_confidence := Some confidence |}
      | Thrown _ =>
          Thrown ("Failed to parse Gemini response as JSON. Raw output:" ++
                  String (ascii_of_nat 10) text)
      end
  end.

End WithWorld.

End Synth.

(* ================================================================== *)
(** * services/normalizeProduct.ts *)

Module Normalize.

Inductive SourceType : Type := oem | distributor | pdf | unknown | datasheet.

Definition SourceType_eqb (a b : SourceType) : bool :=
  match a, b with
  | oem, oem | distributor, distributor | pdf, pdf
  | unknown, unknown | datasheet, datasheet => true
  | _, _ => false
  end.

Record Verbatim : Type := {
  heading : option string;
  text : string;
  source : option string
}.

Record Image : Type := {
  url : string;
  alt : option string
}.

Record ExtractedProduct : Type := {
  mpn : string;
  manufacturer : string;
  sourceUrl : string;
  sourceType : SourceType;
  confidence : Q;
  canonicalTitle : option string;
  displayTitle : option string;
  specs : Rec.t string;
  verbatimSections : option (list Verbatim);
  images : option (list Image);
  datasheets : option (list Extract.Datasheet);
  rawDatasheet : option Json.t
}.

Record SpecEntry : Type := {
  value : string;
  sources : list string;
  s_confidence : Q
}.

Record VerbatimOut : Type := {
  v_heading : option string;
  v_text : string;
  v_source : string;
  v_confidence : Q
}.

Record ImageOut : Type := {
  i_url : string;
  i_source : string;
  i_confidence : Q
}.

Record DatasheetOut : Type := {
  d_url : string;
  d_label : option string;
  d_source : string
}.

Record NormalizedProduct : Type := {
  n_mpn : string;
  n_manufacturer : string;
  n_canonicalTitle : string;
  n_displayTitle : option string;
  n_specs : Rec.t SpecEntry;
  n_verbatimSections : list VerbatimOut;
  n_images : list ImageOut;
  n_datasheets : list DatasheetOut;
  n_overallConfidence : Q
}.

(** The cached datasheet JSON of an MPN under [data/surgepure/products]:
    [None] when the file does not exist, a throw when reading or parsing
    it fails. *)
Record World : Type := {
  datasheetFile : string -> option (outcome Json.t)
}.

(** ** Datasheet preprocessing *)

(** [s.replace(/_raw$/, "")] *)
Definition dropRawSuffix (s : string) : string :=
  if JS.endsWith s "_raw"
  then JS.takeStr (String.length s - 4) s else s.

(** [s.replace(/_/g, " ")] *)
Definition underscoresToSpaces : string -> string :=
  JS.mapStr (fun c => if Ascii.eqb c "_" then " "%char else c).

(** [s.replace(/\b\w/g, c => c.toUpperCase())]: a word character is
    preceded by a word boundary exactly when no word character precedes
    it. *)
Fixpoint capitalizeWords (prevIsWord : bool) (s : string) : string :=
  match s with
  | EmptyString => EmptyString
  | String c t =>
      String (if JS.isWordChar c && negb prevIsWord then JS.upperChar c else c)
             (capitalizeWords (JS.isWordChar c) t)
  end.

Definition specKeyOf (key : string) : string :=
  capitalizeWords false (underscoresToSpaces (dropRawSuffix key)).

(** [if (raw.group) for (const [key, val] of Object.entries(raw.group)) ...] *)
Definition flattenGroup (group : option Json.t) (sp : Rec.t string)
  : Rec.t string :=
  match group with
  | Some g =>
      if Json.truthy g then
        fold_left
          (fun acc kv =>
             match snd kv with
             | Json.JStr val =>
                 if JS.truthy (JS.trim val)
                 then Rec.set (specKeyOf (fst kv)) (JS.trim val) acc
                 else acc
             | _ => acc
             end)
          (Json.entries g) sp
      else sp
  | None => sp
  end.

Definition firstTruthy (l : list (option string)) : option string :=
  fold_right orElse None l.

Definition overviewTextOf (raw : Json.t) : string :=
  let ov := Json.prop "overview" (Some raw) in
  orEmpty
    (firstTruthy
       [ Json.asTruthyString (Json.prop "marketing_overview" (Some raw));
         Json.asTruthyString (Json.prop "headline_raw" ov);
         Some (match Json.asArray (Json.prop "marketing_text_raw" ov) with
               | Some items => Json.join " " items
               | None => EmptyString
               end);
         Some (match Json.prop "datasheet_title_raw" ov with
               | Some (Json.JStr s) => s
               | _ => EmptyString
               end) ]).

(** The string [systemDesc] holds, if it holds a truthy one. *)
Definition systemDescOf (raw : Json.t) : option string :=
  let ov := Json.prop "overview" (Some raw) in
  orNull
    (firstTruthy
       [ Json.asTruthyString (Json.prop "system_description" (Some raw));
         Json.asTruthyString (Json.prop "system_description_raw" ov);
         Json.asTruthyString (Json.prop "system_description" ov);
         Json.asTruthyString (Json.prop "system_description_text_raw" ov) ]).

Definition firstArray (l : list (option (list Json.t))) : list Json.t :=
  fold_right (fun a r => match a with Some items => items | None => r end) [] l.

Definition bulletsOf (raw : Json.t) : list Json.t :=
  let kf := Json.prop "key_features" (Some raw) in
  firstArray
    [ Json.asArray kf;
      Json.asArray (Json.prop "raw_bullets" kf);
      Json.asArray (Json.prop "bullets" kf);
      Json.asArray (Json.prop "items" kf);
      Json.asArray (Json.prop "raw" kf) ].

Definition section (h t src : string) : Verbatim :=
  {| heading := Some h; text := t; source := Some src |}.

(** The sections one pass of the preprocessing loop pushes onto
    [p.verbatimSections]. *)
Definition pushedSections (src : string) (raw : Json.t) : list Verbatim :=
  ((if JS.truthy (JS.trim (overviewTextOf raw))
    then [section "Overview" (JS.trim (overviewTextOf raw)) src] else []) ++
   (match systemDescOf raw with
    | Some d => if JS.truthy (JS.trim d)
                then [section "System Description" (JS.trim d) src] else []
    | None => []
    end) ++
   flat_map
     (fun bullet =>
        match bullet with
        | Json.JStr b => if JS.truthy (JS.trim b)
                         then [section "Key Feature" (JS.trim b) src] else []
        | _ => []
        end)
     (bulletsOf raw))%list.

Definition isDatasheet (p : ExtractedProduct) : bool :=
  SourceType_eqb (sourceType p) datasheet.

(** The body of the preprocessing loop. It assigns to [p.specs] and pushes
    onto [p.verbatimSections]: the product object is updated in place, so
    the value returned here is the state of that same object after the
    call. [specs] and [confidence] are required fields of
    [ExtractedProduct], so the two defaults the loop sets for a missing
    one never apply. *)
Definition preprocess (p : ExtractedProduct) : ExtractedProduct :=
  match rawDatasheet p with
  | Some raw =>
      if isDatasheet p && Json.truthy raw then
        let sp1 := flattenGroup (Json.prop "electrical_specs" (Some raw)) (specs p) in
        let sp2 := flattenGroup (Json.prop "mechanical_specs" (Some raw)) sp1 in
        let sp3 := flattenGroup (Json.prop "safety_and_compliance" (Some raw)) sp2 in
        let existing :=
          match verbatimSections p with Some l => l | None => [] end in
        {| mpn := mpn p; manufacturer := manufacturer p;
           sourceUrl := sourceUrl p; sourceType := sourceType p;
           confidence := confidence p;
           canonicalTitle := canonicalTitle p; displayTitle := displayTitle p;
           specs := sp3;
           verbatimSections :=
             Some (existing ++ pushedSections (sourceUrl p) raw)%list;
           images := images p; datasheets := datasheets p;
           rawDatasheet := rawDatasheet p |}
      else p
  | None => p
  end.

(** ** Spec merge *)

Definition SPEC_ALIASES : Rec.t string :=
  [ ("System Voltage", "Nominal AC Line Voltage (VRMS)");
    ("Voltage", "Nominal AC Line Voltage (VRMS)");
    ("Nominal Ac Line Voltage Vrms", "Nominal AC Line Voltage (VRMS)");
    ("Nominal Ac Line Voltage (Vrms)", "Nominal AC Line Voltage (VRMS)");
    ("Nominal AC Line Voltage Vrms", "Nominal AC Line Voltage (VRMS)") ].

(** [SPEC_ALIASES[key] ?? key]. For a name inherited from
    [Object.prototype] the lookup yields that member, which is not
    nullish and is then used as a property key, that is, printed. *)
Definition canonicalKey (key : string) : string :=
  match Rec.lookup key SPEC_ALIASES with
  | Some c => c
  | None =>
      if String.eqb key "__proto__" then "[object Object]"
      else if String.eqb key "constructor"
      then "function Object() { [native code] }"
      else if Rec.inherited key
      then "function " ++ key ++ "() { [native code] }"
      else key
  end.

Definition includesUrl (l : list string) (u : string) : bool :=
  existsb (String.eqb u) l.

(** The body of the inner merge loop for one entry of [p.specs]. *)
Definition mergeEntry (p : ExtractedProduct) (merged : Rec.t SpecEntry)
  (kv : string * string) : Rec.t SpecEntry :=
  let key := fst kv in
  let val := snd kv in
  if negb (JS.truthy val) then merged
  else
    let ck := canonicalKey key in
    match Rec.lookup ck merged with
    | None =>
        Rec.set ck {| value := val; sources := [sourceUrl p];
                      s_confidence := confidence p |} merged
    | Some e =>
        let e1 :=
          if Qgtb (confidence p) (s_confidence e)
          then {| value := val; sources := sources e;
                  s_confidence := confidence p |}
          else e in
        let e2 :=
          if negb (includesUrl (sources e1) (sourceUrl p))
          then {| value := value e1; sources := (sources e1 ++ [sourceUrl p])%list;
                  s_confidence := s_confidence e1 |}
          else e1 in
        Rec.set ck e2 merged
    end.

Definition mergeSpecs (products : list ExtractedProduct) : Rec.t SpecEntry :=
  fold_left (fun merged p => fold_left (mergeEntry p) (specs p) merged)
            products [].

Definition remoteAlarmEntry : SpecEntry :=
  {| value := "Yes"; sources := ["variant:RA"]; s_confidence := 0.95 |}.

Definition variantSection : VerbatimOut :=
  {| v_heading := Some "Variant";
     v_text := "Includes remote alarm for system monitoring.";
     v_source := "variant:RA";
     v_confidence := 0.95 |}.

Definition optList {A} (l : option (list A)) : list A :=
  match l with Some x => x | None => [] end.

Definition truthyOpt (s : option string) : bool :=
  match s with Some x => JS.truthy x | None => false end.

(** [products.find(pred)?.field] *)
Definition findField (pred : ExtractedProduct -> bool)
  (field : ExtractedProduct -> option string)
  (products : list ExtractedProduct) : option string :=
  match find pred products with
  | Some p => field p
  | None => None
  end.

Definition orField (a b : option string) : option string :=
  match a with Some _ => a | None => b end.

Section WithWorld.

Variable W : World.

(** The product built from the cached datasheet JSON, when the list has
    no datasheet product and the file exists. *)
Definition injected (products : list ExtractedProduct)
  : outcome (option ExtractedProduct) :=
  match products with
  | [] => Returned None
  | baseProduct :: _ =>
      let mpnForLookup := mpn baseProduct in
      if negb (existsb isDatasheet products) then
        match datasheetFile W mpnForLookup with
        | None => Returned None
        | Some (Thrown e) =>
            Thrown ("Failed to load datasheet JSON for " ++ mpnForLookup ++
                    ": " ++ e)
        | Some (Returned raw) =>
            Returned (Some
              {| mpn := mpnForLookup;
                 manufacturer := manufacturer baseProduct;
                 sourceUrl := "datasheet:" ++ mpnForLookup;
                 sourceType := datasheet;
                 confidence := 0.95;
                 canonicalTitle := None; displayTitle := None;
                 specs := [];
                 verbatimSections := None; images := None; datasheets := None;
                 rawDatasheet := Some raw |})
        end
      else Returned None
  end.

(** The list the merge works on: the injected product first, every
    product preprocessed. *)
Definition effectiveProducts (inj : option ExtractedProduct)
  (products : list ExtractedProduct) : list ExtractedProduct :=
  map preprocess
    (match inj with Some d => d :: products | None => products end).

Definition endsWithRA (s : string) : bool := JS.endsWith s "RA".

(** Everything after the preprocessing loop, on the list [products] as it
    stands then. *)
Definition assemble (products : list ExtractedProduct)
  (canonicalMpn : option string) : outcome NormalizedProduct :=
  match products with
  | [] => Thrown "normalizeProducts called with empty product list"
  | base :: _ =>
      let effectiveMpn :=
        match canonicalMpn with Some m => m | None => mpn base end in
      let isRAVariant := endsWithRA effectiveMpn in
      let canonicalTitleV :=
        match
          orField
            (findField (fun p => SourceType_eqb (sourceType p) oem &&
                                 truthyOpt (canonicalTitle p))
                       canonicalTitle products)
            (findField (fun p => truthyOpt (canonicalTitle p))
                       canonicalTitle products)
        with
        | Some t => t
        | None => manufacturer base ++ " " ++ effectiveMpn
        end in
      let displayTitleV :=
        match
          orField
            (findField (fun p => SourceType_eqb (sourceType p) oem &&
                                 truthyOpt (displayTitle p))
                       displayTitle products)
            (findField (fun p => truthyOpt (displayTitle p))
                       displayTitle products)
        with
        | Some t => t
        | None => canonicalTitleV
        end in
      let mergedSpecs := mergeSpecs products in
      let verbatim :=
        flat_map
          (fun p =>
             map (fun v => {| v_heading := heading v; v_text := text v;
                              v_source := sourceUrl p;
                              v_confidence := confidence p |})
                 (optList (verbatimSections p)))
          products in
      let imgs :=
        flat_map
          (fun p =>
             map (fun img => {| i_url := url img; i_source := sourceUrl p;
                                i_confidence := confidence p |})
                 (optList (images p)))
          products in
      let dss :=
        flat_map
          (fun p =>
             map (fun d => {| d_url := Extract.ds_url d;
                              d_label := Extract.ds_label d;
                              d_source := sourceUrl p |})
                 (optList (datasheets p)))
          products in
      let overallConfidence :=
        (Qsum (map confidence products) /
         inject_Z (Z.of_nat (List.length products)))%Q in
      Returned
        {| n_mpn := effectiveMpn;
           n_manufacturer := manufacturer base;
           n_canonicalTitle := canonicalTitleV;
           n_displayTitle := Some displayTitleV;
           n_specs :=
             if isRAVariant
             then Rec.set "Remote Alarm" remoteAlarmEntry mergedSpecs
             else mergedSpecs;
           n_verbatimSections :=
             if isRAVariant then (verbatim ++ [variantSection])%list
             else verbatim;
           n_images := imgs;
           n_datasheets := dss;
           n_overallConfidence := overallConfidence |}
  end.

(** [normalizeProducts(products, { canonicalMpn })]. The second component
    of the result is the state, after the call, of the product objects the
    caller passed: the preprocessing loop updates them in place, while the
    injected datasheet product lives in an array of the function's own. *)
Definition normalizeProducts (products : list ExtractedProduct)
  (canonicalMpn : option string)
  : outcome (NormalizedProduct * list ExtractedProduct) :=
  match products with
  | [] => Thrown "normalizeProducts called with empty product list"
  | _ =>
      inj <- injected products ;;
      n <- assemble (effectiveProducts inj products) canonicalMpn ;;
      Returned (n, map preprocess products)
  end.

End WithWorld.

End Normalize.

(* ================================================================== *)
(** * services/buildSynthesisInput.ts *)

Definition buildSynthesisInput (normalized : Normalize.NormalizedProduct)
  : Synth.SynthesisInput :=
  {| Synth.mpn := Normalize.n_mpn normalized;
     Synth.manufacturer := Normalize.n_manufacturer normalized;
     Synth.canonicalTitle := Normalize.n_canonicalTitle normalized;
     Synth.specs :=
       map (fun kv => (fst kv, Normalize.value (snd kv)))
           (Normalize.n_specs normalized);
     Synth.images := map Normalize.i_url (Normalize.n_images normalized);
     Synth.datasheets :=
       map (fun ds => {| Extract.ds_url := Normalize.d_url ds;
                         Extract.ds_label := Normalize.d_label ds |})
           (Normalize.n_datasheets normalized);
     Synth.notes := None;
     Synth.verbatimDescriptors :=
       map Normalize.v_text (Normalize.n_verbatimSections normalized) |}.

(* ================================================================== *)
(** * services/runProductPipeline.ts

    The repository holds two copies of the driver that differ only in the
    handling of the RA variant; [raAware] selects between them: [true] is
    the copy that strips the suffix for the lookup, passes the canonical
    MPN to the normaliser and patches the final record, [false] the copy
    without these three steps. *)

Module Pipeline.

Record World : Type := {
  discoveryW : Discovery.World;
  crawlW : Crawl.World;
  extractW : Extract.World;
  normalizeW : Normalize.World;
  synthW : Synth.World
}.

Record Input : Type := {
  mpn : string;
  manufacturer : string
}.

Inductive FailureReason : Type :=
| NO_PRODUCT_URLS | CRAWL_FAILED | LOW_EXTRACTION_QUALITY.

Record ExtractionSummary : Type := {
  e_ok : bool;
  e_qualityScore : option Q;
  e_specsCount : string + nat;     (* [extraction.specs?.length || 0] *)
  e_imagesCount : nat;
  e_datasheetsCount : nat;
  e_images : list string;
  e_datasheets : list Extract.Datasheet;
  e_sourceUrl : string
}.

Record SpecRow : Type := {
  name : string;
  value : string
}.

Record Breakdown : Type := {
  discovery : Q;
  crawl : Q;
  extraction : Q;
  synthesis : Q
}.

(** The final record of a run that went through all five stages. *)
Record Completed : Type := {
  canonicalTitle : string;
  displayTitle : option string;
  keyFeatures : list string;
  overview : string;
  shortDescription : string;
  longDescription : string;
  bulletHighlights : list string;
  seoDescription : string;
  disclaimers : list string;
  synthConfidence : option Q;            (* _confidence *)
  specTable : list SpecRow;
  confidenceBreakdown : Breakdown;
  productType : option string;
  c_usable : bool;
  c_confidence : Q;
  images : list string;
  datasheets : list Extract.Datasheet;
  sourceUrl : string
}.

Inductive Final : Type :=
| Failure (confidence : Q) (failureReason : FailureReason)  (* usable: false *)
| Complete (c : Completed).

Definition usable (f : Final) : bool :=
  match f with
  | Failure _ _ => false
  | Complete c => c_usable c
  end.

Definition confidence (f : Final) : Q :=
  match f with
  | Failure q _ => q
  | Complete c => c_confidence c
  end.

Record Result : Type := {
  r_mpn : string;
  r_manufacturer : string;
  r_discovery : option Discovery.DiscoveryResult;
  r_crawl : option Crawl.CrawlResult;
  r_extraction : option ExtractionSummary;
  r_synthesis : option Synth.SynthesisOutput;
  final : option Final
}.

(** ** The MPN *)

Definition enDash : string :=
  String (ascii_of_nat 226) (String (ascii_of_nat 128)
    (String (ascii_of_nat 147) EmptyString)).
Definition emDash : string :=
  String (ascii_of_nat 226) (String (ascii_of_nat 128)
    (String (ascii_of_nat 148) EmptyString)).

(** The number of bytes of a member of [[–—\s]] at the head of [s], 0 when
    there is none. *)
Definition separatorLength (s : string) : nat :=
  if prefix enDash s || prefix emDash s then 3
  else match s with
       | String c _ => if JS.isSpace c then 1 else 0
       | EmptyString => 0
       end.

(** [s.replace(/[–—\s]+/g, "-")] *)
Fixpoint dashRuns (inRun : bool) (skip : nat) (s : string) : string :=
  match s with
  | EmptyString => EmptyString
  | String c t =>
      match skip with
      | S k => dashRuns true k t
      | O =>
          match separatorLength s with
          | O => String c (dashRuns false 0 t)
          | S k => if inRun then dashRuns true k t
                   else String "-" (dashRuns true k t)
          end
      end
  end.

Definition canonicalize (mpn : string) : string :=
  JS.toUpperCase (dashRuns false 0 mpn).

(** [s.replace(/RA$/, "")] *)
Definition stripRA (s : string) : string :=
  if JS.endsWith s "RA" then JS.takeStr (String.length s - 2) s else s.

(** ** The final confidence *)

Definition levelScore (l : Level) : Q :=
  match l with
  | high => 0.9
  | medium => 0.6
  | low => 0.3
  end.

Definition blend (b : Breakdown) : Q :=
  (0.25 * discovery b +
   0.20 * crawl b +
   0.30 * extraction b +
   0.25 * synthesis b)%Q.

(** [Number(x.toFixed(2))]: the nearest multiple of 1/100, the one away
    from zero when two are equally near. *)
Definition toFixed2 (x : Q) : Q :=
  if Qltb x 0
  then Qopp (Qmake (Qfloor (- x * 100 + (1 # 2))%Q) 100)
  else Qmake (Qfloor (x * 100 + (1 # 2))%Q) 100.

Definition specRow (f : string) : option SpecRow :=
  match JS.indexOfChar ":" f with
  | None => None
  | Some idx =>
      Some {| name := JS.trim (JS.takeStr idx f);
              value := JS.trim (JS.dropStr (S idx) f) |}
  end.

Fixpoint somes {A} (l : list (option A)) : list A :=
  match l with
  | [] => []
  | Some a :: r => a :: somes r
  | None :: r => somes r
  end.

Definition productTypeOf (s : Synth.SynthesisOutput) : option string :=
  let text :=
    JS.toLowerCase (orEmpty (Synth.o_displayTitle s) ++ " " ++ Synth.overview s) in
  if JS.includes text "surge" then Some "Surge Protection Device"
  else if JS.includes text "power supply" then Some "Power Supply"
  else if JS.includes text "battery" then Some "Battery"
  else if JS.includes text "relay" then Some "Relay"
  else None.

Definition raLine : string :=
  " This RA variant includes a remote alarm feature for system monitoring and alerting.".

(** [if (s) s += raLine] *)
Definition appendIfTruthy (s : string) : string :=
  if JS.truthy s then s ++ raLine else s.

(** Step 7, the body of the [if]. *)
Definition raPatch (canonicalMpn : string) (c : Completed) : Completed :=
  {| canonicalTitle := canonicalTitle c;
     displayTitle := Some canonicalMpn;
     keyFeatures := (keyFeatures c ++ ["Remote Alarm: Yes"])%list;
     overview := appendIfTruthy (overview c);
     shortDescription := appendIfTruthy (shortDescription c);
     longDescription := appendIfTruthy (longDescription c);
     bulletHighlights := bulletHighlights c;
     seoDescription := seoDescription c;
     disclaimers := disclaimers c;
     synthConfidence := synthConfidence c;
     specTable :=
       (specTable c ++ [{| name := "Remote Alarm"; value := "Yes" |}])%list;
     confidenceBreakdown := confidenceBreakdown c;
     productType := productType c;
     c_usable := c_usable c;
     c_confidence := c_confidence c;
     images := images c;
     datasheets := datasheets c;
     sourceUrl := sourceUrl c |}.

Definition qOr0 (q : option Q) : Q :=
  match q with Some x => x | None => 0%Q end.

(** The object stored in [result.extraction]. *)
Definition summaryOf (e : Extract.ExtractResult) (c : Crawl.CrawlResult)
  : ExtractionSummary :=
  {| e_ok := Extract.ok e;
     e_qualityScore := Extract.qualityScore e;
     e_specsCount :=
       match Rec.lookup "length" (Extract.specs e) with
       | Some v => if JS.truthy v then inl v else inr 0%nat
       | None => inr 0%nat
       end;
     e_imagesCount := List.length (Extract.images e);
     e_datasheetsCount := List.length (Extract.datasheets e);
     e_images := Extract.images e;
     e_datasheets := Extract.datasheets e;
     e_sourceUrl := Crawl.finalUrl c |}.

(** The one product handed to the normaliser:
    [{ sourceType: "distributor", confidence, ...extraction, images }]. The
    extractor returns the manufacturer it was given, which here is a
    string. *)
Definition productOf (manufacturer : string) (e : Extract.ExtractResult)
  : Normalize.ExtractedProduct :=
  {| Normalize.mpn := Extract.mpn e;
     Normalize.manufacturer :=
       match Extract.manufacturer e with
       | Some m => m
       | None => manufacturer
       end;
     Normalize.sourceUrl := Extract.sourceUrl e;
     Normalize.sourceType := Normalize.distributor;
     Normalize.confidence := qOr0 (Extract.qualityScore e);
     Normalize.canonicalTitle := Some (Extract.canonicalTitle e);
     Normalize.displayTitle := Extract.displayTitle e;
     Normalize.specs := Extract.specs e;
     Normalize.verbatimSections := None;
     Normalize.images :=
       Some (map (fun img => {| Normalize.url := img;
                                Normalize.alt := None |})
                 (Extract.images e));
     Normalize.datasheets := Some (Extract.datasheets e);
     Normalize.rawDatasheet := None |}.

Section WithWorld.

Variable W : World.
Variable raAware : bool.

(** [for (const url of urlsToTry.slice(0, 3)) { crawl = ...; if (crawl?.html) break; }] *)
Fixpoint crawlLoop (urls : list string) (last : option Crawl.CrawlResult)
  : outcome (option Crawl.CrawlResult) :=
  match urls with
  | [] => Returned last
  | u :: r =>
      c <- Crawl.crawlPage (crawlW W) u ;;
      if Normalize.truthyOpt (Crawl.html c) then Returned (Some c)
      else crawlLoop r (Some c)
  end.

(** Stage 6: the final record before the RA step. *)
Definition finalRecord (d : Discovery.DiscoveryResult)
  (c : Crawl.CrawlResult) (e : Extract.ExtractResult)
  (s : Synth.SynthesisOutput) : Completed :=
  let discoveryConfidence := levelScore (Discovery.confidence d) in
  let crawlConfidence := if Crawl.usedPlaywright c then 0.6%Q else 0.85%Q in
  let extractionConfidence := qOr0 (Extract.qualityScore e) in
  let synthesisConfidence := qOr0 (Synth.o_confidence s) in
  let b := {| discovery := discoveryConfidence;
              crawl := crawlConfidence;
              extraction := extractionConfidence;
              synthesis := synthesisConfidence |} in
  let finalConfidence := blend b in
  {| canonicalTitle := Synth.o_canonicalTitle s;
     displayTitle := Synth.o_displayTitle s;
     keyFeatures := Synth.keyFeatures s;
     overview := Synth.overview s;
     shortDescription := Synth.shortDescription s;
     longDescription := Synth.longDescription s;
     bulletHighlights := Synth.bulletHighlights s;
     seoDescription := Synth.seoDescription s;
     disclaimers := Synth.disclaimers s;
     synthConfidence := Synth.o_confidence s;
     specTable := somes (map specRow (Synth.keyFeatures s));
     confidenceBreakdown := b;
     productType := productTypeOf s;
     c_usable := Qgeb finalConfidence 0.65;
     c_confidence := toFixed2 finalConfidence;
     images := Extract.images e;
     datasheets := Extract.datasheets e;
     sourceUrl := Crawl.finalUrl c |}.

Definition runProductPipeline (input : Input) : outcome Result :=
  let canonicalMpn := canonicalize (mpn input) in
  let isRAVariant := raAware && JS.endsWith canonicalMpn "RA" in
  let lookupMpn := if isRAVariant then stripRA canonicalMpn else canonicalMpn in
  let result0 :=
    {| r_mpn := canonicalMpn; r_manufacturer := manufacturer input;
       r_discovery := None; r_crawl := None; r_extraction := None;
       r_synthesis := None; final := None |} in
  (* 1. DISCOVERY *)
  d <- Discovery.discoverProductSources (discoveryW W) lookupMpn
         (manufacturer input) ;;
  if negb (Normalize.truthyOpt (Discovery.primaryProductUrl d)) &&
     (List.length (Discovery.backupUrls d) =? 0)%nat
  then
    Returned {| r_mpn := canonicalMpn; r_manufacturer := manufacturer input;
                r_discovery := Some d; r_crawl := None; r_extraction := None;
                r_synthesis := None;
                final := Some (Failure 0 NO_PRODUCT_URLS) |}
  else
    (* 2. CRAWL (primary, then backups) *)
    let urlsToTry :=
      filter JS.truthy
        (match Discovery.primaryProductUrl d with
         | Some u => u :: Discovery.backupUrls d
         | None => Discovery.backupUrls d
         end) in
    crawled <- crawlLoop (firstn 3 urlsToTry) None ;;
    match crawled with
    | None =>
        Returned {| r_mpn := canonicalMpn; r_manufacturer := manufacturer input;
                    r_discovery := Some d; r_crawl := None;
                    r_extraction := None; r_synthesis := None;
                    final := Some (Failure 0 CRAWL_FAILED) |}
    | Some c =>
        if negb (Normalize.truthyOpt (Crawl.html c)) then
          Returned {| r_mpn := canonicalMpn;
                      r_manufacturer := manufacturer input;
                      r_discovery := Some d; r_crawl := None;
                      r_extraction := None; r_synthesis := None;
                      final := Some (Failure 0 CRAWL_FAILED) |}
        else
          (* 3. EXTRACT *)
          let e :=
            Extract.extractFromHtml (extractW W)
              {| Extract.p_html := Crawl.html c;
                 Extract.p_sourceUrl := Crawl.finalUrl c;
                 Extract.p_mpn := lookupMpn;
                 Extract.p_manufacturer := Some (manufacturer input) |} in
          let summary := summaryOf e c in
          if negb (Extract.ok e) ||
             Qltb (qOr0 (Extract.qualityScore e)) 0.3
          then
            Returned {| r_mpn := canonicalMpn;
                        r_manufacturer := manufacturer input;
                        r_discovery := Some d; r_crawl := Some c;
                        r_extraction := Some summary; r_synthesis := None;
                        final :=
                          Some (Failure (qOr0 (Extract.qualityScore e))
                                        LOW_EXTRACTION_QUALITY) |}
          else
            (* 4. NORMALIZE *)
            normalized <- Normalize.normalizeProducts (normalizeW W)
                            [productOf (manufacturer input) e]
                            (if raAware then Some canonicalMpn else None) ;;
            (* 5. SYNTHESIZE *)
            let synthesisInput := buildSynthesisInput (fst normalized) in
            s <- Synth.synthesizeProductContent (synthW W) synthesisInput ;;
            (* 6. FINAL CONFIDENCE *)
            let fin := finalRecord d c e s in
            (* 7. RA VARIANT INJECTION *)
            let fin' :=
              if isRAVariant && c_usable fin then raPatch canonicalMpn fin
              else fin in
            Returned {| r_mpn := canonicalMpn;
                        r_manufacturer := manufacturer input;
                        r_discovery := Some d; r_crawl := Some c;
                        r_extraction := Some summary; r_synthesis := Some s;
                        final := Some (Complete fin') |}
    end.

End WithWorld.

End Pipeline.

(* ================================================================== *)
(** * services/extractService.ts: the selector walks

    [extractDatasheets], [extractImages] and [extractSpecs] walk the DOM
    with the library's selectors; here they take what the selectors find
    (anchors, image sources, table rows, definition terms) and do the
    rest. *)

Module Html.

(** An entry of the arrays handed to [dedupeAndSort]. *)
Record Candidate : Type := {
  c_url : string;
  c_label : option string;
  c_score : Z
}.

(** [if (!existing || item.score > existing.score) map.set(item.url, item)]:
    a [Map] keeps the position of a key that is set again. *)
Definition keepBest (m : Rec.t Candidate) (item : Candidate)
  : Rec.t Candidate :=
  match Rec.lookup (c_url item) m with
  | Some existing =>
      if (c_score existing <? c_score item)%Z
      then Rec.set (c_url item) item m else m
  | None => Rec.set (c_url item) item m
  end.

(** [sort((a, b) => b.score - a.score)], stable. *)
Fixpoint insertDesc (x : Candidate) (l : list Candidate) : list Candidate :=
  match l with
  | [] => [x]
  | y :: t =>
      if (c_score y <? c_score x)%Z then x :: y :: t
      else y :: insertDesc x t
  end.

Definition sortDesc (l : list Candidate) : list Candidate :=
  fold_left (fun acc x => insertDesc x acc) l [].

Definition dedupeAndSort (items : list Candidate) : list Candidate :=
  sortDesc (Rec.values (fold_left keepBest items [])).

(** [new URL(href, base).toString()], [None] when it throws. The callers
    test the result with [if (!abs) return], which also drops an empty
    string. *)
Record World : Type := {
  absoluteUrl : string -> string -> option string
}.

(** An [a[href]] element: its attribute and its text. *)
Record Anchor : Type := {
  href : string;
  anchorText : string
}.

Definition scoreIf (b : bool) (n : Z) : Z := if b then n else 0%Z.

(** The score of a link with absolute URL [abs] and lower-cased visible
    text [text]. *)
Definition linkScore (abs text : string) : Z :=
  let lowerHref := JS.toLowerCase abs in
  (scoreIf (JS.endsWith lowerHref ".pdf") 3
   + scoreIf (JS.includes text "datasheet" || JS.includes text "data sheet") 2
   + scoreIf (JS.includes text "spec") 2
   + scoreIf (JS.includes text "manual") 1
   - scoreIf (JS.includes text "privacy" || JS.includes text "terms" ||
              JS.includes text "catalog") 3)%Z.

(** [cleanText(t)?.toLowerCase() || ""] *)
Definition lowerText (t : string) : string :=
  match Extract.cleanText (Some t) with
  | Some c => JS.toLowerCase c
  | None => EmptyString
  end.

Section WithWorld.

Variable W : World.

(** The body of the loop over the anchors: the candidate pushed, if any. *)
Definition datasheetCandidate (baseUrl : string) (a : Anchor)
  : option Candidate :=
  if negb (JS.truthy (href a)) then None
  else
    match orNull (absoluteUrl W (href a) baseUrl) with
    | None => None
    | Some abs =>
        let score := linkScore abs (lowerText (anchorText a)) in
        if (0 <? score)%Z
        then Some {| c_url := abs;
                     c_label := orNull (Extract.cleanText (Some (anchorText a)));
                     c_score := score |}
        else None
    end.

Definition extractDatasheets (anchors : list Anchor) (baseUrl : string)
  : list Extract.Datasheet :=
  map (fun c => {| Extract.ds_url := c_url c; Extract.ds_label := c_label c |})
      (firstn 5
         (dedupeAndSort
            (Pipeline.somes (map (datasheetCandidate baseUrl) anchors)))).

Definition rejectedImage (lower : string) : bool :=
  JS.includes lower "logo" || JS.includes lower "icon" ||
  JS.includes lower "sprite" || JS.includes lower "placeholder" ||
  JS.includes lower "spinner".

Definition imageScore (lower : string) : Z :=
  (1 + scoreIf (JS.includes lower "product" || JS.includes lower "media") 2
     + scoreIf (JS.endsWith lower ".jpg" || JS.endsWith lower ".png" ||
                JS.endsWith lower ".webp") 1)%Z.

(** The body of the loop over [img[src]]. *)
Definition imageCandidate (baseUrl : string) (src : string)
  : option Candidate :=
  if negb (JS.truthy src) then None
  else
    match orNull (absoluteUrl W src baseUrl) with
    | None => None
    | Some abs =>
        let lower := JS.toLowerCase abs in
        if rejectedImage lower then None
        else Some {| c_url := abs; c_label := None;
                     c_score := imageScore lower |}
    end.

(** The candidate seeded from [meta[property="og:image"]]. *)
Definition ogCandidate (baseUrl : string) (ogImage : option string)
  : option Candidate :=
  match orNull ogImage with
  | None => None
  | Some og =>
      match orNull (absoluteUrl W og baseUrl) with
      | Some abs => Some {| c_url := abs; c_label := None; c_score := 5 |}
      | None => None
      end
  end.

Definition imageCandidates (ogImage : option string) (srcs : list string)
  (baseUrl : string) : list Candidate :=
  Pipeline.somes (ogCandidate baseUrl ogImage :: map (imageCandidate baseUrl) srcs).

Definition extractImages (ogImage : option string) (srcs : list string)
  (baseUrl : string) : list string :=
  map c_url (firstn 3 (dedupeAndSort (imageCandidates ogImage srcs baseUrl))).

End WithWorld.

(** [key.replace(/:$/, "")] *)
Fixpoint dropFinalColon (s : string) : string :=
  match s with
  | EmptyString => EmptyString
  | String c EmptyString => if Ascii.eqb c ":" then EmptyString else s
  | String c t => String c (dropFinalColon t)
  end.

(** [specs[key] = value] on an object literal: the assignment of a string
    to [__proto__] stores nothing. *)
Definition assign (specs : Rec.t string) (key value : string)
  : Rec.t string :=
  if String.eqb key "__proto__" then specs else Rec.set key value specs.

(** [if (key && value && value.length < 180) specs[key.replace(/:$/, "")] = value],
    for the texts of the key and value cells. *)
Definition putSpec (specs : Rec.t string) (keyText valueText : string)
  : Rec.t string :=
  match Extract.cleanText (Some keyText), Extract.cleanText (Some valueText) with
  | Some key, Some value =>
      if JS.truthy key && JS.truthy value && (JS.len value <? 180)%Z
      then assign specs (dropFinalColon key) value
      else specs
  | _, _ => specs
  end.

(** A row of a table is the list of the texts of its [td] and [th]
    cells. *)
Definition putRow (specs : Rec.t string) (cells : list string)
  : Rec.t string :=
  match cells with
  | k :: v :: _ => putSpec specs k v
  | _ => specs
  end.

Definition putTable (specs : Rec.t string) (rows : list (list string))
  : Rec.t string :=
  if (List.length rows <? 3)%nat then specs
  else fold_left putRow rows specs.

(** The tables of the page, each with the rows [find("tr")] gives, and
    the [dt] elements, each with its text and that of the [dd] that
    follows it (empty when there is none). *)
Record SpecMarkup : Type := {
  tables : list (list (list string));
  terms : list (string * string)
}.

Definition extractSpecs (page : SpecMarkup) : Rec.t string :=
  fold_left (fun specs dt => putSpec specs (fst dt) (snd dt)) (terms page)
    (fold_left putTable (tables page) []).

End Html.

(* ================================================================== *)
(** * services/synthesizeService.ts: [extractJson]

    The search for the JSON object in the model's answer, with
    [JSON.parse] as a parameter (a throw carries the message of the
    error). [trim] is the one of the string model; JavaScript's also
    removes U+FEFF at both ends. *)

Module JsonText.

Definition parser : Type := string -> outcome Json.t.

Definition backslash : ascii := ascii_of_nat 92.
Definition quote : ascii := ascii_of_nat 34.
Definition newline : ascii := ascii_of_nat 10.
Definition fence : string := "```".

(** The byte-order mark U+FEFF, in UTF-8. *)
Definition bom : string :=
  String (ascii_of_nat 239) (String (ascii_of_nat 187)
    (String (ascii_of_nat 191) EmptyString)).

(** [s.replace(/^\uFEFF/, "")] *)
Definition stripBom (s : string) : string :=
  if prefix bom s then JS.dropStr 3 s else s.

(** [s.split("\n")] *)
Fixpoint splitLines (s : string) : list string :=
  match s with
  | EmptyString => [EmptyString]
  | String c t =>
      if Ascii.eqb c newline then EmptyString :: splitLines t
      else match splitLines t with
           | l :: r => String c l :: r
           | [] => [String c EmptyString]
           end
  end.

Definition joinLines (l : list string) : string :=
  String.concat (String newline EmptyString) l.

(** [lines.slice(1, -1)] *)
Definition inner {A} (l : list A) : list A :=
  removelast (tl l).

(** The loop over [i], entered at the first brace. [s] is what is left of
    the text from position [i] on, and [n] counts the characters from
    [start] to [i]; the result is the length of the candidate,
    [i + 1 - start]. *)
Fixpoint scan (depth : Z) (inString escape : bool) (n : nat) (s : string)
  : option nat :=
  match s with
  | EmptyString => None
  | String ch t =>
      if inString then
        if escape then scan depth true false (S n) t
        else if Ascii.eqb ch backslash then scan depth true true (S n) t
        else if Ascii.eqb ch quote then scan depth false false (S n) t
        else scan depth true false (S n) t
      else if Ascii.eqb ch quote then scan depth true escape (S n) t
      else
        let d1 := if Ascii.eqb ch "{" then (depth + 1)%Z else depth in
        let d2 := if Ascii.eqb ch "}" then (d1 - 1)%Z else d1 in
        if (d2 =? 0)%Z && (0 <? n)%nat then Some (S n)
        else scan d2 false escape (S n) t
  end.

(** [cleaned.indexOf("{")], with the text from there on. *)
Fixpoint fromFirstBrace (s : string) : option string :=
  match s with
  | EmptyString => None
  | String ch t => if Ascii.eqb ch "{" then Some s else fromFirstBrace t
  end.

(** *** The array sanitization

    [candidate.replace(re, "")] where [re] is, with the [g] flag: a comma,
    [\s*], a captured bare word [[a-zA-Z_][a-zA-Z0-9_]*], [\s*], and the
    look-ahead [(?=[,\]])]. *)

Definition isIdentStart (c : ascii) : bool :=
  JS.isLower c || JS.isUpper c || Ascii.eqb c "_".

Definition isIdentChar (c : ascii) : bool :=
  isIdentStart c || JS.isDigit c.

Fixpoint spanLength (f : ascii -> bool) (s : string) : nat :=
  match s with
  | String c t => if f c then S (spanLength f t) else 0
  | EmptyString => 0
  end.

(** The length of a match of the pattern at the head of [s], a comma. The
    identifier and the blanks are taken greedily; a shorter identifier
    would be followed by an identifier character, which the look-ahead
    refuses, and blanks given back are no comma or bracket either. *)
Definition bareWordAt (s : string) : option nat :=
  match s with
  | String c t =>
      if Ascii.eqb c "," then
        let b1 := spanLength JS.isSpace t in
        let s1 := JS.dropStr b1 t in
        match s1 with
        | String i _ =>
            if isIdentStart i then
              let w := spanLength isIdentChar s1 in
              let s2 := JS.dropStr w s1 in
              let b2 := spanLength JS.isSpace s2 in
              match JS.dropStr b2 s2 with
              | String e _ =>
                  if Ascii.eqb e "," || Ascii.eqb e "]"
                  then Some (1 + b1 + w + b2)%nat else None
              | EmptyString => None
              end
            else None
        | EmptyString => None
        end
      else None
  | EmptyString => None
  end.

Fixpoint sanitizeFrom (skip : nat) (s : string) : string :=
  match s with
  | EmptyString => EmptyString
  | String c t =>
      match skip with
      | S k => sanitizeFrom k t
      | O =>
          match bareWordAt s with
          | Some n => sanitizeFrom (n - 1) t
          | None => String c (sanitizeFrom 0 t)
          end
      end
  end.

Definition sanitize (s : string) : string := sanitizeFrom 0 s.

(** The part of [extractJson] after the fenced-block attempt. *)
Definition extractBalanced (parse : parser) (cleaned : string)
  : outcome Json.t :=
  match fromFirstBrace cleaned with
  | None => Thrown "No JSON object start '{' found in Gemini response"
  | Some rest =>
      match scan 0 false false 0 rest with
      | None =>
          Thrown "Unterminated JSON object in Gemini response (no matching '}')"
      | Some n =>
          let candidate := JS.trim (JS.takeStr n rest) in
          match parse candidate with
          | Returned v => Returned v
          | Thrown _ =>
              match parse (sanitize candidate) with
              | Returned v => Returned v
              | Thrown e =>
                  Thrown ("Failed to parse Gemini response as JSON after sanitization. " ++
                          "Error: " ++ e)
              end
          end
      end
  end.

Definition extractJson (parse : parser) (text : string) : outcome Json.t :=
  let raw := JS.trim text in
  if negb (JS.truthy raw) then Thrown "Empty Gemini response text"
  else
    let cleaned := JS.trim (stripBom raw) in
    let fenced :=
      if JS.startsWith cleaned fence then
        let lines := splitLines cleaned in
        if (3 <=? List.length lines)%nat
        then match parse (JS.trim (joinLines (inner lines))) with
             | Returned v => Some v
             | Thrown _ => None
             end
        else None
      else None in
    match fenced with
    | Some v => Returned v
    | None => extractBalanced parse cleaned
    end.

End JsonText.

(* ================================================================== *)
(** * services/pdfExtractService.ts: [extractFeatures] *)

Module PdfText.

(** The bullet U+2022, in UTF-8. *)
Definition bullet : string :=
  String (ascii_of_nat 226) (String (ascii_of_nat 128)
    (String (ascii_of_nat 162) EmptyString)).

(** [/^KEY FEATURES/i.test(line)] *)
Definition isFeaturesHeading (line : string) : bool :=
  JS.startsWith (JS.toLowerCase line) "key features".

(** [/^MACH 1 DATA SHEET|^Certifications/i.test(line)] *)
Definition isFeaturesEnd (line : string) : bool :=
  JS.startsWith (JS.toLowerCase line) "mach 1 data sheet" ||
  JS.startsWith (JS.toLowerCase line) "certifications".

(** [/^[a-z]/.test(line)] *)
Definition startsLower (line : string) : bool :=
  match line with
  | String c _ => JS.isLower c
  | EmptyString => false
  end.

(** [line.replace(/^•\s*/, "").trim()] *)
Definition afterBullet (line : string) : string :=
  JS.trim (if prefix bullet line
           then JS.trimStart (JS.dropStr 3 line) else line).

Record State : Type := {
  inFeatures : bool;
  currentFeature : string;
  features : list string
}.

(** [if (currentFeature) { features.push(currentFeature.trim()); currentFeature = ""; }] *)
Definition flush (st : State) (inF : bool) : State :=
  if JS.truthy (currentFeature st)
  then {| inFeatures := inF; currentFeature := EmptyString;
          features := (features st ++ [JS.trim (currentFeature st)])%list |}
  else {| inFeatures := inF; currentFeature := currentFeature st;
          features := features st |}.

(** The body of the loop over the lines. *)
Definition step (st : State) (raw : string) : State :=
  let line := JS.trim raw in
  if isFeaturesHeading line then flush st true
  else if isFeaturesEnd line then flush st false
  else if negb (inFeatures st) then st
  else if JS.startsWith line bullet then
    {| inFeatures := inFeatures st;
       currentFeature := afterBullet line;
       features :=
         if JS.truthy (currentFeature st)
         then (features st ++ [JS.trim (currentFeature st)])%list
         else features st |}
  else if JS.truthy (currentFeature st) &&
          (JS.startsWith raw " " ||
           JS.startsWith raw (String (ascii_of_nat 9) EmptyString) ||
           startsLower line)
  then {| inFeatures := inFeatures st;
          currentFeature := currentFeature st ++ " " ++ JS.trim line;
          features := features st |}
  else if JS.truthy (currentFeature st) then
    {| inFeatures := inFeatures st;
       currentFeature :=
         if JS.startsWith line bullet then afterBullet line else EmptyString;
       features := (features st ++ [JS.trim (currentFeature st)])%list |}
  else st.

Definition extractFeatures (text : string) (models : list string)
  : list string :=
  let st :=
    fold_left step (JsonText.splitLines text)
      {| inFeatures := false; currentFeature := EmptyString; features := [] |} in
  Synth.dedupe []
    (if JS.truthy (currentFeature st)
     then (features st ++ [JS.trim (currentFeature st)])%list
     else features st).

End PdfText.

(* ================================================================== *)
(** * api/enrich.ts *)

Module Api.

(** [req.body], when it has the shape the handler destructures: [mpns] is
    [None] when it is not an array. *)
Record Body : Type := {
  mpns : option (list string);
  manufacturer : string
}.

Inductive Response : Type :=
| Ok (results : list Pipeline.Result)      (* res.json({ results }) *)
| BadRequest (error : string)              (* status 400 *)
| ServerError (error : string).            (* status 500 *)

Section WithWorld.

Variable W : Pipeline.World.
Variable raAware : bool.

(** [for (const mpn of mpns) { results.push(await runProductPipeline(...)) }] *)
Fixpoint runAll (manufacturer : string) (l : list string)
  (results : list Pipeline.Result) : outcome (list Pipeline.Result) :=
  match l with
  | [] => Returned results
  | m :: r =>
      result <- Pipeline.runProductPipeline W raAware
                  {| Pipeline.mpn := m; Pipeline.manufacturer := manufacturer |} ;;
      runAll manufacturer r (results ++ [result])%list
  end.

Definition enrichHandler (body : Body) : Response :=
  match mpns body with
  | None => BadRequest "Expected { mpns: string[], manufacturer: string }"
  | Some l =>
      if negb (JS.truthy (manufacturer body))
      then BadRequest "Expected { mpns: string[], manufacturer: string }"
      else
        match runAll (manufacturer body) l [] with
        | Returned results => Ok results
        | Thrown msg =>
            ServerError (if JS.truthy msg then msg else "Internal error")
        end
  end.

End WithWorld.

End Api.
(* ================================================================== *)
(** * Properties *)

Unset Implicit Arguments.

(** ** Comparisons *)

Lemma Qleb_true (x y : Q) : Qleb x y = true <-> (x <= y)%Q.
Proof. unfold Qleb. apply Qle_bool_iff. Qed.


Lemma Qltb_true (x y : Q) : Qltb x y = true <-> (x < y)%Q.
Proof.
  unfold Qltb. rewrite negb_true_iff. split; intro H.
  - apply Qnot_le_lt. intro L. apply Qle_bool_iff in L. congruence.
  - destruct (Qle_bool y x) eqn:E; [|reflexivity].
    apply Qle_bool_iff in E. exfalso. exact (Qlt_not_le _ _ H E).
Qed.

Lemma Qltb_false (x y : Q) : Qltb x y = false <-> (y <= x)%Q.
Proof.
  unfold Qltb. rewrite negb_false_iff. apply Qle_bool_iff.
Qed.

Lemma Qgtb_true (x y : Q) : Qgtb x y = true <-> (y < x)%Q.
Proof. exact (Qltb_true y x). Qed.

Lemma Qgtb_false (x y : Q) : Qgtb x y = false <-> (x <= y)%Q.
Proof. exact (Qltb_false y x). Qed.

(* ------------------------------------------------------------------ *)
(** ** Crawler *)

Module CrawlProps.
Import Crawl.

(** A fast attempt that does not return a page records [fetch_failed] or
    [non_product]; [invalid_html] and [captcha_or_js] are never recorded. *)
Lemma fastAttempt_reason (W : World) (url : string) (n : nat) (r : FallbackReason) :
  fastAttempt W url n = inr r -> r = fetch_failed \/ r = non_product.
Proof.
  unfold fastAttempt. destruct (tryFetchOnce W url n) as [t|].
  - destruct (negb (looksLikeProductPage (f_html t))).
    + intros [= <-]. now right.
    + destruct (negb (hasUsableProductSignals (f_html t))).
      * intros [= <-]. now right.
      * discriminate.
  - intros [= <-]. now left.
Qed.

(** A page returned by a fast attempt carries its HTML. *)
Lemma fastAttempt_page (W : World) (url : string) (n : nat) (c : CrawlResult) :
  fastAttempt W url n = inl c ->
  html c <> None /\ usedPlaywright c = false /\ crawlConfidence c = Some high.
Proof.
  unfold fastAttempt. destruct (tryFetchOnce W url n) as [t|]; [|discriminate].
  destruct (negb (looksLikeProductPage (f_html t))); [discriminate|].
  destruct (negb (hasUsableProductSignals (f_html t))); [discriminate|].
  intros [= <-]. cbn. repeat split. discriminate.
Qed.

Lemma fastLoop_page (W : World) (url : string) (k n : nat)
  (fr : option FallbackReason) (c : CrawlResult) :
  fastLoop W url k n fr = inl c ->
  html c <> None /\ usedPlaywright c = false /\ crawlConfidence c = Some high.
Proof.
  revert n fr. induction k as [|k IH]; intros n fr; cbn.
  - discriminate.
  - destruct (fastAttempt W url n) as [c'|reason] eqn:E.
    + intros [= <-]. eapply fastAttempt_page; eassumption.
    + apply IH.
Qed.

(** Whatever reason it is called with, the browser path gives [low]
    whenever it gives no HTML. *)
Lemma playwright_null_html_low (W : World) (url : string)
  (fr : option FallbackReason) (c : CrawlResult) :
  crawlWithPlaywright W url fr = Returned c ->
  html c = None -> crawlConfidence c = Some low.
Proof.
  unfold crawlWithPlaywright.
  destruct (negb (launches (browser W url))); [discriminate|].
  destruct (closes (browser W url)); [|discriminate].
  destruct (page (browser W url)) as [|content pageUrl].
  - intros [= <-]. reflexivity.
  - destruct (negb (hasUsableProductSignals content)); intros [= <-]; cbn;
      discriminate.
Qed.

(** C9. Every [CrawlResult] that [crawlPage] returns, through the fast
    fetch or through the browser, with [html] null has crawl confidence
    [low]. *)
Theorem crawl_null_html_low (W : World) (url : string) (c : CrawlResult) :
  crawlPage W url = Returned c ->
  html c = None ->
  crawlConfidence c = Some low.
Proof.
  unfold crawlPage.
  destruct (fastLoop W url 2 0 None) as [c'|fr] eqn:E.
  - intros [= <-] Hnull. apply fastLoop_page in E. tauto.
  - apply playwright_null_html_low.
Qed.

(** A world where the network is down and the browser cannot navigate. *)
Definition offline : World :=
  {| fetch := fun _ _ => NetworkError;
     browser := fun _ =>
       {| launches := true; page := NavigationThrows; closes := true |} |}.

Definition offlineResult (url : string) : CrawlResult :=
  {| finalUrl := url; html := None; usedPlaywright := true;
     contentType := None; fallbackReason := Some fetch_failed;
     crawlConfidence := Some low |}.

Lemma crawl_null_html_low_witness :
  crawlPage offline "https://example.com/p" =
    Returned (offlineResult "https://example.com/p") /\
  crawlConfidence (offlineResult "https://example.com/p") = Some low.
Proof.
  split.
  - reflexivity.
  - apply (crawl_null_html_low offline "https://example.com/p"
             (offlineResult "https://example.com/p")).
    + reflexivity.
    + reflexivity.
Defined.

(** C5, as stated, fails: with both fast attempts failing and the
    navigation throwing, the reason returned is the one the second fast
    attempt recorded, here [fetch_failed], not [captcha_or_js]. *)
Lemma crawl_navigation_throws_counterexample :
  fastAttempt offline "https://example.com/p" 0 = inr fetch_failed /\
  fastAttempt offline "https://example.com/p" 1 = inr fetch_failed /\
  page (browser offline "https://example.com/p") = NavigationThrows /\
  crawlPage offline "https://example.com/p" =
    Returned (offlineResult "https://example.com/p") /\
  fallbackReason (offlineResult "https://example.com/p")
    <> Some captcha_or_js.
Proof.
  repeat split; try reflexivity. discriminate.
Qed.

(** C5, amended. When both fast attempts fail and the browser navigation
    throws, [crawlPage] returns [html = null], crawl confidence [low] and
    the reason recorded by the second fast attempt, which is
    [fetch_failed] or [non_product]. *)
Theorem crawl_navigation_throws (W : World) (url : string)
  (r0 r1 : FallbackReason) :
  fastAttempt W url 0 = inr r0 ->
  fastAttempt W url 1 = inr r1 ->
  launches (browser W url) = true ->
  page (browser W url) = NavigationThrows ->
  closes (browser W url) = true ->
  crawlPage W url =
    Returned {| finalUrl := url; html := None; usedPlaywright := true;
                contentType := None; fallbackReason := Some r1;
                crawlConfidence := Some low |} /\
  (r1 = fetch_failed \/ r1 = non_product).
Proof.
  intros H0 H1 Hl Hp Hc. split.
  - unfold crawlPage. cbn. rewrite H0, H1.
    unfold crawlWithPlaywright. rewrite Hl, Hp, Hc. reflexivity.
  - eapply fastAttempt_reason; eassumption.
Qed.

Lemma crawl_navigation_throws_witness :
  crawlPage offline "https://example.com/p" =
    Returned (offlineResult "https://example.com/p") /\
  (fetch_failed = fetch_failed \/ fetch_failed = non_product).
Proof.
  apply (crawl_navigation_throws offline "https://example.com/p"
           fetch_failed fetch_failed); reflexivity.
Defined.

(** The default reason of the browser path is never the one returned for
    a crawl: [crawlPage] always passes a recorded reason. *)
Lemma crawl_never_captcha_or_js (W : World) (url : string) (c : CrawlResult) :
  crawlPage W url = Returned c ->
  fallbackReason c <> Some captcha_or_js.
Proof.
  unfold crawlPage. cbn.
  destruct (fastAttempt W url 0) as [c0|r0] eqn:E0.
  { intros [= <-]. unfold fastAttempt in E0.
    destruct (tryFetchOnce W url 0); [|discriminate].
    destruct (negb _); [discriminate|]. destruct (negb _); [discriminate|].
    injection E0 as <-. cbn. discriminate. }
  destruct (fastAttempt W url 1) as [c1|r1] eqn:E1.
  { intros [= <-]. unfold fastAttempt in E1.
    destruct (tryFetchOnce W url 1); [|discriminate].
    destruct (negb _); [discriminate|]. destruct (negb _); [discriminate|].
    injection E1 as <-. cbn. discriminate. }
  apply fastAttempt_reason in E1.
  unfold crawlWithPlaywright.
  destruct (negb (launches (browser W url))); [discriminate|].
  destruct (closes (browser W url)); [|discriminate].
  destruct (page (browser W url)) as [|content pageUrl].
  - intros [= <-]. cbn. destruct E1 as [-> | ->]; discriminate.
  - destruct (negb (hasUsableProductSignals content)); intros [= <-]; cbn.
    + discriminate.
    + destruct E1 as [-> | ->]; discriminate.
Qed.

(** A product page served to the fast fetch: a title, a heading, a spec
    table and enough text. *)
Fixpoint filler (n : nat) : string :=
  match n with
  | O => EmptyString
  | S k => String "x" (filler k)
  end.

Definition healthyPage : string :=
  "<html><head><title>1756-IB16</title></head><body><h1>1756-IB16</h1>" ++
  "<table><tr><td>Inputs</td><td>16</td></tr></table><p>" ++
  filler (Z.to_nat 8000) ++ "</p></body></html>".

Definition healthy : World :=
  {| fetch := fun u _ => Response true healthyPage u (Some "text/html");
     browser := fun _ =>
       {| launches := false; page := NavigationThrows; closes := true |} |}.

(** The first fast attempt returns it with confidence [high], and the
    browser is not needed. *)
Example crawl_fast_path :
  crawlPage healthy "https://oem.example.com/products/1756-ib16" =
    Returned {| finalUrl := "https://oem.example.com/products/1756-ib16";
                html := Some healthyPage; usedPlaywright := false;
                contentType := Some "text/html"; fallbackReason := None;
                crawlConfidence := Some high |}.
Proof. vm_compute. reflexivity. Qed.

End CrawlProps.

(* ------------------------------------------------------------------ *)
(** ** Discovery *)

Module DiscoveryProps.
Import Discovery.

Definition mainQuery (mpn manufacturer : string) : string :=
  JS.dq ++ mpn ++ JS.dq ++ " " ++ JS.dq ++ manufacturer ++ JS.dq.

(** With a primary, discovery returns, names it, and rates the ranking by
    the first two entries. *)
Lemma discover_with_primary (W : World) (mpn manufacturer : string)
  (results : list SerperResult) (s1 : Scored) (rest : list Scored) :
  runSerperQuery W (mainQuery mpn manufacturer) = Returned results ->
  scoreResults W results mpn manufacturer = s1 :: rest ->
  exists r,
    discoverProductSources W mpn manufacturer = Returned r /\
    primaryProductUrl r = Some (url s1) /\
    confidence r = rankingConfidence s1 (hd_error rest).
Proof.
  intros Hq Hs. unfold discoverProductSources.
  fold (mainQuery mpn manufacturer). rewrite Hq. cbn [bind]. rewrite Hs.
  eexists. split; [reflexivity|]. cbn. split; reflexivity.
Qed.

(** The ranking is in descending order of score: its first two entries
    carry the top two scores. *)
Definition descending (l : list Scored) : Prop :=
  StronglySorted (fun a b => (score b <= score a)%Q) l.

Lemma insertByScore_Forall (P : Scored -> Prop) (x : Scored)
  (l : list Scored) :
  P x -> Forall P l -> Forall P (insertByScore x l).
Proof.
  intros Hx Hl. induction Hl as [|y t Hy Ht IH]; cbn.
  - constructor; [exact Hx | constructor].
  - destruct (Qltb (score y) (score x)).
    + constructor; [exact Hx|]. constructor; assumption.
    + constructor; assumption.
Qed.

Lemma insertByScore_descending (x : Scored) (l : list Scored) :
  descending l -> descending (insertByScore x l).
Proof.
  unfold descending. intro Hl. induction Hl as [|y t Ht IH Hy]; cbn.
  - constructor; constructor.
  - destruct (Qltb (score y) (score x)) eqn:E.
    + apply Qltb_true in E. constructor.
      * constructor; assumption.
      * constructor; [apply Qlt_le_weak, E|].
        eapply Forall_impl; [|exact Hy]. cbn. intros b Hb.
        eapply Qle_trans; [exact Hb | apply Qlt_le_weak, E].
    + apply Qltb_false in E. constructor; [exact IH|].
      apply insertByScore_Forall; assumption.
Qed.

Lemma sortByScore_descending (l : list Scored) : descending (sortByScore l).
Proof.
  unfold sortByScore.
  assert (H : forall acc, descending acc ->
                descending (fold_left (fun a x => insertByScore x a) l acc)).
  { induction l as [|x l IH]; intros acc Hacc; cbn.
    - exact Hacc.
    - apply IH, insertByScore_descending, Hacc. }
  apply H. constructor.
Qed.

Lemma scoreResults_descending (W : World) (results : list SerperResult)
  (mpn manufacturer : string) :
  descending (scoreResults W results mpn manufacturer).
Proof. unfold scoreResults. apply sortByScore_descending. Qed.

(** C7. For a ranking with at least one candidate, sorted by descending
    score, the confidence is [high] with a single candidate; with two or
    more it is [high] when the top two scores are more than 0.15 apart,
    [medium] when they are more than 0.05 and at most 0.15 apart, and [low]
    otherwise. *)
Theorem discovery_confidence_by_separation (W : World)
  (mpn manufacturer : string) (results : list SerperResult)
  (s1 : Scored) (rest : list Scored) :
  runSerperQuery W (mainQuery mpn manufacturer) = Returned results ->
  scoreResults W results mpn manufacturer = s1 :: rest ->
  exists r,
    discoverProductSources W mpn manufacturer = Returned r /\
    descending (s1 :: rest) /\
    (rest = [] -> confidence r = high) /\
    (forall s2 tl, rest = s2 :: tl ->
       ((0.15 < score s1 - score s2)%Q -> confidence r = high) /\
       ((0.05 < score s1 - score s2)%Q /\ (score s1 - score s2 <= 0.15)%Q ->
          confidence r = medium) /\
       ((score s1 - score s2 <= 0.05)%Q -> confidence r = low)).
Proof.
  intros Hq Hs.
  destruct (discover_with_primary W mpn manufacturer results s1 rest Hq Hs)
    as (r & Hr & _ & Hc).
  exists r. split; [exact Hr|]. rewrite Hc.
  split; [rewrite <- Hs; apply scoreResults_descending|]. split.
  - intros ->. reflexivity.
  - intros s2 tl ->. cbn [hd_error rankingConfidence].
    repeat split.
    + intro H. apply Qgtb_true in H. rewrite H. reflexivity.
    + intros [Hlo Hhi]. apply Qgtb_false in Hhi. apply Qgtb_true in Hlo.
      rewrite Hhi, Hlo. reflexivity.
    + intro H.
      assert (H15 : (score s1 - score s2 <= 0.15)%Q).
      { eapply Qle_trans; [exact H|]. discriminate. }
      apply Qgtb_false in H. apply Qgtb_false in H15.
      rewrite H15, H. reflexivity.
Qed.

(** A search backend with two hits for every query, and a rational
    stand-in for the exponential: [1 + x] for [x >= 0] and [1 / (1 - x)]
    below. *)
Definition twoHits : World :=
  {| runSerperQuery := fun _ =>
       Returned [ {| link := "https://shop.example.com/product/m1-1120-3";
                     title := "M1-1120-3"; snippet := "SurgePure" |};
                  {| link := "https://forum.example.com/thread";
                     title := "surge"; snippet := EmptyString |} ];
     hostname := fun _ => None;
     mathExp := fun x => if Qltb x 0 then (1 / (1 - x))%Q else (1 + x)%Q |}.

Definition twoHitsResults : list SerperResult :=
  [ {| link := "https://shop.example.com/product/m1-1120-3";
       title := "M1-1120-3"; snippet := "SurgePure" |};
    {| link := "https://forum.example.com/thread";
       title := "surge"; snippet := EmptyString |} ].

Definition twoHitsFirst : Scored :=
  {| url := "https://shop.example.com/product/m1-1120-3";
     score := 5760000000000 # 6400000000000 |}.
Definition twoHitsSecond : Scored :=
  {| url := "https://forum.example.com/thread";
     score := 640000000000 # 6400000000000 |}.

Lemma discovery_confidence_by_separation_witness :
  exists r,
    discoverProductSources twoHits "M1-1120-3" "SurgePure" = Returned r /\
    descending [twoHitsFirst; twoHitsSecond] /\
    ([twoHitsSecond] = [] -> confidence r = high) /\
    (forall s2 rest, [twoHitsSecond] = s2 :: rest ->
       ((0.15 < score twoHitsFirst - score s2)%Q -> confidence r = high) /\
       ((0.05 < score twoHitsFirst - score s2)%Q /\
        (score twoHitsFirst - score s2 <= 0.15)%Q ->
          confidence r = medium) /\
       ((score twoHitsFirst - score s2 <= 0.05)%Q -> confidence r = low)).
Proof.
  apply (discovery_confidence_by_separation twoHits "M1-1120-3" "SurgePure"
           twoHitsResults twoHitsFirst [twoHitsSecond]).
  - reflexivity.
  - vm_compute. reflexivity.
Defined.

End DiscoveryProps.

(* ------------------------------------------------------------------ *)
(** ** HTML extractor *)

Module ExtractProps.
Import Extract.

(** The quality score of a page with specs and nothing else. *)
Lemma specs_only_quality :
  (qualityOf {| hasTitle := false; hasSpecs := true; hasImages := false;
                hasDatasheets := false; hasOverview := false |} == 0.30)%Q.
Proof. reflexivity. Qed.

(** Past the guardrails and the DOM load, the verdict depends on the
    score alone. *)
Lemma extract_verdict (W : World) (p : Params) (d : Dom) :
  guardrails p = None ->
  load W (orEmpty (p_html p)) = Some d ->
  let g := gather W p d in
  let q := qualityOf (featureVector g) in
  extractFromHtml W p =
    if Qltb q 0.30 then withVerdict g false (Some low_quality) q
    else withVerdict g true None q.
Proof.
  intros Hg Hl. unfold extractFromHtml. rewrite Hg, Hl. reflexivity.
Qed.

(** A product page of a shop with one spec row, a short heading, no
    description, no image and no datasheet link. *)
Definition specsOnlyDom : Dom :=
  {| metaDescriptionAttr := None; ogDescriptionAttr := None;
     ogTitleAttr := None; twitterTitleAttr := None;
     h1Text := "M1-1120-3"; titleText := EmptyString;
     bcWeight := None; bcSku := None; jsonLdDescription := None;
     domDatasheets := []; domImages := [];
     domSpecs := [("Enclosure", "NEMA 12")] |}.

Definition specsOnlyWorld : World :=
  {| load := fun _ => Some specsOnlyDom;
     decodeURIComponent := fun s => Some s |}.

Definition specsOnlyPage : Params :=
  {| p_html := Some "<html><h1>M1-1120-3</h1><table><tr><td>Enclosure</td><td>NEMA 12</td></tr></table></html>";
     p_sourceUrl := "https://shop.example.com/product/m1-1120-3";
     p_mpn := "M1-1120-3";
     p_manufacturer := Some "SurgePure" |}.




End ExtractProps.

(* ------------------------------------------------------------------ *)
(** ** PDF extractor *)

Module PdfProps.
Import Pdf.

(** The models and the rows [extractFromPdf] sees for a text. *)
Definition modelsOf (W : World) (rawText : string) : list string :=
  detectModels W (repairModelTokens W (normalizePdfText W rawText)).

Definition rowsOf (W : World) (pdfUrl rawText : string) : list PdfRawRow :=
  t_rawRows (extractSpecs W (normalizePdfText W rawText)
                          (modelsOf W rawText) pdfUrl).

(** Past the gate, the call returns as soon as the mapping step does. *)
Lemma mapRows_returns (W : World) (pdfUrl : string)
  (targetModel : option string) (rawText text : string)
  (detected : list string) (rows : list PdfRawRow) (g : GeminiMappedResult) :
  mapWithGemini W (resolvedTargetModel targetModel detected) detected rows
    = Returned g ->
  returns (mapRows W pdfUrl targetModel rawText text detected rows) = true.
Proof. intro Hg. unfold mapRows. rewrite Hg. reflexivity. Qed.

(** C8. When the text parsed from a PDF yields fewer than 18 raw rows,
    [extractFromPdf] throws the row-count error; with exactly 18 rows the
    gate is passed: the call continues with the mapping step, and returns
    when that step returns. *)
Theorem pdf_row_count_gate (W : World) (pdfUrl : string)
  (targetModel : option string) (buffer rawText : string) :
  fetchPdfBuffer W pdfUrl = Returned buffer ->
  parsePdfText W buffer = Returned rawText ->
  let rows := rowsOf W pdfUrl rawText in
  ((List.length rows < 18)%nat ->
     extractFromPdf W pdfUrl targetModel =
       Thrown (rowCountError (List.length rows))) /\
  (List.length rows = 18%nat ->
     extractFromPdf W pdfUrl targetModel =
       mapRows W pdfUrl targetModel rawText (normalizePdfText W rawText)
         (modelsOf W rawText) rows /\
     (forall g,
        mapWithGemini W
          (resolvedTargetModel targetModel (modelsOf W rawText))
          (modelsOf W rawText) rows = Returned g ->
        returns (extractFromPdf W pdfUrl targetModel) = true)).
Proof.
  intros Hf Hp rows. unfold extractFromPdf. rewrite Hf. cbn [bind].
  rewrite Hp. cbn [bind].
  fold (modelsOf W rawText). fold (rowsOf W pdfUrl rawText). fold rows. split.
  - intro Hlt. apply Nat.ltb_lt in Hlt. rewrite Hlt. reflexivity.
  - intro Heq. rewrite Heq. cbn [Nat.ltb Nat.leb]. split; [reflexivity|].
    intros g Hg. eapply mapRows_returns. exact Hg.
Qed.

Definition sampleRow : PdfRawRow :=
  {| r_key := "Warranty"; raw := "10 Years 10 Years" |}.

(** A datasheet whose table scan yields [n] rows, and a model that maps
    them to one spec. *)
Definition sheet (n : nat) : World :=
  {| fetchPdfBuffer := fun _ => Returned "%PDF-1.4";
     parsePdfText := fun _ => Returned "Model Number M1-1120-3 M1-1240-3";
     normalizePdfText := fun s => s;
     repairModelTokens := fun s => s;
     detectModels := fun _ => ["M1-1120-3"; "M1-1240-3"];
     extractSpecs := fun _ _ _ =>
       {| t_rawRows := repeat sampleRow n; t_overviewText := EmptyString;
          t_sidebarBullets := [] |};
     extractFeatures := fun _ _ => [];
     mapWithGemini := fun target _ _ =>
       Returned {| g_model := orEmpty target;
                   g_specs := [("Warranty", Some "10 Years")];
                   g_overview := None; g_highlights := None |} |}.

Lemma pdf_row_count_gate_witness :
  extractFromPdf (sheet 17) "https://example.com/m1.pdf" None =
    Thrown "Spec table incomplete: expected ~20 rows, got 17".
Proof.
  apply (pdf_row_count_gate (sheet 17) "https://example.com/m1.pdf" None
           "%PDF-1.4" "Model Number M1-1120-3 M1-1240-3").
  - reflexivity.
  - reflexivity.
  - vm_compute. lia.
Defined.

(** With 18 rows the same datasheet goes through. *)
Example pdf_eighteen_rows_pass :
  returns (extractFromPdf (sheet 18) "https://example.com/m1.pdf" None) = true.
Proof. reflexivity. Qed.

End PdfProps.

(* ------------------------------------------------------------------ *)
(** ** Synthesizer *)

Module SynthProps.
Import Synth.

(** [validateAgainstInput] hands the key features on as they are. *)
Lemma validate_keeps_keyFeatures (input : SynthesisInput)
  (output : SynthesisOutput) :
  keyFeatures (validateAgainstInput input output) = keyFeatures output.
Proof. reflexivity. Qed.

(** The key features of an accepted answer are those
    [normalizeSynthesisOutput] read from it: nothing between the model and
    the result compares a label with the input specs. *)
Lemma synthesize_keyFeatures (W : World) (input : SynthesisInput)
  (text : string) (parsed : Json.t) (normalized out : SynthesisOutput) :
  Rec.keys (specs input) <> [] ->
  generateContent W input = Returned text ->
  extractJson W text = Returned parsed ->
  normalizeSynthesisOutput parsed (canonicalTitle input) = Returned normalized ->
  synthesizeProductContent W input = Returned out ->
  keyFeatures out = keyFeatures normalized.
Proof.
  intros Hk Hg He Hn. unfold synthesizeProductContent.
  destruct (Rec.keys (specs input)) as [|k ks]; [congruence|].
  rewrite Hg. cbn [bind]. rewrite He. cbn [bind]. rewrite Hn. cbn [bind].
  intros [= <-]. reflexivity.
Qed.

(** A product with one spec, and a model that answers with two key
    features, the second of which is labelled with a spec name the input
    does not have. *)
Definition oneSpecInput : SynthesisInput :=
  {| mpn := "M1-1120-3"; manufacturer := "SurgePure";
     canonicalTitle := "SurgePure M1-1120-3";
     specs := [("Warranty", "10 Years")];
     images := []; datasheets := []; notes := None;
     verbatimDescriptors := [] |}.

Definition inventiveAnswer : Json.t :=
  Json.JObj
    [ ("keyFeatures",
       Json.JArr [ Json.JStr "Warranty: 10 Years";
                   Json.JStr "Surge Capacity: 240,000 Amps" ]);
      ("overview", Json.JStr "A component with a 10 Years warranty.");
      ("shortDescription", Json.JStr "Component.");
      ("longDescription", Json.JStr "Component.");
      ("bulletHighlights", Json.JArr [Json.JStr "10 Years warranty"]);
      ("seoDescription", Json.JStr "SurgePure M1-1120-3");
      ("disclaimers", Json.JArr []) ].

Definition inventiveModel : World :=
  {| generateContent := fun _ => Returned "{...}";
     extractJson := fun _ => Returned inventiveAnswer |}.

(** C2 fails on the program: the answer of the model is accepted, and the
    key feature labelled [Surge Capacity], which is no key of the input
    specs, is in the returned key features. *)
Theorem synth_keeps_unknown_label :
  exists out,
    synthesizeProductContent inventiveModel oneSpecInput = Returned out /\
    keyFeatures out =
      ["Warranty: 10 Years"; "Surge Capacity: 240,000 Amps"] /\
    labelOf "Surge Capacity: 240,000 Amps" = Some "Surge Capacity" /\
    inSpecs "Surge Capacity" (specs oneSpecInput) = false.
Proof. eexists. repeat split. Qed.

End SynthProps.

(* ------------------------------------------------------------------ *)
(** ** Normalizer *)

Module NormalizeProps.
Import Normalize.

(** *** Records *)

Lemma lookup_set_same {V : Type} (k : string) (v : V) (m : Rec.t V) :
  Rec.lookup k (Rec.set k v m) = Some v.
Proof.
  induction m as [|[k' v'] m IH]; cbn.
  - rewrite String.eqb_refl. reflexivity.
  - destruct (String.eqb k k') eqn:E; cbn.
    + rewrite String.eqb_refl. reflexivity.
    + rewrite E. exact IH.
Qed.

Lemma lookup_set_other {V : Type} (k k' : string) (v : V) (m : Rec.t V) :
  k' <> k -> Rec.lookup k' (Rec.set k v m) = Rec.lookup k' m.
Proof.
  intro Hne. induction m as [|[k0 v0] m IH]; cbn.
  - apply String.eqb_neq in Hne. rewrite Hne. reflexivity.
  - destruct (String.eqb k k0) eqn:E; cbn.
    + apply String.eqb_eq in E. subst k0.
      apply String.eqb_neq in Hne. rewrite Hne. reflexivity.
    + destruct (String.eqb k' k0); [reflexivity | exact IH].
Qed.

(** *** The merge as a fold over contributions *)








(** *** The invariant of the merge *)








(** *** What the returned specs hold *)






Definition noFiles : World := {| datasheetFile := fun _ => None |}.

Definition specsOfCall (W : World) (products : list ExtractedProduct)
  (canonicalMpn : option string) : Rec.t SpecEntry :=
  match normalizeProducts W products canonicalMpn with
  | Returned (n, _) => n_specs n
  | Thrown _ => []
  end.



(** Two sources for one spec under two aliases. *)
Definition shopProduct : ExtractedProduct :=
  {| mpn := "M1-1120-3"; manufacturer := "SurgePure";
     sourceUrl := "https://shop.example.com/product/m1-1120-3";
     sourceType := distributor; confidence := 0.55;
     canonicalTitle := None; displayTitle := None;
     specs := [("Voltage", "120 V")];
     verbatimSections := None; images := None; datasheets := None;
     rawDatasheet := None |}.

Definition oemProduct : ExtractedProduct :=
  {| mpn := "M1-1120-3"; manufacturer := "SurgePure";
     sourceUrl := "https://www.surgepure.com/mach-1";
     sourceType := oem; confidence := 0.8;
     canonicalTitle := Some "SurgePure Mach 1 M1-1120-3"; displayTitle := None;
     specs := [("System Voltage", "120/240 V")];
     verbatimSections := None; images := None; datasheets := None;
     rawDatasheet := None |}.


(** The two aliases meet in one entry, which carries the value and the
    confidence of the OEM page and names both sources. *)
Example two_sources_merged :
  specsOfCall noFiles [shopProduct; oemProduct] None =
    [ ("Nominal AC Line Voltage (VRMS)",
       {| value := "120/240 V";
          sources := [ "https://shop.example.com/product/m1-1120-3";
                       "https://www.surgepure.com/mach-1" ];
          s_confidence := 0.8 |}) ].
Proof. reflexivity. Qed.

(** *** Calling the normalizer again *)

(** A product without a raw datasheet is left as it is. *)
Lemma preprocess_without_raw (p : ExtractedProduct) :
  rawDatasheet p = None -> preprocess p = p.
Proof. unfold preprocess. intros ->. reflexivity. Qed.

(** On a list without raw datasheets the call changes no product, so a
    second call on the same list sees what the first one saw. *)
Lemma normalize_leaves_plain_products (W : World)
  (products : list ExtractedProduct) (canonicalMpn : option string)
  (n : NormalizedProduct) (after : list ExtractedProduct) :
  (forall p, In p products -> rawDatasheet p = None) ->
  normalizeProducts W products canonicalMpn = Returned (n, after) ->
  after = products.
Proof.
  intros Hraw. unfold normalizeProducts.
  destruct products as [|p0 rest]; [discriminate|].
  destruct (injected W (p0 :: rest)) as [inj|]; [|discriminate]. cbn [bind].
  destruct (assemble _ _); [|discriminate]. cbn [bind].
  intros [= _ <-].
  transitivity (map (fun p => p) (p0 :: rest)); [|apply map_id].
  change (map preprocess (p0 :: rest) = map (fun p => p) (p0 :: rest)).
  apply map_ext_in. intros p Hp. apply preprocess_without_raw, Hraw, Hp.
Qed.

(** A datasheet product as the PDF extraction stores it: the raw blocks,
    no specs and no sections yet. *)
Definition datasheetProduct : ExtractedProduct :=
  {| mpn := "M1-1120-3"; manufacturer := "SurgePure";
     sourceUrl := "datasheet:M1-1120-3";
     sourceType := datasheet; confidence := 0.95;
     canonicalTitle := None; displayTitle := None;
     specs := [];
     verbatimSections := None; images := None; datasheets := None;
     rawDatasheet :=
       Some (Json.JObj
               [ ("marketing_overview",
                  Json.JStr "Mach 1 delivers secondary-level surge protection.");
                 ("electrical_specs",
                  Json.JObj [("warranty_raw", Json.JStr "10 Years")]);
                 ("key_features",
                  Json.JArr [Json.JStr "Easy installation"]) ]) |}.

Definition sectionsOfCall (W : World) (products : list ExtractedProduct)
  : list VerbatimOut :=
  match normalizeProducts W products None with
  | Returned (n, _) => n_verbatimSections n
  | Thrown _ => []
  end.

Definition productsAfterCall (W : World) (products : list ExtractedProduct)
  : list ExtractedProduct :=
  match normalizeProducts W products None with
  | Returned (_, after) => after
  | Thrown _ => products
  end.

Definition overviewSection : VerbatimOut :=
  {| v_heading := Some "Overview";
     v_text := "Mach 1 delivers secondary-level surge protection.";
     v_source := "datasheet:M1-1120-3"; v_confidence := 0.95 |}.

Definition featureSection : VerbatimOut :=
  {| v_heading := Some "Key Feature"; v_text := "Easy installation";
     v_source := "datasheet:M1-1120-3"; v_confidence := 0.95 |}.

(** C4 fails on the program. The first call pushes the sections read from
    the raw datasheet onto the caller's product; the second call on the
    same list pushes them again, and its result lists each of them twice.
    The specs are the same in both results. *)
Theorem normalize_twice_duplicates_sections :
  let first := [datasheetProduct] in
  let second := productsAfterCall noFiles first in
  returns (normalizeProducts noFiles first None) = true /\
  returns (normalizeProducts noFiles second None) = true /\
  sectionsOfCall noFiles first = [overviewSection; featureSection] /\
  sectionsOfCall noFiles second =
    [overviewSection; featureSection; overviewSection; featureSection] /\
  specsOfCall noFiles second None = specsOfCall noFiles first None.
Proof. repeat split. Qed.

End NormalizeProps.

(* ------------------------------------------------------------------ *)
(** ** Pipeline driver *)

Module PipelineProps.
Import Pipeline.

(** *** A shop page *)

Definition shopUrl : string := "https://shop.example.com/product/m1-1120-3".

Definition shopHtml : string :=
  "<html><head><title>M1-1120-3</title></head><body><h1>M1-1120-3</h1></body></html>".

Definition shopDatasheet : Extract.Datasheet :=
  {| Extract.ds_url := "https://shop.example.com/files/m1.pdf";
     Extract.ds_label := Some "Datasheet" |}.

(** What the DOM library finds on the shop page: three spec rows, one
    datasheet link and a description; [rich] adds a heading of more than
    15 characters and an image. *)
Definition shopDom (rich : bool) : Extract.Dom :=
  {| Extract.metaDescriptionAttr :=
       Some "Panel mounted unit in a NEMA 12 enclosure with a 10 year warranty.";
     Extract.ogDescriptionAttr := None;
     Extract.ogTitleAttr := None;
     Extract.twitterTitleAttr := None;
     Extract.h1Text := if rich then "SurgePure Mach 1 M1-1120-3" else "M1-1120-3";
     Extract.titleText := "M1-1120-3";
     Extract.bcWeight := None; Extract.bcSku := None;
     Extract.jsonLdDescription := None;
     Extract.domDatasheets := [shopDatasheet];
     Extract.domImages :=
       if rich then ["https://shop.example.com/media/m1.jpg"] else [];
     Extract.domSpecs :=
       [ ("Warranty", "10 Years"); ("Enclosure", "NEMA 12");
         ("Weight", "4 lb") ] |}.

(** The model's answer: one key feature, taken from the specs. *)
Definition shopAnswer : Json.t :=
  Json.JObj
    [ ("keyFeatures", Json.JArr [Json.JStr "Warranty: 10 Years"]);
      ("overview", Json.JStr "Panel mounted unit with a 10 Years warranty.");
      ("shortDescription", Json.JStr "Panel mounted unit.");
      ("longDescription", Json.JStr "Panel mounted unit in a NEMA 12 enclosure.");
      ("bulletHighlights", Json.JArr [Json.JStr "10 Years warranty"]);
      ("seoDescription", Json.JStr "M1-1120-3 panel mounted unit");
      ("disclaimers", Json.JArr []) ].

(** One search hit; the fast fetch fails and the browser renders the
    page; no cached datasheet. *)
Definition shopWorld (rich : bool) : World :=
  {| discoveryW :=
       {| Discovery.runSerperQuery := fun _ =>
            Returned [ {| Discovery.link := shopUrl;
                          Discovery.title := "M1-1120-3";
                          Discovery.snippet := "SurgePure" |} ];
          Discovery.hostname := fun _ => Some "shop.example.com";
          Discovery.mathExp := fun _ => 1%Q |};
     crawlW :=
       {| Crawl.fetch := fun _ _ => Crawl.NetworkError;
          Crawl.browser := fun _ =>
            {| Crawl.launches := true;
               Crawl.page := Crawl.Rendered shopHtml shopUrl;
               Crawl.closes := true |} |};
     extractW :=
       {| Extract.load := fun _ => Some (shopDom rich);
          Extract.decodeURIComponent := fun s => Some s |};
     normalizeW := {| Normalize.datasheetFile := fun _ => None |};
     synthW :=
       {| Synth.generateContent := fun _ => Returned "{...}";
          Synth.extractJson := fun _ => Returned shopAnswer |} |}.


(** *** The stages of a run *)

Definition canonicalMpnOf (input : Input) : string := canonicalize (mpn input).

Definition isRAOf (raAware : bool) (input : Input) : bool :=
  raAware && JS.endsWith (canonicalMpnOf input) "RA".

Definition lookupMpnOf (raAware : bool) (input : Input) : string :=
  if isRAOf raAware input then stripRA (canonicalMpnOf input)
  else canonicalMpnOf input.

(** The extractor's arguments for a crawled page. *)
Definition paramsOf (raAware : bool) (input : Input) (cr : Crawl.CrawlResult)
  : Extract.Params :=
  {| Extract.p_html := Crawl.html cr;
     Extract.p_sourceUrl := Crawl.finalUrl cr;
     Extract.p_mpn := lookupMpnOf raAware input;
     Extract.p_manufacturer := Some (manufacturer input) |}.



(** *** Rounding to two decimals *)






Definition plainInput : Input :=
  {| mpn := "M1-1120-3"; manufacturer := "SurgePure" |}.




(** *** The RA suffix *)



(** The suffix counts wherever it stands: [CAMERA] is looked up as
    [CAME]. *)
Example suffix_inside_a_token :
  canonicalize "camera" = "CAMERA" /\
  lookupMpnOf true {| mpn := "camera"; manufacturer := "Acme" |} = "CAME".
Proof. split; reflexivity. Qed.


Definition raInput : Input :=
  {| mpn := "m1 1120 3ra"; manufacturer := "SurgePure" |}.


End PipelineProps.

(* ================================================================== *)
(** * Further properties of the services *)

(** ** Strings *)

Module JSFacts.

Lemma trimStart_length (s : string) :
  (String.length (JS.trimStart s) <= String.length s)%nat.
Proof.
  induction s as [|c t IH]; cbn; [lia|].
  destruct (JS.isSpace c); cbn; lia.
Qed.

Lemma trimEnd_length (s : string) :
  (String.length (JS.trimEnd s) <= String.length s)%nat.
Proof.
  induction s as [|c t IH]; cbn; [lia|].
  destruct (JS.trimEnd t) eqn:E; cbn in *.
  - destruct (JS.isSpace c); cbn; lia.
  - lia.
Qed.

Lemma trim_length (s : string) :
  (String.length (JS.trim s) <= String.length s)%nat.
Proof.
  unfold JS.trim. etransitivity; [apply trimEnd_length | apply trimStart_length].
Qed.

Lemma takeStr_length (n : nat) (s : string) :
  (String.length (JS.takeStr n s) <= n)%nat.
Proof.
  revert s. induction n as [|n IH]; intro s; cbn; [lia|].
  destruct s as [|c t]; cbn; [lia|]. specialize (IH t). lia.
Qed.

(** A string that is empty or starts with a character that is no white
    space. *)
Definition headed (s : string) : Prop :=
  match s with
  | EmptyString => True
  | String c _ => JS.isSpace c = false
  end.

Lemma trimStart_headed (s : string) : headed (JS.trimStart s).
Proof.
  induction s as [|c t IH]; cbn; [exact I|].
  destruct (JS.isSpace c) eqn:E; [exact IH | exact E].
Qed.

Lemma trimStart_of_headed (s : string) : headed s -> JS.trimStart s = s.
Proof. destruct s as [|c t]; cbn; [reflexivity|]. now intros ->. Qed.

Lemma trimEnd_headed (s : string) : headed s -> headed (JS.trimEnd s).
Proof.
  destruct s as [|c t]; cbn; [trivial|]. intro H.
  destruct (JS.trimEnd t); [rewrite H|]; exact H.
Qed.

Lemma trimEnd_cons (c : ascii) (t : string) :
  JS.trimEnd (String c t) =
  match JS.trimEnd t with
  | EmptyString => if JS.isSpace c then EmptyString else String c EmptyString
  | t' => String c t'
  end.
Proof. reflexivity. Qed.

Lemma trimEnd_idempotent (s : string) : JS.trimEnd (JS.trimEnd s) = JS.trimEnd s.
Proof.
  induction s as [|c t IH]; [reflexivity|].
  rewrite (trimEnd_cons c t).
  destruct (JS.trimEnd t) as [|d u] eqn:E.
  - destruct (JS.isSpace c) eqn:Sp; [reflexivity|].
    rewrite trimEnd_cons. cbn. rewrite Sp. reflexivity.
  - rewrite trimEnd_cons, IH. reflexivity.
Qed.

Lemma trim_headed (s : string) : headed (JS.trim s).
Proof. apply trimEnd_headed, trimStart_headed. Qed.

(** Trimming twice is trimming once. *)
Lemma trim_idempotent (s : string) : JS.trim (JS.trim s) = JS.trim s.
Proof.
  unfold JS.trim at 1. rewrite (trimStart_of_headed _ (trim_headed s)).
  unfold JS.trim. apply trimEnd_idempotent.
Qed.

(** Trimming leaves something of a string that starts with a character
    other than white space. *)
Lemma trim_truthy (c : ascii) (t : string) :
  JS.isSpace c = false -> JS.truthy (JS.trim (String c t)) = true.
Proof.
  intro H. unfold JS.trim. cbn. rewrite H. cbn.
  destruct (JS.trimEnd t); [rewrite H|]; reflexivity.
Qed.

Lemma trim_keeps_head (c : ascii) (t : string) :
  JS.isSpace c = false -> exists u, JS.trim (String c t) = String c u.
Proof.
  intro H. unfold JS.trim. cbn. rewrite H. cbn.
  destruct (JS.trimEnd t); [rewrite H|]; eauto.
Qed.

Lemma truthy_length (s : string) :
  JS.truthy s = true <-> (0 < String.length s)%nat.
Proof. destruct s; cbn; split; intro; try lia; try discriminate; reflexivity. Qed.

End JSFacts.

(* ------------------------------------------------------------------ *)
(** ** Crawler: what a returned result tells *)

Module CrawlFacts.
Import Crawl.

Lemma fastAttempt_validated (W : World) (url : string) (i : nat)
  (c : CrawlResult) :
  fastAttempt W url i = inl c ->
  usedPlaywright c = false /\ fallbackReason c = None /\
  crawlConfidence c = Some high /\
  exists h, html c = Some h /\ isValidHtml h = true /\
            looksLikeProductPage h = true /\
            hasUsableProductSignals h = true.
Proof.
  unfold fastAttempt, tryFetchOnce.
  destruct (fetch W url i) as [|ok body u ct]; [discriminate|].
  destruct ok; cbn [andb]; [|discriminate].
  destruct (isValidHtml body) eqn:V; [|discriminate]. cbn [f_html].
  destruct (looksLikeProductPage body) eqn:L; cbn [negb]; [|discriminate].
  destruct (hasUsableProductSignals body) eqn:U; cbn [negb]; [|discriminate].
  intros [= <-]. cbn. repeat split. exists body. repeat split; assumption.
Qed.

Lemma fastLoop_inl (W : World) (url : string) (k n : nat)
  (fr : option FallbackReason) (c : CrawlResult) :
  fastLoop W url k n fr = inl c -> exists i, fastAttempt W url i = inl c.
Proof.
  revert n fr. induction k as [|k IH]; intros n fr; cbn; [discriminate|].
  destruct (fastAttempt W url n) as [c'|r] eqn:E.
  - intros [= <-]. eauto.
  - apply IH.
Qed.

Lemma fastLoop_inr (W : World) (url : string) (k n : nat)
  (fr fr' : option FallbackReason) :
  fastLoop W url k n fr = inr fr' ->
  (k = 0%nat /\ fr' = fr) \/ fr' = Some fetch_failed \/ fr' = Some non_product.
Proof.
  revert n fr. induction k as [|k IH]; intros n fr; cbn.
  - intros [= <-]. now left.
  - destruct (fastAttempt W url n) as [c'|r] eqn:E; [discriminate|].
    intro H. right. apply CrawlProps.fastAttempt_reason in E.
    destruct (IH _ _ H) as [[-> ->] | H']; [|exact H'].
    destruct E as [-> | ->]; [now left | now right].
Qed.

(** What each confidence level of a returned crawl stands for. *)
Definition levelMeaning (c : CrawlResult) : Prop :=
  match crawlConfidence c with
  | Some high =>
      usedPlaywright c = false /\
      exists h, html c = Some h /\ isValidHtml h = true /\
                looksLikeProductPage h = true /\
                hasUsableProductSignals h = true /\ (8000 < JS.len h)%Z
  | Some medium =>
      usedPlaywright c = true /\
      exists h, html c = Some h /\ hasUsableProductSignals h = true
  | Some low =>
      usedPlaywright c = true /\
      (html c = None \/
       exists h, html c = Some h /\ hasUsableProductSignals h = false /\
                 fallbackReason c = Some non_product)
  | None => False
  end.

(** X1. The three confidence levels of a returned crawl, and the reason it
    reports. [high]: the fast fetch returned a body that passed the HTML,
    product-page and usable-signal checks, so of more than 8000
    characters. [medium]: the browser rendered a page with usable
    signals. [low]: the browser failed to navigate, or rendered a page
    without usable signals, which is returned with reason [non_product].
    No result is without a level. A result of the fast fetch has no
    reason; a result of the browser has [fetch_failed] or [non_product]:
    the values [invalid_html] and [captcha_or_js] of the type are never
    reported. *)
Theorem crawl_levels_and_reasons (W : World) (url : string)
  (c : CrawlResult) :
  crawlPage W url = Returned c ->
  levelMeaning c /\
  ((usedPlaywright c = false /\ fallbackReason c = None) \/
   (usedPlaywright c = true /\
    (fallbackReason c = Some fetch_failed \/
     fallbackReason c = Some non_product))).
Proof.
  intro H. split.
  { unfold levelMeaning. revert H.
    unfold crawlPage.
    destruct (fastLoop W url 2 0 None) as [c'|fr] eqn:E.
    - intros [= <-]. apply fastLoop_inl in E. destruct E as [i E].
      apply fastAttempt_validated in E.
      destruct E as (Hp & _ & -> & h & Hh & Hv & Hl & Hu).
      split; [exact Hp|]. exists h. repeat split; try assumption.
      unfold hasUsableProductSignals in Hu.
      destruct (negb (JS.truthy h)); [discriminate|].
      apply andb_true_iff in Hu. destruct Hu as [Hu _].
      now apply Z.ltb_lt in Hu.
    - unfold crawlWithPlaywright.
      destruct (negb (launches (browser W url))); [discriminate|].
      destruct (closes (browser W url)); [|discriminate].
      destruct (page (browser W url)) as [|content pageUrl].
      + intros [= <-]. cbn. split; [reflexivity | now left].
      + destruct (hasUsableProductSignals content) eqn:U; cbn [negb];
          intros [= <-]; cbn.
        * split; [reflexivity|]. exists content. now split.
        * split; [reflexivity|]. right. exists content. repeat split. exact U. }
  { revert H.
    unfold crawlPage.
    destruct (fastLoop W url 2 0 None) as [c'|fr] eqn:E.
    - intros [= <-]. apply fastLoop_inl in E. destruct E as [i E].
      apply fastAttempt_validated in E. left. tauto.
    - apply fastLoop_inr in E.
      assert (Hfr : fr = Some fetch_failed \/ fr = Some non_product).
      { destruct E as [[E _] | E]; [discriminate | exact E]. }
      unfold crawlWithPlaywright.
      destruct (negb (launches (browser W url))); [discriminate|].
      destruct (closes (browser W url)); [|discriminate]. right.
      destruct (page (browser W url)) as [|content pageUrl].
      + injection H as <-. cbn. split; [reflexivity|].
        destruct Hfr as [-> | ->]; [now left | now right].
      + destruct (negb (hasUsableProductSignals content));
          injection H as <-; cbn; split; try reflexivity.
        * now right.
        * exact Hfr. }
Qed.

Lemma crawl_levels_and_reasons_witness :
  levelMeaning (CrawlProps.offlineResult "https://example.com/p") /\
  ((usedPlaywright (CrawlProps.offlineResult "https://example.com/p") = false /\
    fallbackReason (CrawlProps.offlineResult "https://example.com/p") = None) \/
   (usedPlaywright (CrawlProps.offlineResult "https://example.com/p") = true /\
    (fallbackReason (CrawlProps.offlineResult "https://example.com/p")
       = Some fetch_failed \/
     fallbackReason (CrawlProps.offlineResult "https://example.com/p")
       = Some non_product))).
Proof.
  apply (crawl_levels_and_reasons CrawlProps.offline "https://example.com/p").
  reflexivity.
Defined.

(** The crawler throws only when the browser cannot be started or
    closed: with a working browser every crawl returns. *)
Lemma crawl_returns_with_browser (W : World) (url : string) :
  launches (browser W url) = true ->
  closes (browser W url) = true ->
  returns (crawlPage W url) = true.
Proof.
  intros Hl Hc. unfold crawlPage.
  destruct (fastLoop W url 2 0 None); [reflexivity|].
  unfold crawlWithPlaywright. rewrite Hl, Hc. reflexivity.
Qed.

End CrawlFacts.

(* ------------------------------------------------------------------ *)
(** ** Discovery: the ranking and the URLs returned *)

From Stdlib Require Import Permutation.

Module DiscoveryFacts.
Import Discovery.

Lemma insertByScore_perm (x : Scored) (l : list Scored) :
  Permutation (insertByScore x l) (x :: l).
Proof.
  induction l as [|y t IH]; cbn; [reflexivity|].
  destruct (Qltb (score y) (score x)); [reflexivity|].
  rewrite IH. apply perm_swap.
Qed.

Lemma sortByScore_perm (l : list Scored) : Permutation (sortByScore l) l.
Proof.
  unfold sortByScore.
  assert (H : forall acc,
            Permutation (fold_left (fun a x => insertByScore x a) l acc)
                        (acc ++ l)).
  { induction l as [|x l IH]; intro acc; cbn.
    - rewrite app_nil_r. reflexivity.
    - rewrite IH. rewrite insertByScore_perm. cbn.
      apply Permutation_middle. }
  apply (H []).
Qed.

Lemma scoreResults_urls (W : World) (results : list SerperResult)
  (mpn manufacturer : string) :
  Permutation (map url (scoreResults W results mpn manufacturer))
              (map link results).
Proof.
  unfold scoreResults. rewrite (Permutation_map url (sortByScore_perm _)).
  rewrite !map_map. cbn. reflexivity.
Qed.

(** X2. The ranking holds every search result once: its URLs are the links of
    the results, reordered, and its scores descend. *)
Theorem ranking_is_sorted_permutation (W : World)
  (results : list SerperResult) (mpn manufacturer : string) :
  Permutation (map url (scoreResults W results mpn manufacturer))
              (map link results) /\
  DiscoveryProps.descending (scoreResults W results mpn manufacturer).
Proof.
  split; [apply scoreResults_urls | apply DiscoveryProps.scoreResults_descending].
Qed.

Lemma firstn_In_in {A : Type} (n : nat) (l : list A) (x : A) :
  In x (firstn n l) -> In x l.
Proof.
  revert l. induction n as [|n IH]; intros l H; cbn in H; [destruct H|].
  destruct l as [|y t]; [destruct H|]. destruct H as [-> | H]; [now left|].
  right. now apply IH.
Qed.

Lemma scoreResults_nil (W : World) (results : list SerperResult)
  (mpn manufacturer : string) :
  scoreResults W results mpn manufacturer = [] <-> results = [].
Proof.
  pose proof (scoreResults_urls W results mpn manufacturer) as Hp.
  split; intro H.
  - rewrite H in Hp. apply Permutation_nil in Hp.
    destruct results; [reflexivity | discriminate].
  - subst. apply Permutation_sym, Permutation_nil in Hp.
    destruct (scoreResults W [] mpn manufacturer); [reflexivity | discriminate].
Qed.

Definition pdfQuery (mpn : string) : string :=
  JS.dq ++ mpn ++ JS.dq ++ " datasheet pdf".

Definition pdfLink (r : SerperResult) : bool :=
  JS.endsWith (JS.toLowerCase (link r)) ".pdf".

Lemma pdf_urls_of_ranking (W : World) (results : list SerperResult)
  (mpn manufacturer : string) (u : string) :
  In u (map url (filter isPdfUrl (scoreResults W results mpn manufacturer)))
  <-> In u (map link results) /\ JS.endsWith (JS.toLowerCase u) ".pdf" = true.
Proof.
  pose proof (scoreResults_urls W results mpn manufacturer) as Hp.
  rewrite in_map_iff. split.
  - intros (s & <- & Hs). apply filter_In in Hs. destruct Hs as [Hin Hpdf].
    split; [|exact Hpdf].
    eapply Permutation_in; [exact Hp|]. now apply in_map.
  - intros [Hin Hpdf].
    apply (Permutation_in _ (Permutation_sym Hp)) in Hin.
    apply in_map_iff in Hin. destruct Hin as (s & <- & Hs).
    exists s. split; [reflexivity|]. apply filter_In. now split.
Qed.

(** X3. Without any search result, discovery asks for datasheets and returns
    no primary and no backup. The PDF URLs, at most three, are links of
    that second search ending in [.pdf]; the confidence is [medium] when
    there is such a link and [low] when there is none. *)
Theorem discovery_pdf_fallback (W : World) (mpn manufacturer : string)
  (pdfResults : list SerperResult) :
  runSerperQuery W (DiscoveryProps.mainQuery mpn manufacturer) = Returned [] ->
  runSerperQuery W (pdfQuery mpn) = Returned pdfResults ->
  exists r,
    discoverProductSources W mpn manufacturer = Returned r /\
    primaryProductUrl r = None /\ backupUrls r = [] /\
    (List.length (pdfUrls r) <= 3)%nat /\
    (forall u, In u (pdfUrls r) ->
       In u (map link pdfResults) /\
       JS.endsWith (JS.toLowerCase u) ".pdf" = true) /\
    confidence r = if existsb pdfLink pdfResults then medium else low.
Proof.
  intros Hq Hp. unfold discoverProductSources.
  fold (DiscoveryProps.mainQuery mpn manufacturer). rewrite Hq. cbn [bind].
  rewrite (proj2 (scoreResults_nil W [] mpn manufacturer) eq_refl).
  fold (pdfQuery mpn). rewrite Hp. cbn [bind].
  eexists. split; [reflexivity|].
  cbn [primaryProductUrl backupUrls pdfUrls confidence].
  split; [reflexivity|]. split; [reflexivity|].
  set (pdfOnly := map url (filter isPdfUrl
                              (scoreResults W pdfResults mpn manufacturer))).
  split; [apply firstn_le_length|]. split.
  - intros u Hu.
    apply (pdf_urls_of_ranking W pdfResults mpn manufacturer u).
    fold pdfOnly. eapply firstn_In_in. exact Hu.
  - destruct (existsb pdfLink pdfResults) eqn:E.
    + apply existsb_exists in E. destruct E as (x & Hx & Hpdf).
      assert (Hin : In (link x) pdfOnly).
      { apply pdf_urls_of_ranking. split; [now apply in_map | exact Hpdf]. }
      destruct pdfOnly; [destruct Hin | reflexivity].
    + destruct pdfOnly as [|u rest] eqn:P; [reflexivity|]. exfalso.
      assert (Hin : In u pdfOnly) by (rewrite P; now left).
      apply pdf_urls_of_ranking in Hin. destruct Hin as [Hin Hpdf].
      apply in_map_iff in Hin. destruct Hin as (x & <- & Hx).
      assert (existsb pdfLink pdfResults = true)
        by (apply existsb_exists; exists x; now split).
      congruence.
Qed.

(** A backend that finds nothing for the part but one datasheet and one
    page for the datasheet query. *)
Definition datasheetsOnly : World :=
  {| runSerperQuery := fun q =>
       if JS.endsWith q "datasheet pdf"
       then Returned [ {| link := "https://oem.example.com/files/M1.PDF";
                          title := "Mach 1 data sheet"; snippet := EmptyString |};
                       {| link := "https://oem.example.com/mach-1";
                          title := "Mach 1"; snippet := EmptyString |} ]
       else Returned [];
     hostname := fun _ => None;
     mathExp := fun _ => 1%Q |}.

Lemma discovery_pdf_fallback_witness :
  exists r,
    discoverProductSources datasheetsOnly "M1-1120-3" "SurgePure" = Returned r /\
    primaryProductUrl r = None /\ backupUrls r = [] /\
    pdfUrls r = ["https://oem.example.com/files/M1.PDF"] /\
    confidence r = medium.
Proof.
  destruct (discovery_pdf_fallback datasheetsOnly "M1-1120-3" "SurgePure"
              [ {| link := "https://oem.example.com/files/M1.PDF";
                   title := "Mach 1 data sheet"; snippet := EmptyString |};
                {| link := "https://oem.example.com/mach-1";
                   title := "Mach 1"; snippet := EmptyString |} ]
              eq_refl eq_refl) as (r & Hr & Hp & Hb & _ & _ & Hc).
  exists r. split; [exact Hr|]. split; [exact Hp|]. split; [exact Hb|].
  split; [|exact Hc].
  vm_compute in Hr. injection Hr as <-. reflexivity.
Defined.

Lemma discover_nonempty (W : World) (mpn manufacturer : string)
  (results : list SerperResult) (s1 : Scored) (rest : list Scored) :
  runSerperQuery W (DiscoveryProps.mainQuery mpn manufacturer)
    = Returned results ->
  scoreResults W results mpn manufacturer = s1 :: rest ->
  discoverProductSources W mpn manufacturer =
    Returned
      {| primaryProductUrl := Some (url s1);
         backupUrls :=
           map url
             (firstn 3
                (filter (fun r => negb (String.eqb (url r) (url s1)))
                        (scoreResults W results mpn manufacturer)));
         pdfUrls :=
           firstn 3
             (map url (filter isPdfUrl
                         (scoreResults W results mpn manufacturer)));
         confidence := rankingConfidence s1 (hd_error rest) |}.
Proof.
  intros Hq Hs. unfold discoverProductSources.
  fold (DiscoveryProps.mainQuery mpn manufacturer). rewrite Hq. cbn [bind].
  rewrite Hs. reflexivity.
Qed.

(** X4. With at least one search result, the primary URL is the link of a
    result with the greatest score. The backups are at most three links of
    results, none equal to the primary; the PDF URLs are at most three
    links of results ending in [.pdf]. *)
Theorem discovery_primary_and_backups (W : World)
  (mpn manufacturer : string) (r0 : SerperResult) (rs : list SerperResult) :
  runSerperQuery W (DiscoveryProps.mainQuery mpn manufacturer)
    = Returned (r0 :: rs) ->
  exists r s1,
    discoverProductSources W mpn manufacturer = Returned r /\
    primaryProductUrl r = Some (url s1) /\
    In s1 (scoreResults W (r0 :: rs) mpn manufacturer) /\
    In (url s1) (map link (r0 :: rs)) /\
    (forall s, In s (scoreResults W (r0 :: rs) mpn manufacturer) ->
       (score s <= score s1)%Q) /\
    (List.length (backupUrls r) <= 3)%nat /\
    (forall u, In u (backupUrls r) ->
       u <> url s1 /\ In u (map link (r0 :: rs))) /\
    (List.length (pdfUrls r) <= 3)%nat /\
    (forall u, In u (pdfUrls r) ->
       In u (map link (r0 :: rs)) /\
       JS.endsWith (JS.toLowerCase u) ".pdf" = true).
Proof.
  intro Hq.
  pose proof (scoreResults_urls W (r0 :: rs) mpn manufacturer) as Hperm.
  pose proof (DiscoveryProps.scoreResults_descending W (r0 :: rs) mpn
                manufacturer) as Hdesc.
  destruct (scoreResults W (r0 :: rs) mpn manufacturer) as [|s1 rest] eqn:Hs.
  { apply scoreResults_nil in Hs. discriminate. }
  pose proof (discover_nonempty W mpn manufacturer (r0 :: rs) s1 rest Hq Hs)
    as Hr.
  eexists. exists s1. split; [exact Hr|].
  cbn [primaryProductUrl backupUrls pdfUrls].
  split; [reflexivity|].
  split; [now left|]. split.
  { eapply Permutation_in; [exact Hperm|]. now left. }
  split.
  { intros s [<- | Hin]; [apply Qle_refl|].
    unfold DiscoveryProps.descending in Hdesc.
    apply StronglySorted_inv in Hdesc. destruct Hdesc as [_ Hall].
    rewrite Forall_forall in Hall. now apply Hall. }
  split; [rewrite length_map; apply firstn_le_length|]. split.
  { intros u Hu. apply in_map_iff in Hu. destruct Hu as (s & <- & Hin).
    apply firstn_In_in in Hin. apply filter_In in Hin.
    destruct Hin as [Hin Hne]. split.
    - apply negb_true_iff, String.eqb_neq in Hne. exact Hne.
    - rewrite Hs in Hin. eapply Permutation_in; [exact Hperm|].
      now apply in_map. }
  split; [apply firstn_le_length|].
  intros u Hu. apply firstn_In_in in Hu.
  apply (pdf_urls_of_ranking W (r0 :: rs) mpn manufacturer u).
  exact Hu.
Qed.

Lemma discovery_primary_and_backups_witness :
  exists r,
    discoverProductSources DiscoveryProps.twoHits "M1-1120-3" "SurgePure"
      = Returned r /\
    primaryProductUrl r = Some "https://shop.example.com/product/m1-1120-3" /\
    backupUrls r = ["https://forum.example.com/thread"] /\
    pdfUrls r = [].
Proof.
  destruct (discovery_primary_and_backups DiscoveryProps.twoHits
              "M1-1120-3" "SurgePure"
              {| link := "https://shop.example.com/product/m1-1120-3";
                 title := "M1-1120-3"; snippet := "SurgePure" |}
              [ {| link := "https://forum.example.com/thread";
                   title := "surge"; snippet := EmptyString |} ]
              eq_refl) as (r & s1 & Hr & _).
  exists r. split; [exact Hr|].
  vm_compute in Hr. injection Hr as <-. repeat split.
Defined.

(** Discovery throws only when the search backend does: when the queries
    return, whatever they return, so does discovery. *)
Lemma discovery_returns_when_search_does (W : World)
  (mpn manufacturer : string) :
  (forall q, returns (runSerperQuery W q) = true) ->
  returns (discoverProductSources W mpn manufacturer) = true.
Proof.
  intro H. unfold discoverProductSources.
  pose proof (H (DiscoveryProps.mainQuery mpn manufacturer)) as H1.
  fold (DiscoveryProps.mainQuery mpn manufacturer).
  destruct (runSerperQuery W (DiscoveryProps.mainQuery mpn manufacturer))
    as [results|]; [|discriminate]. cbn [bind].
  destruct (scoreResults W results mpn manufacturer); [|reflexivity].
  pose proof (H (pdfQuery mpn)) as H2. fold (pdfQuery mpn).
  destruct (runSerperQuery W (pdfQuery mpn)); [reflexivity | discriminate].
Qed.


End DiscoveryFacts.

(* ------------------------------------------------------------------ *)
(** ** HTML extractor: verdict, failures and the origin of specs *)

Module ExtractFacts.
Import Extract.

Lemma qualityOf_bounds (fv : FeatureVector) :
  (0 <= qualityOf fv)%Q /\ (qualityOf fv <= 1)%Q.
Proof.
  destruct fv as [[] [] [] [] []]; split; vm_compute; discriminate.
Qed.

(** X5. The verdict of the extractor. [ok] is true exactly when a quality
    score was computed and is at least 0.30; the score lies between 0 and
    1; a result that is not ok always names a reason, and one that is ok
    never does. Every result echoes the MPN, the manufacturer and the
    source URL it was called with. *)
Theorem extract_verdict_and_score (W : World) (p : Params) :
  let r := extractFromHtml W p in
  (ok r = true <->
     exists q, qualityScore r = Some q /\ (0.30 <= q)%Q) /\
  (forall q, qualityScore r = Some q -> (0 <= q)%Q /\ (q <= 1)%Q) /\
  (ok r = true <-> reason r = None) /\
  mpn r = p_mpn p /\ manufacturer r = p_manufacturer p /\
  sourceUrl r = p_sourceUrl p.
Proof.
  unfold extractFromHtml.
  destruct (guardrails p) as [g|].
  { cbn. repeat split; try discriminate.
    intros (q & H & _). discriminate. }
  destruct (load W (orEmpty (p_html p))) as [d|].
  2:{ cbn. repeat split; try discriminate.
      intros (q & H & _). discriminate. }
  set (q0 := qualityOf (featureVector (gather W p d))).
  destruct (qualityOf_bounds (featureVector (gather W p d))) as [Hlo Hhi].
  fold q0 in Hlo, Hhi.
  destruct (Qltb q0 0.30) eqn:E; cbn.
  - apply Qltb_true in E. repeat split; try discriminate.
    + intros (q & [= <-] & Hq). exfalso. exact (Qlt_not_le _ _ E Hq).
    + injection H as <-. exact Hlo.
    + injection H as <-. exact Hhi.
  - apply Qltb_false in E. repeat split; try reflexivity.
    + intros _. exists q0. split; [reflexivity | exact E].
    + injection H as <-. exact Hlo.
    + injection H as <-. exact Hhi.
Qed.

(** X6. A failure of a guardrail or of the DOM load carries no evidence: no
    score, no display title, no overview, no spec, no image, no datasheet,
    and the title built from the manufacturer and the MPN. Only
    [low_quality] results carry what was found. *)
Theorem extract_hard_failure_is_empty (W : World) (p : Params) :
  let r := extractFromHtml W p in
  ok r = false ->
  reason r <> Some low_quality ->
  qualityScore r = None /\ displayTitle r = None /\ overview r = None /\
  specs r = [] /\ images r = [] /\ datasheets r = [] /\
  canonicalTitle r = fallbackTitle (p_manufacturer p) (p_mpn p) /\
  productTitle r = canonicalTitle r.
Proof.
  unfold extractFromHtml.
  destruct (guardrails p) as [g|]; [cbn; intros; repeat split|].
  destruct (load W (orEmpty (p_html p))) as [d|]; [|cbn; intros; repeat split].
  destruct (Qltb _ 0.30); cbn; [congruence | discriminate].
Qed.

Lemma extract_hard_failure_is_empty_witness :
  specs (extractFromHtml ExtractProps.specsOnlyWorld
           {| p_html := None; p_sourceUrl := "https://shop.example.com/p";
              p_mpn := "M1-1120-3"; p_manufacturer := Some "SurgePure" |}) = [] /\
  canonicalTitle
    (extractFromHtml ExtractProps.specsOnlyWorld
       {| p_html := None; p_sourceUrl := "https://shop.example.com/p";
          p_mpn := "M1-1120-3"; p_manufacturer := Some "SurgePure" |})
    = "SurgePure M1-1120-3".
Proof.
  pose proof (extract_hard_failure_is_empty ExtractProps.specsOnlyWorld
                {| p_html := None; p_sourceUrl := "https://shop.example.com/p";
                   p_mpn := "M1-1120-3"; p_manufacturer := Some "SurgePure" |}
                eq_refl ltac:(discriminate)) as H.
  destruct H as (_ & _ & _ & Hs & _ & _ & Hc & _). split; [exact Hs|].
  rewrite Hc. reflexivity.
Defined.

(** *** Where the specs of a result come from *)

Lemma in_set {V : Type} (k : string) (v : V) (m : Rec.t V) (e : string * V) :
  In e (Rec.set k v m) -> e = (k, v) \/ In e m.
Proof.
  induction m as [|[k' v'] m IH]; cbn.
  - intros [<- | []]. now left.
  - destruct (String.eqb k k'); cbn.
    + intros [<- | H]; [now left | right; now right].
    + intros [<- | H]; [right; now left|].
      destruct (IH H) as [-> | H']; [now left | right; now right].
Qed.

(** The five pairs [promoteSpecsFromText] can produce. *)
Definition promotable : list (string * string) :=
  [ ("System Voltage", "120/240 V"); ("Phase", "Single Phase");
    ("Max Service Size", "200 A");
    ("Application", "Downline / Sub-panel Protection");
    ("Product Type", "Surge Protection Device") ].

Lemma promoted_is_promotable (text : string) (e : string * string) :
  In e (promoteSpecsFromText text) -> In e promotable.
Proof.
  unfold promoteSpecsFromText, promotable.
  destruct (Rx.test Rx.voltage text), (Rx.test Rx.phase text),
    (Rx.test Rx.amps text), (Rx.test Rx.downline text),
    (Rx.test Rx.surge text); cbn; intro H;
    repeat (destruct H as [<- | H]; [cbn; tauto|]); destruct H.
Qed.

(** The step that fills an absent key. *)
Definition fill (acc : Rec.t string) (kv : string * string) : Rec.t string :=
  if negb (Rec.truthyAt (fst kv) acc) then Rec.set (fst kv) (snd kv) acc
  else acc.

Lemma fill_keeps (acc : Rec.t string) (kv : string * string)
  (k v : string) :
  Rec.lookup k acc = Some v -> JS.truthy v = true ->
  Rec.lookup k (fill acc kv) = Some v.
Proof.
  intros Hk Hv. unfold fill.
  destruct (string_dec k (fst kv)) as [-> | Hne].
  - unfold Rec.truthyAt. rewrite Hk, Hv. exact Hk.
  - destruct (negb _); [|exact Hk].
    rewrite NormalizeProps.lookup_set_other by exact Hne. exact Hk.
Qed.

Lemma fill_all_keeps (l : list (string * string)) (acc : Rec.t string)
  (k v : string) :
  Rec.lookup k acc = Some v -> JS.truthy v = true ->
  Rec.lookup k (fold_left fill l acc) = Some v.
Proof.
  revert acc. induction l as [|kv l IH]; intros acc Hk Hv; cbn; [exact Hk|].
  apply IH; [|exact Hv]. now apply fill_keeps.
Qed.

Lemma fill_all_in (l : list (string * string)) (acc : Rec.t string)
  (e : string * string) :
  In e (fold_left fill l acc) -> In e acc \/ In e l.
Proof.
  revert acc. induction l as [|kv l IH]; intros acc H; cbn in H; [now left|].
  destruct (IH _ H) as [H' | H']; [|right; now right].
  unfold fill in H'. destruct (negb _); [|now left].
  apply in_set in H'. destruct H' as [-> | H']; [|now left].
  right. left. destruct kv; reflexivity.
Qed.

(** The specs of [gather], as a chain of fills. *)
Lemma gather_specs (W : World) (p : Params) (d : Dom) :
  exists text,
    specs (gather W p d) =
    fold_left fill (promoteSpecsFromText text)
      (fold_left fill
         (match orNull (bcWeight d) with Some w => [("Weight", w)] | None => [] end
          ++ match orNull (bcSku d) with Some s => [("SKU", s)] | None => [] end)%list
         (domSpecs d)).
Proof.
  eexists. unfold gather. cbn [specs].
  rewrite fold_left_app.
  destruct (orNull (bcWeight d)) as [w|], (orNull (bcSku d)) as [s|];
    reflexivity.
Qed.

(** X7. Specs read from tables and definition lists are never overwritten,
    and nothing is invented: every entry of the specs of a scored result
    is an entry of the table specs, the BCData weight under [Weight], the
    BCData sku under [SKU], or one of the five pairs the description
    promoter can produce. *)
Theorem extract_specs_origin (W : World) (p : Params) (d : Dom) :
  guardrails p = None ->
  load W (orEmpty (p_html p)) = Some d ->
  let r := extractFromHtml W p in
  (forall k v, Rec.lookup k (domSpecs d) = Some v -> JS.truthy v = true ->
     Rec.lookup k (specs r) = Some v) /\
  (forall e, In e (specs r) ->
     In e (domSpecs d) \/
     (exists w, orNull (bcWeight d) = Some w /\ e = ("Weight", w)) \/
     (exists s, orNull (bcSku d) = Some s /\ e = ("SKU", s)) \/
     In e promotable).
Proof.
  intros Hg Hl r.
  assert (Hs : specs r = specs (gather W p d)).
  { subst r. rewrite (ExtractProps.extract_verdict W p d Hg Hl).
    destruct (Qltb _ 0.30); reflexivity. }
  rewrite Hs. destruct (gather_specs W p d) as (text & ->). split.
  - intros k v Hk Hv. apply fill_all_keeps; [|exact Hv].
    apply fill_all_keeps; assumption.
  - intros e He. apply fill_all_in in He. destruct He as [He | He].
    + apply fill_all_in in He. destruct He as [He | He]; [now left|].
      right. apply in_app_or in He.
      destruct (orNull (bcWeight d)) as [w|], (orNull (bcSku d)) as [s|];
        cbn in He; destruct He as [He | He];
        repeat (destruct He as [<- | He]); try destruct He; eauto 6.
    + do 3 right. eapply promoted_is_promotable. exact He.
Qed.

Lemma extract_specs_origin_witness :
  Rec.lookup "Enclosure"
    (specs (extractFromHtml ExtractProps.specsOnlyWorld
              ExtractProps.specsOnlyPage)) = Some "NEMA 12".
Proof.
  apply (extract_specs_origin ExtractProps.specsOnlyWorld
           ExtractProps.specsOnlyPage ExtractProps.specsOnlyDom).
  - vm_compute. reflexivity.
  - reflexivity.
  - reflexivity.
  - reflexivity.
Defined.

End ExtractFacts.

(* ------------------------------------------------------------------ *)
(** ** HTML extractor: links, images and spec rows *)

Module HtmlFacts.
Import Html.

(** *** Records *)

Lemma keys_set {V : Type} (k : string) (v : V) (m : Rec.t V) :
  Rec.keys (Rec.set k v m) =
  if Rec.has k m then Rec.keys m else (Rec.keys m ++ [k])%list.
Proof.
  unfold Rec.has, Rec.keys. induction m as [|[k' v'] m IH]; cbn.
  - reflexivity.
  - destruct (String.eqb k k') eqn:E; cbn.
    + apply String.eqb_eq in E. now subst.
    + rewrite IH. destruct (Rec.lookup k m); reflexivity.
Qed.

Lemma lookup_in_keys {V : Type} (k : string) (m : Rec.t V) :
  Rec.lookup k m = None -> ~ In k (Rec.keys m).
Proof.
  unfold Rec.keys. induction m as [|[k' v'] m IH]; cbn; [tauto|].
  destruct (String.eqb k k') eqn:E; [discriminate|].
  apply String.eqb_neq in E. intros H [H' | H']; [congruence|]. now apply IH.
Qed.

Lemma set_NoDup {V : Type} (k : string) (v : V) (m : Rec.t V) :
  NoDup (Rec.keys m) -> NoDup (Rec.keys (Rec.set k v m)).
Proof.
  intro H. rewrite keys_set. unfold Rec.has.
  destruct (Rec.lookup k m) eqn:L; [exact H|].
  apply NoDup_app; [exact H | repeat constructor; tauto |].
  intros x Hx [<- | []]. exact (lookup_in_keys _ _ L Hx).
Qed.

Lemma values_set_Forall {V : Type} (P : V -> Prop) (k : string) (v : V)
  (m : Rec.t V) :
  Forall P (Rec.values m) -> P v -> Forall P (Rec.values (Rec.set k v m)).
Proof.
  unfold Rec.values. intros Hm Hv. induction m as [|[k' v'] m IH]; cbn.
  - constructor; [exact Hv | constructor].
  - inversion Hm as [|? ? Hv' Hm']; subst.
    destruct (String.eqb k k'); cbn; constructor; auto.
Qed.

Lemma lookup_in_values {V : Type} (k : string) (v : V) (m : Rec.t V) :
  Rec.lookup k m = Some v -> In v (Rec.values m).
Proof.
  unfold Rec.values. induction m as [|[k' v'] m IH]; cbn; [discriminate|].
  destruct (String.eqb k k'); [intros [= <-]; now left | right; now apply IH].
Qed.

(** *** [dedupeAndSort] *)

Definition byScore (a b : Candidate) : Prop := (c_score b <= c_score a)%Z.

Lemma insertDesc_perm (x : Candidate) (l : list Candidate) :
  Permutation (insertDesc x l) (x :: l).
Proof.
  induction l as [|y t IH]; cbn; [reflexivity|].
  destruct (c_score y <? c_score x)%Z; [reflexivity|].
  rewrite IH. apply perm_swap.
Qed.

Lemma insertDesc_Forall (P : Candidate -> Prop) (x : Candidate)
  (l : list Candidate) :
  P x -> Forall P l -> Forall P (insertDesc x l).
Proof.
  intros Hx Hl. induction Hl as [|y t Hy Ht IH]; cbn.
  - constructor; [exact Hx | constructor].
  - destruct (c_score y <? c_score x)%Z; repeat constructor; assumption.
Qed.

Lemma insertDesc_sorted (x : Candidate) (l : list Candidate) :
  StronglySorted byScore l -> StronglySorted byScore (insertDesc x l).
Proof.
  intro Hl. induction Hl as [|y t Ht IH Hy]; cbn.
  - constructor; constructor.
  - destruct (c_score y <? c_score x)%Z eqn:E.
    + apply Z.ltb_lt in E. constructor; [constructor; assumption|].
      constructor; [unfold byScore; lia|].
      eapply Forall_impl; [|exact Hy]. unfold byScore. intros; lia.
    + apply Z.ltb_ge in E. constructor; [exact IH|].
      apply insertDesc_Forall; [unfold byScore; lia | exact Hy].
Qed.

Lemma sortDesc_spec (l : list Candidate) :
  Permutation (sortDesc l) l /\ StronglySorted byScore (sortDesc l).
Proof.
  unfold sortDesc.
  assert (H : forall acc, StronglySorted byScore acc ->
            Permutation (fold_left (fun a x => insertDesc x a) l acc)
                        (acc ++ l) /\
            StronglySorted byScore
              (fold_left (fun a x => insertDesc x a) l acc)).
  { induction l as [|x l IH]; intros acc Hacc; cbn.
    - rewrite app_nil_r. now split.
    - destruct (IH (insertDesc x acc) (insertDesc_sorted x acc Hacc))
        as [Hp Hs].
      split; [|exact Hs]. rewrite Hp, insertDesc_perm. cbn.
      apply Permutation_middle. }
  apply (H []). constructor.
Qed.

(** The map built by the loop: keyed by URL, without repeated keys, made
    of given items, and holding for every given item an item of the same
    URL and a score at least as high. *)
Record deduped (items : list Candidate) (m : Rec.t Candidate) : Prop := {
  d_keyed : Forall (fun kv => fst kv = c_url (snd kv)) m;
  d_nodup : NoDup (Rec.keys m);
  d_from : forall c, In c (Rec.values m) -> In c items;
  d_best : forall c, In c items ->
             exists e, Rec.lookup (c_url c) m = Some e /\
                       (c_score c <= c_score e)%Z
}.

Lemma set_keyed (m : Rec.t Candidate) (c : Candidate) :
  Forall (fun kv => fst kv = c_url (snd kv)) m ->
  Forall (fun kv => fst kv = c_url (snd kv)) (Rec.set (c_url c) c m).
Proof.
  intro H. induction m as [|[k v] m IH]; cbn.
  - repeat constructor.
  - inversion H; subst. destruct (String.eqb (c_url c) k); constructor; auto.
Qed.

Lemma in_values_set (m : Rec.t Candidate) (k : string) (c x : Candidate) :
  In x (Rec.values (Rec.set k c m)) -> x = c \/ In x (Rec.values m).
Proof.
  unfold Rec.values. intro H. apply in_map_iff in H.
  destruct H as ([k' v'] & <- & H). apply ExtractFacts.in_set in H.
  destruct H as [[= -> ->] | H]; [now left|].
  right. apply in_map_iff. exists (k', v'). now split.
Qed.

Lemma keepBest_deduped (items : list Candidate) (m : Rec.t Candidate)
  (c : Candidate) :
  deduped items m -> deduped (items ++ [c]) (keepBest m c).
Proof.
  intros [Hk Hn Hf Hb]. unfold keepBest.
  assert (Hold : forall x, In x items -> In x (items ++ [c]))
    by (intros; apply in_or_app; now left).
  assert (Hnew : In c (items ++ [c])) by (apply in_or_app; right; now left).
  destruct (Rec.lookup (c_url c) m) as [existing|] eqn:L.
  - destruct (c_score existing <? c_score c)%Z eqn:E.
    + apply Z.ltb_lt in E. split.
      * now apply set_keyed.
      * now apply set_NoDup.
      * intros x Hx. apply in_values_set in Hx.
        destruct Hx as [-> | Hx]; auto.
      * intros x Hx. apply in_app_or in Hx.
        destruct (string_dec (c_url x) (c_url c)) as [Eq | Ne].
        -- rewrite Eq, NormalizeProps.lookup_set_same.
           exists c. split; [reflexivity|].
           destruct Hx as [Hx | [<- | []]]; [|lia].
           destruct (Hb x Hx) as (e & He & Hle). rewrite Eq, L in He.
           injection He as <-. lia.
        -- rewrite NormalizeProps.lookup_set_other by exact Ne.
           destruct Hx as [Hx | [<- | []]]; [now apply Hb | congruence].
    + apply Z.ltb_ge in E. split; auto.
      intros x Hx. apply in_app_or in Hx.
      destruct Hx as [Hx | [<- | []]]; [now apply Hb|].
      exists existing. split; [exact L | exact E].
  - split.
    + now apply set_keyed.
    + now apply set_NoDup.
    + intros x Hx. apply in_values_set in Hx. destruct Hx as [-> | Hx]; auto.
    + intros x Hx. apply in_app_or in Hx.
      destruct (string_dec (c_url x) (c_url c)) as [Eq | Ne].
      * rewrite Eq, NormalizeProps.lookup_set_same.
        exists c. split; [reflexivity|].
        destruct Hx as [Hx | [<- | []]]; [|lia].
        destruct (Hb x Hx) as (e & He & _). rewrite Eq, L in He. discriminate.
      * rewrite NormalizeProps.lookup_set_other by exact Ne.
        destruct Hx as [Hx | [<- | []]]; [now apply Hb | congruence].
Qed.

Lemma keepBest_fold (rest done : list Candidate) (m : Rec.t Candidate) :
  deduped done m -> deduped (done ++ rest) (fold_left keepBest rest m).
Proof.
  revert done m. induction rest as [|c rest IH]; intros done m H; cbn.
  - now rewrite app_nil_r.
  - specialize (IH (done ++ [c])%list _ (keepBest_deduped done m c H)).
    now rewrite <- app_assoc in IH.
Qed.

Lemma keyed_urls (m : Rec.t Candidate) :
  Forall (fun kv => fst kv = c_url (snd kv)) m ->
  map c_url (Rec.values m) = Rec.keys m.
Proof.
  unfold Rec.values, Rec.keys. intro H. induction H as [|[k v] m Hk _ IH]; cbn.
  - reflexivity.
  - cbn in Hk. now rewrite IH, Hk.
Qed.

Lemma dedupeAndSort_facts (items : list Candidate) :
  let out := dedupeAndSort items in
  (forall c, In c out -> In c items) /\
  NoDup (map c_url out) /\
  StronglySorted byScore out /\
  (forall c, In c items ->
     exists e, In e out /\ c_url e = c_url c /\ (c_score c <= c_score e)%Z).
Proof.
  unfold dedupeAndSort.
  assert (Hd : deduped items (fold_left keepBest items [])).
  { apply (keepBest_fold items [] []). split.
    - constructor.
    - constructor.
    - intros c [].
    - intros c []. }
  destruct Hd as [Hk Hn Hf Hb].
  destruct (sortDesc_spec (Rec.values (fold_left keepBest items [])))
    as [Hp Hs].
  cbn zeta. split; [|split; [|split]].
  - intros c Hc. apply Hf. eapply Permutation_in; eassumption.
  - eapply Permutation_NoDup.
    + apply Permutation_sym, Permutation_map, Hp.
    + rewrite keyed_urls by exact Hk. exact Hn.
  - exact Hs.
  - intros c Hc. destruct (Hb c Hc) as (e & He & Hle).
    exists e. split; [|split; [|exact Hle]].
    + eapply Permutation_in; [apply Permutation_sym, Hp|].
      eapply lookup_in_values. exact He.
    + clear - Hk He. induction Hk as [|[k v] m Hkv _ IH]; cbn in *.
      * discriminate.
      * destruct (String.eqb (c_url c) k) eqn:E.
        -- injection He as <-. apply String.eqb_eq in E. congruence.
        -- now apply IH.
Qed.

(** X8. [dedupeAndSort] returns given items only, one per URL, by descending
    score; for every given item it returns an item of the same URL whose
    score is at least as high; and the first item returned has the
    highest score of all the items given. *)
Theorem dedupeAndSort_spec (items : list Candidate) :
  let out := dedupeAndSort items in
  (forall c, In c out -> In c items) /\
  NoDup (map c_url out) /\
  StronglySorted byScore out /\
  (forall c, In c items ->
     exists e, In e out /\ c_url e = c_url c /\ (c_score c <= c_score e)%Z) /\
  (forall h c, hd_error out = Some h -> In c items ->
               (c_score c <= c_score h)%Z).
Proof.
  destruct (dedupeAndSort_facts items) as (Hfrom & Hnd & Hs & Hb).
  cbn zeta in *. repeat split; try assumption.
  intros h c Hh Hc. destruct (Hb c Hc) as (e & He & _ & Hle).
  destruct (dedupeAndSort items) as [|h' t]; [discriminate|].
  injection Hh as ->. destruct He as [<- | He]; [exact Hle|].
  apply StronglySorted_inv in Hs. destruct Hs as [_ Hall].
  rewrite Forall_forall in Hall. specialize (Hall e He).
  unfold byScore in Hall. lia.
Qed.

(** *** Datasheet links *)

Lemma in_somes {A : Type} (l : list (option A)) (x : A) :
  In x (Pipeline.somes l) <-> In (Some x) l.
Proof.
  induction l as [|[a|] l IH]; cbn.
  - tauto.
  - rewrite IH. split; intros [H | H]; auto; [left; congruence|].
    left. congruence.
  - rewrite IH. split; [auto | intros [H | H]; [discriminate | exact H]].
Qed.

Lemma firstn_NoDup {A : Type} (n : nat) (l : list A) :
  NoDup l -> NoDup (firstn n l).
Proof.
  revert l. induction n as [|n IH]; intros l H; cbn; [constructor|].
  destruct l as [|x t]; [constructor|]. inversion H; subst.
  constructor; [|now apply IH].
  intro Hin. apply DiscoveryFacts.firstn_In_in in Hin. contradiction.
Qed.

Lemma orNull_some (a : option string) (s : string) :
  orNull a = Some s -> a = Some s /\ JS.truthy s = true.
Proof.
  unfold orNull. destruct a as [x|]; [|discriminate].
  destruct (JS.truthy x) eqn:T; [|discriminate]. intros [= <-]. now split.
Qed.

Lemma orNull_truthy (s : string) :
  JS.truthy s = true -> orNull (Some s) = Some s.
Proof. intro H. cbn. now rewrite H. Qed.

(** X9. [extractDatasheets] returns at most five links with distinct URLs,
    best score first; each is the resolved URL and cleaned label of an
    anchor with a non-empty [href] whose score is positive. *)
Theorem datasheets_are_scored_links (W : World) (anchors : list Anchor)
  (baseUrl : string) :
  let out := extractDatasheets W anchors baseUrl in
  (List.length out <= 5)%nat /\
  NoDup (map Extract.ds_url out) /\
  (forall d, In d out ->
     exists a abs,
       In a anchors /\ JS.truthy (href a) = true /\
       absoluteUrl W (href a) baseUrl = Some abs /\
       JS.truthy abs = true /\
       Extract.ds_url d = abs /\
       Extract.ds_label d = orNull (Extract.cleanText (Some (anchorText a))) /\
       (0 < linkScore abs (lowerText (anchorText a)))%Z).
Proof.
  unfold extractDatasheets.
  set (cands := Pipeline.somes (map (datasheetCandidate W baseUrl) anchors)).
  destruct (dedupeAndSort_facts cands) as (Hfrom & Hnd & _ & _).
  cbn zeta. split; [|split].
  - rewrite length_map. apply firstn_le_length.
  - rewrite map_map, (map_ext _ c_url) by reflexivity.
    rewrite <- firstn_map. now apply firstn_NoDup.
  - intros d Hd. apply in_map_iff in Hd. destruct Hd as (c & <- & Hc).
    apply DiscoveryFacts.firstn_In_in, Hfrom in Hc.
    apply in_somes, in_map_iff in Hc. destruct Hc as (a & Ha & Hin).
    unfold datasheetCandidate in Ha.
    destruct (JS.truthy (href a)) eqn:T; cbn [negb] in Ha; [|discriminate].
    destruct (orNull (absoluteUrl W (href a) baseUrl)) as [abs|] eqn:A;
      [|discriminate].
    apply orNull_some in A. destruct A as [A Habs].
    destruct (0 <? linkScore abs (lowerText (anchorText a)))%Z eqn:S;
      [|discriminate].
    injection Ha as <-. cbn. exists a, abs. apply Z.ltb_lt in S.
    repeat split; assumption.
Qed.

(** *** Images *)

Lemma imageScore_le (lower : string) : (imageScore lower <= 4)%Z.
Proof.
  unfold imageScore, scoreIf.
  destruct (_ || _), (_ || _ || _); lia.
Qed.

Lemma images_from_page (W : World) (ogImage : option string)
  (srcs : list string) (baseUrl : string) :
  let out := extractImages W ogImage srcs baseUrl in
  (List.length out <= 3)%nat /\
  NoDup out /\
  (forall u, In u out ->
     (exists og, orNull ogImage = Some og /\
                 absoluteUrl W og baseUrl = Some u) \/
     (exists src, In src srcs /\ absoluteUrl W src baseUrl = Some u /\
                  rejectedImage (JS.toLowerCase u) = false)).
Proof.
  unfold extractImages.
  destruct (dedupeAndSort_facts (imageCandidates W ogImage srcs baseUrl))
    as (Hfrom & Hnd & _ & _).
  cbn zeta. split; [|split].
  - rewrite length_map. apply firstn_le_length.
  - rewrite <- firstn_map. now apply firstn_NoDup.
  - intros u Hu. apply in_map_iff in Hu. destruct Hu as (c & <- & Hc).
    apply DiscoveryFacts.firstn_In_in, Hfrom in Hc.
    unfold imageCandidates in Hc. apply in_somes in Hc.
    destruct Hc as [Hc | Hc].
    + left. unfold ogCandidate in Hc.
      destruct (orNull ogImage) as [og|]; [|discriminate].
      destruct (orNull (absoluteUrl W og baseUrl)) as [abs|] eqn:A;
        [|discriminate].
      apply orNull_some in A. destruct A as [A _].
      injection Hc as <-. exists og. now split.
    + right. apply in_map_iff in Hc. destruct Hc as (src & Hc & Hin).
      unfold imageCandidate in Hc.
      destruct (negb (JS.truthy src)); [discriminate|].
      destruct (orNull (absoluteUrl W src baseUrl)) as [abs|] eqn:A;
        [|discriminate].
      apply orNull_some in A. destruct A as [A _].
      destruct (rejectedImage (JS.toLowerCase abs)) eqn:R; [discriminate|].
      injection Hc as <-. exists src. repeat split; assumption.
Qed.

Lemma og_image_first (W : World) (ogImage : option string)
  (srcs : list string) (baseUrl og abs : string) :
  orNull ogImage = Some og ->
  absoluteUrl W og baseUrl = Some abs ->
  JS.truthy abs = true ->
  hd_error (extractImages W ogImage srcs baseUrl) = Some abs.
Proof.
  intros Hog Habs0 Habs1.
  assert (Habs : orNull (absoluteUrl W og baseUrl) = Some abs)
    by (rewrite Habs0; now apply orNull_truthy).
  unfold extractImages.
  set (cands := imageCandidates W ogImage srcs baseUrl).
  pose (ogc := {| c_url := abs; c_label := None; c_score := 5 |}).
  assert (Hin : In ogc cands).
  { unfold cands, imageCandidates. apply in_somes. left.
    unfold ogCandidate. rewrite Hog, Habs. reflexivity. }
  assert (Hmax : forall c, In c cands -> c = ogc \/ (c_score c <= 4)%Z).
  { intros c Hc. unfold cands, imageCandidates in Hc. apply in_somes in Hc.
    destruct Hc as [Hc | Hc].
    - left. unfold ogCandidate in Hc. rewrite Hog, Habs in Hc.
      injection Hc as <-. reflexivity.
    - right. apply in_map_iff in Hc. destruct Hc as (src & Hc & _).
      unfold imageCandidate in Hc. destruct (negb _); [discriminate|].
      destruct (orNull (absoluteUrl W src baseUrl)); [|discriminate].
      destruct (rejectedImage _); [discriminate|].
      injection Hc as <-. cbn. apply imageScore_le. }
  destruct (dedupeAndSort_facts cands) as (Hfrom & _ & Hsorted & Hbest).
  cbn zeta in *.
  destruct (Hbest ogc Hin) as (e & He & Hurl & Hscore). cbn in Hurl, Hscore.
  destruct (dedupeAndSort cands) as [|h t] eqn:D; [destruct He|].
  cbn. f_equal.
  assert (Hh : h = ogc \/ (c_score h <= 4)%Z) by (apply Hmax, Hfrom; now left).
  destruct Hh as [-> | Hh]; [reflexivity|]. exfalso.
  destruct He as [<- | He]; [lia|].
  apply StronglySorted_inv in Hsorted. destruct Hsorted as [_ Hall].
  rewrite Forall_forall in Hall. specialize (Hall e He).
  unfold byScore in Hall. lia.
Qed.

(** X10. [extractImages] returns at most three distinct URLs; each is the
    resolved [og:image] or the resolved source of an image whose
    lower-cased URL has none of [logo], [icon], [sprite], [placeholder],
    [spinner]; and a resolvable [og:image] is always the first image
    returned: its seed score of 5 is above what any [img] can reach. *)
Theorem images_are_filtered (W : World) (ogImage : option string)
  (srcs : list string) (baseUrl : string) :
  let out := extractImages W ogImage srcs baseUrl in
  (List.length out <= 3)%nat /\
  NoDup out /\
  (forall u, In u out ->
     (exists og, orNull ogImage = Some og /\
                 absoluteUrl W og baseUrl = Some u) \/
     (exists src, In src srcs /\ absoluteUrl W src baseUrl = Some u /\
                  rejectedImage (JS.toLowerCase u) = false)) /\
  (forall og abs, orNull ogImage = Some og ->
                  absoluteUrl W og baseUrl = Some abs ->
                  JS.truthy abs = true ->
                  hd_error out = Some abs).
Proof.
  destruct (images_from_page W ogImage srcs baseUrl) as (H1 & H2 & H3).
  cbn zeta in *. repeat split; try assumption.
  intros og abs Hog Habs Ht.
  exact (og_image_first W ogImage srcs baseUrl og abs Hog Habs Ht).
Qed.

(** *** Spec rows *)

(** A value as [extractSpecs] stores it: not empty, shorter than 180
    characters, without white space at either end. *)
Definition storable (v : string) : Prop :=
  JS.truthy v = true /\ (JS.len v < 180)%Z /\ JS.trim v = v.

Lemma cleanText_trimmed (input : option string) (c : string) :
  Extract.cleanText input = Some c -> JS.trim c = c.
Proof.
  unfold Extract.cleanText. destruct input as [s|]; [|discriminate].
  destruct (negb (JS.truthy s)); [discriminate|].
  intros [= <-]. apply JSFacts.trim_idempotent.
Qed.

Definition clean (specs : Rec.t string) : Prop :=
  Forall storable (Rec.values specs) /\ NoDup (Rec.keys specs).

Lemma putSpec_clean (specs : Rec.t string) (k v : string) :
  clean specs -> clean (putSpec specs k v).
Proof.
  intro H. unfold putSpec.
  destruct (Extract.cleanText (Some k)) as [key|]; [|exact H].
  destruct (Extract.cleanText (Some v)) as [value|] eqn:V; [|exact H].
  destruct (JS.truthy key && JS.truthy value && (JS.len value <? 180)%Z)
    eqn:E; [|exact H].
  unfold assign. destruct (String.eqb _ _); [exact H|].
  apply andb_true_iff in E. destruct E as [E Hlen].
  apply andb_true_iff in E. destruct E as [_ Hval].
  destruct H as [Hs Hn]. split; [|now apply set_NoDup].
  apply values_set_Forall; [exact Hs|]. repeat split.
  - exact Hval.
  - now apply Z.ltb_lt.
  - eapply cleanText_trimmed. exact V.
Qed.

Lemma putTable_clean (specs : Rec.t string) (rows : list (list string)) :
  clean specs -> clean (putTable specs rows).
Proof.
  unfold putTable. destruct (List.length rows <? 3)%nat; [easy|].
  revert specs. induction rows as [|cells rows IH]; intros specs H; cbn;
    [exact H|].
  apply IH. destruct cells as [|k [|v rest]]; cbn; try exact H.
  now apply putSpec_clean.
Qed.

(** X11. Every value [extractSpecs] returns is a non-empty string of fewer than
    180 characters with no white space at its ends, and no key occurs
    twice. *)
Theorem spec_rows_are_clean (page : SpecMarkup) :
  Forall storable (Rec.values (extractSpecs page)) /\
  NoDup (Rec.keys (extractSpecs page)).
Proof.
  change (clean (extractSpecs page)). unfold extractSpecs.
  assert (Htab : forall tabs specs,
            clean specs -> clean (fold_left putTable tabs specs)).
  { induction tabs as [|rows tabs IH]; intros specs H; cbn; [exact H|].
    now apply IH, putTable_clean. }
  assert (Hdt : forall dts specs,
            clean specs ->
            clean (fold_left (fun s dt => putSpec s (fst dt) (snd dt))
                     dts specs)).
  { induction dts as [|dt dts IH]; intros specs H; cbn; [exact H|].
    now apply IH, putSpec_clean. }
  apply Hdt, Htab. split; constructor.
Qed.

End HtmlFacts.

(* ------------------------------------------------------------------ *)
(** ** Synthesis: what every returned content satisfies *)

Module SynthFacts.
Import Synth.

Lemma existsb_eqb_In (x : string) (l : list string) :
  existsb (String.eqb x) l = true <-> In x l.
Proof.
  rewrite existsb_exists. split.
  - intros (y & Hy & E). apply String.eqb_eq in E. now subst.
  - intro H. exists x. split; [exact H | apply String.eqb_refl].
Qed.

Lemma dedupe_In (seen l : list string) (x : string) :
  In x (dedupe seen l) <-> In x l /\ ~ In x seen.
Proof.
  revert seen. induction l as [|y r IH]; intro seen; cbn; [tauto|].
  destruct (existsb (String.eqb y) seen) eqn:E.
  - apply existsb_eqb_In in E. rewrite IH. split.
    + intros [H1 H2]. auto.
    + intros [[-> | H1] H2]; [contradiction | auto].
  - assert (Hy : ~ In y seen).
    { intro H. apply existsb_eqb_In in H. congruence. }
    cbn. rewrite IH. cbn. split.
    + intros [<- | [H1 H2]]; [auto|]. split; [auto|]. intro H. apply H2. auto.
    + intros [[<- | H1] H2]; [auto|].
      destruct (String.eqb_spec y x) as [-> | Hne]; [auto|].
      right. split; [exact H1|]. intros [H | H]; [congruence | contradiction].
Qed.

Lemma dedupe_NoDup (seen l : list string) : NoDup (dedupe seen l).
Proof.
  revert seen. induction l as [|y r IH]; intro seen; cbn; [constructor|].
  destruct (existsb (String.eqb y) seen); [apply IH|].
  constructor; [|apply IH]. rewrite dedupe_In. intros [_ H]. apply H. now left.
Qed.

Lemma setAdd_In (x y : string) (l : list string) :
  In y (setAdd x l) <-> y = x \/ In y l.
Proof.
  unfold setAdd. destruct (existsb (String.eqb x) l) eqn:E.
  - apply existsb_eqb_In in E. split; [auto | intros [-> | H]; auto].
  - rewrite in_app_iff. cbn. split.
    + intros [H | [<- | []]]; auto.
    + intros [-> | H]; auto.
Qed.

Lemma setAdd_NoDup (x : string) (l : list string) :
  NoDup l -> NoDup (setAdd x l).
Proof.
  intro H. unfold setAdd. destruct (existsb (String.eqb x) l) eqn:E; [exact H|].
  assert (Hx : ~ In x l) by (intro Hin; apply existsb_eqb_In in Hin; congruence).
  clear E. induction H as [|a l Ha Hl IH]; cbn.
  - constructor; [intros [] | constructor].
  - constructor.
    + rewrite in_app_iff. cbn. intros [H | [<- | []]]; [contradiction|].
      apply Hx. now left.
    + apply IH. intro H. apply Hx. now right.
Qed.

(** The disclaimers [validateAgainstInput] leaves: those of the answer,
    each once, with the installation notice among them. *)
Lemma validate_disclaimers (input : SynthesisInput) (output : SynthesisOutput) :
  NoDup (disclaimers (validateAgainstInput input output)) /\
  In installationNotice (disclaimers (validateAgainstInput input output)) /\
  (forall d, In d (disclaimers output) ->
             In d (disclaimers (validateAgainstInput input output))).
Proof.
  unfold validateAgainstInput. cbn [disclaimers].
  set (s0 := dedupe [] (disclaimers output)).
  assert (H0 : NoDup s0) by apply dedupe_NoDup.
  assert (Hin : forall d, In d (disclaimers output) -> In d s0)
    by (intros d Hd; apply dedupe_In; split; [exact Hd | intros []]).
  destruct (_ || _).
  - split; [now apply setAdd_NoDup, setAdd_NoDup|].
    split; [apply setAdd_In; now left|].
    intros d Hd. apply setAdd_In. right. apply setAdd_In. right. auto.
  - split; [now apply setAdd_NoDup|]. split; [apply setAdd_In; now left|].
    intros d Hd. apply setAdd_In. right. auto.
Qed.

(** The strings [stringList] keeps are not empty. *)
Lemma stringList_truthy (out : Json.t) (f : string) :
  Forall (fun s => JS.truthy s = true) (stringList out f).
Proof.
  unfold stringList. destruct (Json.asArray _); [|constructor].
  apply Forall_forall. intros s Hs. apply filter_In in Hs. tauto.
Qed.

Lemma normalize_lists (parsed : Json.t) (title : string)
  (n : SynthesisOutput) :
  normalizeSynthesisOutput parsed title = Returned n ->
  (keyFeatures n = [] <-> bulletHighlights n = []) /\
  Forall (fun s => JS.truthy s = true) (keyFeatures n) /\
  Forall (fun s => JS.truthy s = true) (bulletHighlights n).
Proof.
  unfold normalizeSynthesisOutput. destruct (negb (isObject parsed));
    [discriminate|].
  intros [= <-]. cbn [keyFeatures bulletHighlights].
  pose proof (stringList_truthy parsed "keyFeatures") as Hk.
  pose proof (stringList_truthy parsed "bulletHighlights") as Hb.
  destruct (stringList parsed "keyFeatures") as [|k ks],
           (stringList parsed "bulletHighlights") as [|b bs];
    repeat split; auto; discriminate.
Qed.

Lemma clip_length (n : nat) (s : string) :
  (JS.len (if (Z.of_nat n <? JS.len s)%Z then JS.trim (JS.takeStr n s) else s)
   <= Z.of_nat n)%Z.
Proof.
  destruct (Z.of_nat n <? JS.len s)%Z eqn:E.
  - unfold JS.len.
    pose proof (JSFacts.trim_length (JS.takeStr n s)).
    pose proof (JSFacts.takeStr_length n s). lia.
  - now apply Z.ltb_ge in E.
Qed.

Lemma normalize_seo (parsed : Json.t) (title : string) (n : SynthesisOutput) :
  normalizeSynthesisOutput parsed title = Returned n ->
  (JS.len (seoDescription n) <= 160)%Z.
Proof.
  unfold normalizeSynthesisOutput. destruct (negb (isObject parsed));
    [discriminate|].
  intros [= <-]. cbn [seoDescription].
  exact (clip_length 160 (stringField parsed "seoDescription")).
Qed.

Lemma Qmin_range (x : Q) : (0 <= x)%Q -> (0 <= Qmin 0.85 x <= 0.85)%Q.
Proof.
  intro H. unfold Qmin. destruct (Qleb 0.85 x) eqn:E.
  - split; [discriminate | apply Qle_refl].
  - split; [exact H|].
    destruct (Qlt_le_dec x 0.85) as [L | L]; [now apply Qlt_le_weak|].
    apply Qleb_true in L. congruence.
Qed.

(** The content confidence lies between 0 and 0.85. *)
Lemma computeContentConfidence_range (input : SynthesisInput)
  (output : SynthesisOutput) :
  (0 <= computeContentConfidence input output <= 0.85)%Q.
Proof.
  unfold computeContentConfidence.
  destruct (List.length (Rec.keys (specs input))) as [|n] eqn:L; cbn [Nat.eqb].
  - split; discriminate.
  - apply Qmin_range.
    set (used := fold_left _ _ _).
    assert (Hf : (0 <= inject_Z (Z.of_nat used) / inject_Z (Z.of_nat (S n)))%Q).
    { apply Qle_shift_div_l.
      - unfold Qlt. cbn. lia.
      - rewrite Qmult_0_l. unfold Qle. cbn. lia. }
    destruct (Extract.nonEmpty (images input)),
             (Extract.nonEmpty (datasheets input)); lra.
Qed.

(** The three ways [synthesizeProductContent] ends. *)
Lemma synth_cases (W : World) (input : SynthesisInput) :
  (Rec.keys (specs input) = [] /\
   exists out, synthesizeProductContent W input = Returned out /\
     keyFeatures out = [] /\ bulletHighlights out = [] /\
     seoDescription out = EmptyString /\
     o_confidence out = Some 0%Q /\
     disclaimers out =
       [ "Insufficient verified product data available to generate content.";
         installationNotice ]) \/
  (Rec.keys (specs input) <> [] /\
   exists text parsed n,
     generateContent W input = Returned text /\
     extractJson W text = Returned parsed /\
     normalizeSynthesisOutput parsed (canonicalTitle input) = Returned n /\
     exists out, synthesizeProductContent W input = Returned out /\
       keyFeatures out = keyFeatures n /\
       bulletHighlights out = bulletHighlights n /\
       seoDescription out = seoDescription n /\
       disclaimers out = disclaimers (validateAgainstInput input n) /\
       o_confidence out =
         Some (computeContentConfidence input (validateAgainstInput input n))) \/
  (Rec.keys (specs input) <> [] /\
   exists m, synthesizeProductContent W input = Thrown m).
Proof.
  unfold synthesizeProductContent.
  destruct (Rec.keys (specs input)) as [|k ks] eqn:K.
  - left. split; [reflexivity|]. eexists. split; [reflexivity|].
    repeat split.
  - right.
    destruct (generateContent W input) as [text|e] eqn:G; cbn [bind].
    + destruct (extractJson W text) as [parsed|e] eqn:X; cbn [bind].
      * destruct (normalizeSynthesisOutput parsed (canonicalTitle input))
          as [n|e] eqn:N; cbn [bind].
        -- left. split; [discriminate|]. exists text, parsed, n.
           repeat split; try assumption. eexists. split; [reflexivity|].
           repeat split.
        -- right. split; [discriminate|]. eauto.
      * right. split; [discriminate|]. eauto.
    + right. split; [discriminate|]. eauto.
Qed.

(** X12. Whatever the model answers, a returned content carries the title of
    the input, a display title, a confidence between 0 and 0.85 and an
    SEO description of at most 160 characters. *)
Theorem synth_content_envelope (W : World) (input : SynthesisInput)
  (out : SynthesisOutput) :
  synthesizeProductContent W input = Returned out ->
  o_canonicalTitle out = canonicalTitle input /\
  o_displayTitle out =
    Some (if JS.truthy (canonicalTitle input) then canonicalTitle input
          else manufacturer input ++ " " ++ mpn input) /\
  (exists c, o_confidence out = Some c /\ (0 <= c <= 0.85)%Q) /\
  (JS.len (seoDescription out) <= 160)%Z.
Proof.
  intro H.
  assert (Ht : o_canonicalTitle out = canonicalTitle input /\
               o_displayTitle out =
                 Some (if JS.truthy (canonicalTitle input)
                       then canonicalTitle input
                       else manufacturer input ++ " " ++ mpn input)).
  { revert H. unfold synthesizeProductContent.
    destruct (Rec.keys (specs input)); [intros [= <-]; now split|].
    destruct (generateContent W input) as [text|]; cbn [bind]; [|discriminate].
    destruct (extractJson W text) as [parsed|]; cbn [bind]; [|discriminate].
    destruct (normalizeSynthesisOutput parsed (canonicalTitle input));
      cbn [bind]; [|discriminate].
    intros [= <-]. now split. }
  destruct Ht as [Ht1 Ht2]. split; [exact Ht1|]. split; [exact Ht2|].
  destruct (synth_cases W input)
    as [(_ & o & Ho & _ & _ & Hseo & Hc & _)
       | [(_ & text & parsed & n & _ & _ & Hn & o & Ho & _ & _ & Hseo & _ & Hc)
         | (_ & m & Hm)]];
    try (rewrite H in Ho; injection Ho as <-); try congruence.
  - split.
    + exists 0%Q. split; [exact Hc|]. split; discriminate.
    + rewrite Hseo. cbn. lia.
  - split.
    + eexists. split; [exact Hc|]. apply computeContentConfidence_range.
    + rewrite Hseo. eapply normalize_seo. exact Hn.
Qed.

Lemma synth_content_envelope_witness :
  exists out,
    synthesizeProductContent SynthProps.inventiveModel SynthProps.oneSpecInput
      = Returned out /\
    o_canonicalTitle out = "SurgePure M1-1120-3" /\
    o_displayTitle out = Some "SurgePure M1-1120-3" /\
    (exists c, o_confidence out = Some c /\ (0 <= c <= 0.85)%Q) /\
    (JS.len (seoDescription out) <= 160)%Z.
Proof.
  eexists. split; [vm_compute; reflexivity|].
  eapply (synth_content_envelope SynthProps.inventiveModel
            SynthProps.oneSpecInput).
  vm_compute. reflexivity.
Defined.

(** X13. The lists of a returned content. The disclaimers are pairwise
    different and include the installation notice. Key features and
    bullet highlights stand in for each other: the content has both or
    neither, and none of their entries is empty. *)
Theorem synth_content_lists (W : World) (input : SynthesisInput)
  (out : SynthesisOutput) :
  synthesizeProductContent W input = Returned out ->
  NoDup (disclaimers out) /\ In installationNotice (disclaimers out) /\
  (keyFeatures out = [] <-> bulletHighlights out = []) /\
  Forall (fun s => JS.truthy s = true) (keyFeatures out) /\
  Forall (fun s => JS.truthy s = true) (bulletHighlights out).
Proof.
  intro H.
  destruct (synth_cases W input)
    as [(_ & o & Ho & Hk & Hb & _ & _ & Hd)
       | [(_ & text & parsed & n & _ & _ & Hn & o & Ho & Hk & Hb & _ & Hd & _)
         | (_ & m & Hm)]];
    try (rewrite H in Ho; injection Ho as <-); try congruence.
  - rewrite Hd, Hk, Hb. split; [|split; [right; now left|]].
    + constructor; [|constructor; [intros [] | constructor]].
      intros [E | []]. discriminate E.
    + repeat split; constructor.
  - rewrite Hd, Hk, Hb.
    destruct (validate_disclaimers input n) as (H1 & H2 & _).
    split; [exact H1|]. split; [exact H2|].
    eapply normalize_lists. exact Hn.
Qed.

Lemma synth_content_lists_witness :
  exists out,
    synthesizeProductContent SynthProps.inventiveModel SynthProps.oneSpecInput
      = Returned out /\
    NoDup (disclaimers out) /\ In installationNotice (disclaimers out) /\
    (keyFeatures out = [] <-> bulletHighlights out = []) /\
    Forall (fun s => JS.truthy s = true) (keyFeatures out) /\
    Forall (fun s => JS.truthy s = true) (bulletHighlights out).
Proof.
  eexists. split; [vm_compute; reflexivity|].
  eapply (synth_content_lists SynthProps.inventiveModel SynthProps.oneSpecInput).
  vm_compute. reflexivity.
Defined.

(** X14. Once the model has answered, every failure (no JSON found, a JSON
    value that is no object) is reported as a parse failure that quotes
    the raw answer; a failure of the model call itself is passed on. *)
Theorem synth_failure_messages (W : World) (input : SynthesisInput)
  (m : string) :
  synthesizeProductContent W input = Thrown m ->
  Rec.keys (specs input) <> [] /\
  (generateContent W input = Thrown m \/
   exists text,
     generateContent W input = Returned text /\
     m = "Failed to parse Gemini response as JSON. Raw output:" ++
         String JsonText.newline text).
Proof.
  unfold synthesizeProductContent.
  destruct (Rec.keys (specs input)); [discriminate|].
  intro H. split; [discriminate|].
  destruct (generateContent W input) as [text|e]; cbn [bind] in H.
  - right. exists text. split; [reflexivity|].
    destruct (extractJson W text) as [parsed|]; cbn [bind] in H.
    + destruct (normalizeSynthesisOutput parsed (canonicalTitle input));
        cbn [bind] in H; [discriminate|]. now injection H as <-.
    + now injection H as <-.
  - left. now injection H as <-.
Qed.

Definition listModel : World :=
  {| generateContent := fun _ => Returned "[1, 2]";
     extractJson := fun _ => Returned (Json.JNum "7") |}.

Lemma synth_failure_messages_witness :
  Rec.keys (specs SynthProps.oneSpecInput) <> [] /\
  (generateContent listModel SynthProps.oneSpecInput =
     Thrown ("Failed to parse Gemini response as JSON. Raw output:" ++
             String JsonText.newline "[1, 2]") \/
   exists text,
     generateContent listModel SynthProps.oneSpecInput = Returned text /\
     "Failed to parse Gemini response as JSON. Raw output:" ++
       String JsonText.newline "[1, 2]" =
     "Failed to parse Gemini response as JSON. Raw output:" ++
       String JsonText.newline text).
Proof.
  apply (synth_failure_messages listModel SynthProps.oneSpecInput).
  vm_compute. reflexivity.
Defined.

End SynthFacts.

(* ------------------------------------------------------------------ *)
(** ** The search for the JSON object in an answer *)

Module JsonTextFacts.
Import JsonText.

Lemma takeStr_dropStr (n : nat) (s : string) :
  JS.takeStr n s ++ JS.dropStr n s = s.
Proof.
  revert s. induction n as [|n IH]; intro s; cbn; [reflexivity|].
  destruct s as [|ch t]; cbn; [reflexivity|]. now rewrite IH.
Qed.

Lemma takeStr_app (s post : string) :
  JS.takeStr (String.length s) (s ++ post) = s.
Proof. induction s as [|c t IH]; cbn; [now destruct post | now rewrite IH]. Qed.

Lemma takeStr_all (s : string) : JS.takeStr (String.length s) s = s.
Proof. induction s as [|c t IH]; cbn; [reflexivity | now rewrite IH]. Qed.

Lemma trimEnd_closed (s : string) (c : ascii) :
  JS.isSpace c = false ->
  JS.trimEnd (s ++ String c EmptyString) = s ++ String c EmptyString.
Proof.
  intro H. induction s as [|d t IH].
  - cbn. now rewrite H.
  - change (String d t ++ String c EmptyString)
      with (String d (t ++ String c EmptyString)).
    rewrite JSFacts.trimEnd_cons, IH. now destruct t.
Qed.

(** An object's text, from its opening to its closing brace, is left as
    it is by [trim]. *)
Lemma trim_braces (body : string) :
  JS.trim (String "{" (body ++ "}")) = String "{" (body ++ "}").
Proof.
  unfold JS.trim. cbn [JS.trimStart].
  change (JS.isSpace "{") with false. cbv iota.
  exact (trimEnd_closed (String "{" body) "}" eq_refl).
Qed.

Lemma fromFirstBrace_split (s rest : string) :
  fromFirstBrace s = Some rest ->
  exists pre t, s = pre ++ rest /\ rest = String "{" t /\
                fromFirstBrace pre = None.
Proof.
  induction s as [|c u IH]; cbn; [discriminate|].
  destruct (Ascii.eqb_spec c "{") as [-> | Hne].
  - intros [= <-]. exists EmptyString, u. now repeat split.
  - intro H. destruct (IH H) as (pre & t & -> & Hr & Hp).
    exists (String c pre), t. repeat split; [exact Hr|].
    cbn. destruct (Ascii.eqb_spec c "{"); [contradiction | exact Hp].
Qed.

Lemma fromFirstBrace_app (pre t post : string) :
  fromFirstBrace pre = None ->
  fromFirstBrace (pre ++ String "{" t ++ post) = Some (String "{" t ++ post).
Proof.
  induction pre as [|c u IH]; cbn; [reflexivity|].
  destruct (Ascii.eqb c "{"); [discriminate | exact IH].
Qed.

(** The scan reads no further than where it stops. *)
Lemma scan_prefix (s post : string) :
  forall depth inString escape n k,
    scan depth inString escape n s = Some k ->
    scan depth inString escape n (s ++ post) = Some k.
Proof.
  induction s as [|ch t IH]; intros depth inString escape n k;
    cbn [scan append]; [discriminate|].
  destruct inString.
  - destruct escape; [apply IH|].
    destruct (Ascii.eqb ch backslash); [apply IH|].
    destruct (Ascii.eqb ch quote); apply IH.
  - destruct (Ascii.eqb ch quote); [apply IH|].
    destruct (_ && _); [trivial | apply IH].
Qed.

(** Inside the object the depth is positive, and the scan stops on a
    closing brace. *)
Lemma scan_stops_on_brace (s : string) :
  forall depth inString escape n k,
    (0 < depth)%Z -> (0 < n)%nat ->
    scan depth inString escape n s = Some k ->
    exists body, JS.takeStr (k - n) s = body ++ "}" /\ (n < k)%nat.
Proof.
  induction s as [|ch t IH]; intros depth inString escape n k Hd Hn;
    cbn [scan]; [discriminate|].
  assert (Hstep : forall d i e,
            (0 < d)%Z -> scan d i e (S n) t = Some k ->
            exists body, JS.takeStr (k - n) (String ch t) = body ++ "}" /\
                         (n < k)%nat).
  { intros d i e Hd' H.
    destruct (IH d i e (S n) k Hd' (Nat.lt_0_succ n) H) as (body & Hb & Hlt).
    exists (String ch body). split; [|lia].
    replace (k - n)%nat with (S (k - S n)) by lia. cbn. now rewrite Hb. }
  assert (Hpos : (0 <? n)%nat = true) by now apply Nat.ltb_lt.
  rewrite Hpos, !andb_true_r.
  destruct inString.
  - destruct escape; [now apply Hstep|].
    destruct (Ascii.eqb ch backslash); [now apply Hstep|].
    destruct (Ascii.eqb ch quote); now apply Hstep.
  - destruct (Ascii.eqb ch quote); [now apply Hstep|].
    destruct (Ascii.eqb_spec ch "{") as [-> | Hopen].
    + change (Ascii.eqb "{" "}") with false. cbv iota.
      destruct (Z.eqb_spec (depth + 1) 0); [lia|]. apply Hstep. lia.
    + destruct (Ascii.eqb_spec ch "}") as [-> | Hclose].
      * destruct (Z.eqb_spec (depth - 1) 0).
        -- intros [= <-]. exists EmptyString. split; [|lia].
           replace (S n - n)%nat with 1%nat by lia. reflexivity.
        -- apply Hstep. lia.
      * destruct (Z.eqb_spec depth 0); [lia|]. now apply Hstep.
Qed.

Lemma scan_enters (t : string) :
  scan 0 false false 0 (String "{" t) = scan 1 false false 1 t.
Proof. reflexivity. Qed.

(** What the scan cuts out starts with the opening brace and ends with
    the closing one. *)
Lemma scan_candidate (t : string) (n : nat) :
  scan 0 false false 0 (String "{" t) = Some n ->
  exists body, JS.takeStr n (String "{" t) = String "{" (body ++ "}").
Proof.
  rewrite scan_enters. intro H.
  destruct (scan_stops_on_brace t 1 false false 1 n) as (body & Hb & Hlt);
    [lia | lia | exact H |].
  exists body. destruct n as [|n]; [lia|]. cbn.
  replace (S n - 1)%nat with n in Hb by lia. now rewrite Hb.
Qed.

(** X15. On the balanced-brace path the parser only sees the text from the
    first opening brace to its matching closing brace: what is returned
    is the parse of that text, or of its sanitized form when the text
    itself does not parse. *)
Theorem balanced_candidate_is_braced (parse : parser) (cleaned : string)
  (v : Json.t) :
  extractBalanced parse cleaned = Returned v ->
  exists pre body post,
    cleaned = pre ++ String "{" (body ++ "}") ++ post /\
    fromFirstBrace pre = None /\
    (parse (String "{" (body ++ "}")) = Returned v \/
     (exists e, parse (String "{" (body ++ "}")) = Thrown e) /\
     parse (sanitize (String "{" (body ++ "}"))) = Returned v).
Proof.
  unfold extractBalanced.
  destruct (fromFirstBrace cleaned) as [rest|] eqn:F; [|discriminate].
  destruct (fromFirstBrace_split cleaned rest F) as (pre & t & -> & -> & Hp).
  destruct (scan 0 false false 0 (String "{" t)) as [n|] eqn:S; [|discriminate].
  destruct (scan_candidate t n S) as (body & Hb).
  rewrite Hb, trim_braces. intro H.
  exists pre, body, (JS.dropStr n (String "{" t)).
  split; [|split; [exact Hp|]].
  - rewrite <- Hb, takeStr_dropStr. reflexivity.
  - destruct (parse (String "{" (body ++ "}"))) as [v1|e].
    + left. congruence.
    + right. split; [eauto|].
      destruct (parse (sanitize _)); [congruence | discriminate].
Qed.

Definition parseUnit : parser :=
  fun s => if String.eqb s "{}" then Returned (Json.JObj [])
           else Thrown "Unexpected token".

Lemma balanced_candidate_is_braced_witness :
  exists pre body post,
    "Here you go: {} Hope it helps." =
      pre ++ String "{" (body ++ "}") ++ post /\
    fromFirstBrace pre = None /\
    (parseUnit (String "{" (body ++ "}")) = Returned (Json.JObj []) \/
     (exists e, parseUnit (String "{" (body ++ "}")) = Thrown e) /\
     parseUnit (sanitize (String "{" (body ++ "}"))) = Returned (Json.JObj [])).
Proof.
  apply (balanced_candidate_is_braced parseUnit
           "Here you go: {} Hope it helps." (Json.JObj [])).
  vm_compute. reflexivity.
Defined.

(** X16. Prose around the object is ignored: text without a brace before the
    object and any text after its closing brace do not change the
    outcome. *)
Theorem balanced_ignores_prose (parse : parser) (pre t post : string) :
  fromFirstBrace pre = None ->
  scan 0 false false 0 (String "{" t) = Some (S (String.length t)) ->
  extractBalanced parse (pre ++ String "{" t ++ post) =
  extractBalanced parse (String "{" t).
Proof.
  intros Hp Hs. unfold extractBalanced.
  rewrite (fromFirstBrace_app pre t post Hp).
  cbn [fromFirstBrace]. change (Ascii.eqb "{" "{") with true. cbv iota.
  rewrite (scan_prefix (String "{" t) post _ _ _ _ _ Hs), Hs.
  change (S (String.length t)) with (String.length (String "{" t)).
  rewrite takeStr_app, takeStr_all. reflexivity.
Qed.

Lemma balanced_ignores_prose_witness :
  extractBalanced parseUnit ("Here you go: " ++ String "{" "}" ++ " Hope it {helps}.") =
  extractBalanced parseUnit (String "{" "}").
Proof.
  apply (balanced_ignores_prose parseUnit "Here you go: " "}" " Hope it {helps}.");
    reflexivity.
Defined.

End JsonTextFacts.

(* ------------------------------------------------------------------ *)
(** ** Normalizer: the shape of the merged specs *)

Module NormalizeFacts.
Import Normalize.

Lemma lookup_In {V : Type} (k : string) (v : V) (m : Rec.t V) :
  Rec.lookup k m = Some v -> In (k, v) m.
Proof.
  induction m as [|[k' v'] m IH]; cbn; [discriminate|].
  destruct (String.eqb_spec k k') as [<- | Hne].
  - intros [= <-]. now left.
  - intro H. right. now apply IH.
Qed.

Lemma set_Forall {V : Type} (P : string * V -> Prop) (k : string) (v : V)
  (m : Rec.t V) :
  Forall P m -> P (k, v) -> Forall P (Rec.set k v m).
Proof.
  intros Hm Hv. apply Forall_forall. intros e He.
  apply ExtractFacts.in_set in He. destruct He as [-> | He]; [exact Hv|].
  rewrite Forall_forall in Hm. now apply Hm.
Qed.

(** Canonical names are fixed points of the aliasing. *)
Lemma canonicalKey_idempotent (key : string) :
  canonicalKey (canonicalKey key) = canonicalKey key.
Proof.
  unfold canonicalKey at 2 3.
  destruct (Rec.lookup key SPEC_ALIASES) as [c|] eqn:L.
  - apply HtmlFacts.lookup_in_values in L. cbn in L.
    repeat (destruct L as [<- | L]; [reflexivity|]). destruct L.
  - destruct (String.eqb key "__proto__") eqn:E1; [reflexivity|].
    destruct (String.eqb key "constructor") eqn:E2; [reflexivity|].
    destruct (Rec.inherited key) eqn:E3; [reflexivity|].
    unfold canonicalKey. now rewrite L, E1, E2, E3.
Qed.

(** A merged entry as the merge leaves it: a value that is not empty and
    a list of sources that is not empty and names no source twice. *)
Definition wellFormed (e : SpecEntry) : Prop :=
  JS.truthy (value e) = true /\ sources e <> [] /\ NoDup (sources e).

Definition tidy (m : Rec.t SpecEntry) : Prop :=
  NoDup (Rec.keys m) /\
  Forall (fun kv => canonicalKey (fst kv) = fst kv /\ wellFormed (snd kv)) m.

Lemma set_tidy (k : string) (e : SpecEntry) (m : Rec.t SpecEntry) :
  tidy m -> canonicalKey k = k -> wellFormed e -> tidy (Rec.set k e m).
Proof.
  intros [Hn Hf] Hk He. split; [now apply HtmlFacts.set_NoDup|].
  apply set_Forall; [exact Hf | now split].
Qed.

Lemma NoDup_snoc (l : list string) (u : string) :
  NoDup l -> ~ In u l -> NoDup (l ++ [u]).
Proof.
  intros Hl Hu. apply NoDup_app; [exact Hl | repeat constructor; tauto |].
  intros x Hx [<- | []]. contradiction.
Qed.

Lemma mergeEntry_tidy (p : ExtractedProduct) (m : Rec.t SpecEntry)
  (kv : string * string) :
  tidy m -> tidy (mergeEntry p m kv).
Proof.
  intro H. unfold mergeEntry.
  destruct (JS.truthy (snd kv)) eqn:T; cbn [negb]; [|exact H].
  destruct (Rec.lookup (canonicalKey (fst kv)) m) as [e|] eqn:L.
  - assert (He : wellFormed e).
    { apply lookup_In in L. destruct H as [_ Hf].
      rewrite Forall_forall in Hf. exact (proj2 (Hf _ L)). }
    destruct He as (Hv & Hs & Hd).
    apply set_tidy; [exact H | apply canonicalKey_idempotent |].
    set (e1 := if Qgtb (confidence p) (s_confidence e) then _ else e).
    assert (H1 : wellFormed e1).
    { unfold e1. destruct (Qgtb _ _); repeat split; assumption. }
    destruct H1 as (Hv1 & Hs1 & Hd1).
    destruct (includesUrl (sources e1) (sourceUrl p)) eqn:I; cbn [negb].
    + repeat split; assumption.
    + repeat split; cbn.
      * exact Hv1.
      * now destruct (sources e1).
      * apply NoDup_snoc; [exact Hd1|]. intro Hin.
        apply SynthFacts.existsb_eqb_In in Hin. unfold includesUrl in I.
        congruence.
  - apply set_tidy; [exact H | apply canonicalKey_idempotent |].
    repeat split; cbn.
    + exact T.
    + discriminate.
    + repeat constructor. tauto.
Qed.

Lemma mergeSpecs_tidy (products : list ExtractedProduct) :
  tidy (mergeSpecs products).
Proof.
  unfold mergeSpecs.
  assert (Hin : forall sp p m, tidy m -> tidy (fold_left (mergeEntry p) sp m)).
  { induction sp as [|kv sp IH]; intros p m H; cbn; [exact H|].
    now apply IH, mergeEntry_tidy. }
  assert (Hout : forall ps m, tidy m ->
            tidy (fold_left
                    (fun merged p => fold_left (mergeEntry p) (specs p) merged)
                    ps m)).
  { induction ps as [|p ps IH]; intros m H; cbn; [exact H|].
    now apply IH, Hin. }
  apply Hout. split; constructor.
Qed.

Lemma normalize_specs (W : World) (products : list ExtractedProduct)
  (canonicalMpn : option string) (n : NormalizedProduct)
  (after : list ExtractedProduct) :
  normalizeProducts W products canonicalMpn = Returned (n, after) ->
  exists eff,
    n_specs n = mergeSpecs eff \/
    n_specs n = Rec.set "Remote Alarm" remoteAlarmEntry (mergeSpecs eff).
Proof.
  unfold normalizeProducts. destruct products as [|p ps]; [discriminate|].
  destruct (injected W (p :: ps)) as [inj|]; cbn [bind]; [|discriminate].
  set (eff := effectiveProducts inj (p :: ps)).
  unfold assemble. destruct eff as [|b bs] eqn:E; [discriminate|].
  cbn [bind]. intros [= <- _]. exists (b :: bs). cbn [n_specs].
  destruct (endsWithRA _); [now right | now left].
Qed.

Lemma normalize_tidy (W : World) (products : list ExtractedProduct)
  (canonicalMpn : option string) (n : NormalizedProduct)
  (after : list ExtractedProduct) :
  normalizeProducts W products canonicalMpn = Returned (n, after) ->
  tidy (n_specs n).
Proof.
  intro H.
  destruct (normalize_specs W products canonicalMpn n after H) as (eff & [-> | ->]).
  - apply mergeSpecs_tidy.
  - apply set_tidy; [apply mergeSpecs_tidy | reflexivity |].
    repeat split; cbn; [discriminate|]. repeat constructor. tauto.
Qed.

(** X17. The specs of a normalized product: no name twice, every name its own
    canonical form (no alias is left as a name), every value non-empty,
    every entry with at least one source and no source twice. The
    synthesis input built from it has the same spec names in the same
    order, and no empty value among its specs. *)
Theorem normalized_specs_are_tidy (W : World)
  (products : list ExtractedProduct) (canonicalMpn : option string)
  (n : NormalizedProduct) (after : list ExtractedProduct) :
  normalizeProducts W products canonicalMpn = Returned (n, after) ->
  NoDup (Rec.keys (n_specs n)) /\
  Forall (fun kv => canonicalKey (fst kv) = fst kv /\
                    JS.truthy (value (snd kv)) = true /\
                    sources (snd kv) <> [] /\
                    NoDup (sources (snd kv))) (n_specs n) /\
  Rec.keys (Synth.specs (buildSynthesisInput n)) = Rec.keys (n_specs n) /\
  Forall (fun v => JS.truthy v = true)
         (Rec.values (Synth.specs (buildSynthesisInput n))).
Proof.
  intro H. destruct (normalize_tidy W products canonicalMpn n after H)
    as [Hn Hf].
  split; [exact Hn|]. split; [exact Hf|].
  unfold buildSynthesisInput. cbn [Synth.specs]. unfold Rec.keys, Rec.values.
  rewrite !map_map. cbn. split; [reflexivity|].
  apply Forall_map.
  eapply Forall_impl; [|exact Hf]. cbn. intros kv (_ & Hv & _). exact Hv.
Qed.

Lemma normalized_specs_are_tidy_witness :
  exists n after,
    normalizeProducts NormalizeProps.noFiles
      [NormalizeProps.shopProduct; NormalizeProps.oemProduct] None
      = Returned (n, after) /\
    NoDup (Rec.keys (n_specs n)) /\
    Forall (fun kv => canonicalKey (fst kv) = fst kv /\
                      JS.truthy (value (snd kv)) = true /\
                      sources (snd kv) <> [] /\
                      NoDup (sources (snd kv))) (n_specs n) /\
    Rec.keys (Synth.specs (buildSynthesisInput n)) = Rec.keys (n_specs n) /\
    Forall (fun v => JS.truthy v = true)
           (Rec.values (Synth.specs (buildSynthesisInput n))).
Proof.
  eexists. eexists. split; [vm_compute; reflexivity|].
  eapply (normalized_specs_are_tidy NormalizeProps.noFiles
            [NormalizeProps.shopProduct; NormalizeProps.oemProduct] None).
  vm_compute. reflexivity.
Defined.

(** *** The cached datasheet *)

(** X18. When the list already holds a datasheet product the cache on disk is
    not consulted: the call returns, with the same result whatever the
    disk holds, even a file that cannot be read. *)
Theorem datasheet_in_list_skips_disk (W W' : World)
  (products : list ExtractedProduct) (canonicalMpn : option string) :
  existsb isDatasheet products = true ->
  normalizeProducts W products canonicalMpn =
    normalizeProducts W' products canonicalMpn /\
  exists r, normalizeProducts W products canonicalMpn = Returned r.
Proof.
  intro H. unfold normalizeProducts, injected.
  destruct products as [|p ps]; [discriminate|].
  rewrite H. cbn [negb bind]. split; [reflexivity|].
  unfold effectiveProducts. cbn [map]. unfold assemble. cbn [bind]. eauto.
Qed.

Definition brokenDisk : World :=
  {| datasheetFile := fun _ => Some (Thrown "EACCES") |}.

Lemma datasheet_in_list_skips_disk_witness :
  normalizeProducts brokenDisk [NormalizeProps.datasheetProduct] None =
    normalizeProducts NormalizeProps.noFiles
      [NormalizeProps.datasheetProduct] None /\
  exists r, normalizeProducts brokenDisk [NormalizeProps.datasheetProduct] None
            = Returned r.
Proof.
  apply (datasheet_in_list_skips_disk brokenDisk NormalizeProps.noFiles
           [NormalizeProps.datasheetProduct] None).
  reflexivity.
Defined.

(** Without a datasheet product in the list, a cached file that cannot be
    read or parsed makes the call throw, with a message that names the
    MPN of the first product. *)
Lemma unreadable_datasheet_throws (W : World) (p : ExtractedProduct)
  (ps : list ExtractedProduct) (canonicalMpn : option string) (e : string) :
  existsb isDatasheet (p :: ps) = false ->
  datasheetFile W (mpn p) = Some (Thrown e) ->
  normalizeProducts W (p :: ps) canonicalMpn =
    Thrown ("Failed to load datasheet JSON for " ++ mpn p ++ ": " ++ e).
Proof.
  intros H F. unfold normalizeProducts, injected. rewrite H. cbn [negb].
  rewrite F. reflexivity.
Qed.


(** *** The overall confidence *)

Lemma fold_Qplus_bounds (lo hi : Q) (l : list Q) :
  Forall (fun q => lo <= q <= hi)%Q l ->
  forall acc,
    (acc + inject_Z (Z.of_nat (List.length l)) * lo
       <= fold_left Qplus l acc)%Q /\
    (fold_left Qplus l acc
       <= acc + inject_Z (Z.of_nat (List.length l)) * hi)%Q.
Proof.
  induction 1 as [|q l [Hlo Hhi] Hl IH]; intro acc; cbn [fold_left List.length].
  - change (inject_Z (Z.of_nat 0)) with 0%Q. split; lra.
  - destruct (IH (acc + q)%Q) as [I1 I2].
    assert (E : (inject_Z (Z.of_nat (S (List.length l)))
                 == inject_Z (Z.of_nat (List.length l)) + 1)%Q).
    { rewrite Nat2Z.inj_succ. unfold Z.succ. rewrite inject_Z_plus.
      reflexivity. }
    rewrite E. split; lra.
Qed.

Lemma mean_bounds {A : Type} (f : A -> Q) (lo hi : Q) (l : list A) :
  l <> [] -> Forall (fun a => lo <= f a <= hi)%Q l ->
  (lo <= Qsum (map f l) / inject_Z (Z.of_nat (List.length l)) <= hi)%Q.
Proof.
  intros Hne Hl.
  assert (Hm : Forall (fun q => lo <= q <= hi)%Q (map f l))
    by now apply Forall_map.
  destruct (fold_Qplus_bounds lo hi (map f l) Hm 0) as [I1 I2].
  rewrite length_map in I1, I2.
  assert (Hpos : (0 < inject_Z (Z.of_nat (List.length l)))%Q).
  { destruct l; [congruence|]. unfold Qlt. cbn. lia. }
  unfold Qsum. split.
  - apply Qle_shift_div_l; [exact Hpos | lra].
  - apply Qle_shift_div_r; [exact Hpos | lra].
Qed.

Lemma preprocess_confidence (p : ExtractedProduct) :
  confidence (preprocess p) = confidence p.
Proof.
  unfold preprocess. destruct (rawDatasheet p); [|reflexivity].
  destruct (_ && _); reflexivity.
Qed.

(** X19. The overall confidence is the mean of the confidences merged: with
    every source between 0 and 1 it is between 0 and 1 (the injected
    datasheet product counts 0.95). *)
Theorem overall_confidence_in_unit_interval (W : World)
  (products : list ExtractedProduct) (canonicalMpn : option string)
  (n : NormalizedProduct) (after : list ExtractedProduct) :
  Forall (fun p => 0 <= confidence p <= 1)%Q products ->
  normalizeProducts W products canonicalMpn = Returned (n, after) ->
  (0 <= n_overallConfidence n <= 1)%Q.
Proof.
  intros Hc. unfold normalizeProducts.
  destruct products as [|p ps]; [discriminate|].
  destruct (injected W (p :: ps)) as [inj|] eqn:I; cbn [bind]; [|discriminate].
  assert (Hinj : match inj with
                 | Some d => (0 <= confidence d <= 1)%Q
                 | None => True
                 end).
  { unfold injected in I. destruct (negb _); [|now injection I as <-].
    destruct (datasheetFile W (mpn p)) as [[raw|e]|];
      [injection I as <- | discriminate | now injection I as <-].
    cbn. split; [unfold Qle; cbn; lia | unfold Qle; cbn; lia]. }
  assert (Heff : Forall (fun p => 0 <= confidence p <= 1)%Q
                        (effectiveProducts inj (p :: ps))).
  { unfold effectiveProducts. apply Forall_map.
    assert (Hall : Forall (fun p => 0 <= confidence p <= 1)%Q
                     match inj with Some d => d :: p :: ps | None => p :: ps end)
      by (destruct inj; [constructor|]; assumption).
    eapply Forall_impl; [|exact Hall]. intros a Ha.
    now rewrite preprocess_confidence. }
  destruct (effectiveProducts inj (p :: ps)) as [|b bs] eqn:E.
  - discriminate.
  - unfold assemble. cbn [bind]. intros [= <- _]. cbn [n_overallConfidence].
    apply (mean_bounds confidence 0 1 (b :: bs)); [discriminate | exact Heff].
Qed.

Lemma overall_confidence_in_unit_interval_witness :
  exists n after,
    normalizeProducts NormalizeProps.noFiles
      [NormalizeProps.shopProduct; NormalizeProps.oemProduct] None
      = Returned (n, after) /\
    (0 <= n_overallConfidence n <= 1)%Q.
Proof.
  eexists. eexists. split; [vm_compute; reflexivity|].
  eapply (overall_confidence_in_unit_interval NormalizeProps.noFiles
            [NormalizeProps.shopProduct; NormalizeProps.oemProduct] None).
  - repeat constructor; cbn; unfold Qle; cbn; lia.
  - vm_compute. reflexivity.
Defined.

End NormalizeFacts.

(* ------------------------------------------------------------------ *)
(** ** PDF extraction *)

Module PdfFacts.
Import Pdf.



(** X21. A returned extraction has at least 18 raw rows; each of its specs
    names the PDF as its source, and all of them carry the same model. *)
Theorem pdf_result_shape (W : World) (pdfUrl : string)
  (targetModel : option string) (r : PdfExtractionResult) :
  extractFromPdf W pdfUrl targetModel = Returned r ->
  (18 <= List.length (rawRows r))%nat /\
  Forall (fun s => source s = Some pdfUrl) (specs r) /\
  (forall s1 s2, In s1 (specs r) -> In s2 (specs r) ->
                 model s1 = model s2).
Proof.
  unfold extractFromPdf.
  destruct (fetchPdfBuffer W pdfUrl) as [buffer|]; cbn [bind]; [|discriminate].
  destruct (parsePdfText W buffer) as [rawText|]; cbn [bind]; [|discriminate].
  set (text := normalizePdfText W rawText).
  set (detected := detectModels W (repairModelTokens W text)).
  set (rows := t_rawRows (extractSpecs W text detected pdfUrl)).
  destruct (List.length rows <? 18)%nat eqn:E; [discriminate|].
  apply Nat.ltb_ge in E. unfold mapRows.
  destruct (mapWithGemini W _ detected rows) as [g|]; cbn [bind];
    [|discriminate].
  intros [= <-]. cbn [rawRows specs]. split; [exact E|]. split.
  - apply Forall_map, Forall_forall. reflexivity.
  - intros s1 s2 H1 H2. apply in_map_iff in H1, H2.
    destruct H1 as (kv1 & <- & _), H2 as (kv2 & <- & _). reflexivity.
Qed.

Lemma pdf_result_shape_witness :
  exists r,
    extractFromPdf (PdfProps.sheet 20) "https://example.com/m1.pdf" None
      = Returned r /\
    (18 <= List.length (rawRows r))%nat /\
    Forall (fun s => source s = Some "https://example.com/m1.pdf") (specs r) /\
    (forall s1 s2, In s1 (specs r) -> In s2 (specs r) ->
                   model s1 = model s2).
Proof.
  eexists. split; [vm_compute; reflexivity|].
  eapply (pdf_result_shape (PdfProps.sheet 20) "https://example.com/m1.pdf"
            None).
  vm_compute. reflexivity.
Defined.

End PdfFacts.

(* ------------------------------------------------------------------ *)
(** ** The feature list of a datasheet *)

Module PdfTextFacts.
Import PdfText.

(** A feature as it is stored: not empty, and trimmed. *)
Definition stored (f : string) : Prop :=
  JS.truthy f = true /\ JS.trim f = f.

Lemma trim_stored (s : string) :
  JSFacts.headed s -> JS.truthy s = true -> stored (JS.trim s).
Proof.
  intros Hh Ht. destruct s as [|c t]; [discriminate|]. cbn in Hh.
  split; [now apply JSFacts.trim_truthy | apply JSFacts.trim_idempotent].
Qed.

Lemma headed_app (s x : string) :
  JSFacts.headed s -> JS.truthy s = true -> JSFacts.headed (s ++ x).
Proof. destruct s as [|c t]; [discriminate | trivial]. Qed.

Lemma afterBullet_headed (line : string) : JSFacts.headed (afterBullet line).
Proof. apply JSFacts.trim_headed. Qed.

(** The invariant of the loop: the feature under construction does not
    start with white space, and every closed feature is stored
    properly. *)
Definition steady (st : State) : Prop :=
  JSFacts.headed (currentFeature st) /\ Forall stored (features st).

Lemma push_steady (st : State) :
  steady st -> JS.truthy (currentFeature st) = true ->
  Forall stored (features st ++ [JS.trim (currentFeature st)]).
Proof.
  intros [Hh Hf] Ht. apply Forall_app. split; [exact Hf|].
  constructor; [now apply trim_stored | constructor].
Qed.

Lemma flush_steady (st : State) (inF : bool) : steady st -> steady (flush st inF).
Proof.
  intro H. unfold flush. destruct (JS.truthy (currentFeature st)) eqn:T.
  - split; [exact I | now apply push_steady].
  - exact H.
Qed.

Lemma step_steady (st : State) (raw : string) : steady st -> steady (step st raw).
Proof.
  intro H. unfold step.
  destruct (isFeaturesHeading _); [now apply flush_steady|].
  destruct (isFeaturesEnd _); [now apply flush_steady|].
  destruct (negb (inFeatures st)); [exact H|].
  destruct (JS.startsWith (JS.trim raw) bullet) eqn:B.
  - split; cbn [currentFeature features]; [apply afterBullet_headed|].
    destruct (JS.truthy (currentFeature st)) eqn:T;
      [now apply push_steady | exact (proj2 H)].
  - destruct (JS.truthy (currentFeature st)) eqn:T; cbn [andb]; [|exact H].
    destruct (_ || _).
    + split; cbn [currentFeature features]; [|exact (proj2 H)].
      apply headed_app; [exact (proj1 H) | exact T].
    + split; cbn [currentFeature features]; [exact I | now apply push_steady].
Qed.

Lemma fold_steady (lines : list string) (st : State) :
  steady st -> steady (fold_left step lines st).
Proof.
  revert st. induction lines as [|l ls IH]; intros st H; cbn; [exact H|].
  now apply IH, step_steady.
Qed.

(** X22. The features of a datasheet are pairwise different, and each is a
    non-empty string without white space at its ends. *)
Theorem features_are_distinct_and_trimmed (text : string)
  (models : list string) :
  NoDup (extractFeatures text models) /\
  Forall (fun f => JS.truthy f = true /\ JS.trim f = f)
         (extractFeatures text models).
Proof.
  unfold extractFeatures. split; [apply SynthFacts.dedupe_NoDup|].
  set (st := fold_left step _ _).
  assert (Hst : steady st).
  { apply fold_steady. split; [exact I | constructor]. }
  apply Forall_forall. intros f Hf. apply SynthFacts.dedupe_In in Hf.
  destruct Hf as [Hf _].
  assert (Hall : Forall stored
                   (if JS.truthy (currentFeature st)
                    then features st ++ [JS.trim (currentFeature st)]
                    else features st)).
  { destruct (JS.truthy (currentFeature st)) eqn:T;
      [now apply push_steady | exact (proj2 Hst)]. }
  rewrite Forall_forall in Hall. exact (Hall f Hf).
Qed.

(** The loop before any heading: nothing collected, nothing open. *)
Definition idle (st : State) : Prop :=
  inFeatures st = false /\ currentFeature st = EmptyString /\ features st = [].

Lemma step_idle (st : State) (raw : string) :
  isFeaturesHeading (JS.trim raw) = false -> idle st -> idle (step st raw).
Proof.
  intros Hh (Hi & Hc & Hf). unfold step. rewrite Hh.
  destruct (isFeaturesEnd _).
  - unfold flush. rewrite Hc. cbn. repeat split; assumption.
  - rewrite Hi. cbn. repeat split; assumption.
Qed.

(** X23. Without a line that starts with KEY FEATURES no feature is
    collected, whatever bullets the text holds. *)
Theorem no_heading_no_features (text : string) (models : list string) :
  Forall (fun raw => isFeaturesHeading (JS.trim raw) = false)
         (JsonText.splitLines text) ->
  extractFeatures text models = [].
Proof.
  intro H. unfold extractFeatures.
  set (st0 := {| inFeatures := false; currentFeature := EmptyString;
                 features := [] |}).
  assert (Hidle : idle (fold_left step (JsonText.splitLines text) st0)).
  { assert (H0 : idle st0) by (repeat split).
    revert H0. generalize st0. induction H as [|l ls Hl _ IH]; intros st Hs;
      cbn; [exact Hs|].
    now apply IH, step_idle. }
  destruct Hidle as (_ & Hc & Hf). rewrite Hc, Hf. reflexivity.
Qed.

Definition bulletsOnly : string :=
  bullet ++ " Easy installation" ++ String JsonText.newline
    (bullet ++ " LED status indication").

Lemma no_heading_no_features_witness :
  extractFeatures bulletsOnly ["M1-1120-3"] = [].
Proof.
  apply (no_heading_no_features bulletsOnly ["M1-1120-3"]).
  repeat constructor.
Defined.

End PdfTextFacts.

(* ------------------------------------------------------------------ *)
(** ** The driver: what every returned record satisfies *)

Module PipelineFacts.
Import Pipeline.

(** The extraction a run makes of the page it crawled. *)
Definition extractionOf (W : World) (raAware : bool) (input : Input)
  (cr : Crawl.CrawlResult) : Extract.ExtractResult :=
  Extract.extractFromHtml (extractW W) (PipelineProps.paramsOf raAware input cr).

(** The record before the RA step and after it. *)
Definition patched (raAware : bool) (input : Input) (fin : Completed)
  : Completed :=
  if PipelineProps.isRAOf raAware input && c_usable fin
  then raPatch (PipelineProps.canonicalMpnOf input) fin else fin.

(** The four ways a run returns. *)
Lemma run_cases (W : World) (raAware : bool) (input : Input) (res : Result) :
  runProductPipeline W raAware input = Returned res ->
  r_mpn res = canonicalize (mpn input) /\
  r_manufacturer res = manufacturer input /\
  exists d,
    r_discovery res = Some d /\
    ((exists reason,
        (reason = NO_PRODUCT_URLS \/ reason = CRAWL_FAILED) /\
        final res = Some (Failure 0 reason) /\
        r_crawl res = None /\ r_extraction res = None /\
        r_synthesis res = None) \/
     (exists cr,
        let e := extractionOf W raAware input cr in
        (Extract.ok e = false \/
         (qOr0 (Extract.qualityScore e) < 0.3)%Q) /\
        final res =
          Some (Failure (qOr0 (Extract.qualityScore e))
                        LOW_EXTRACTION_QUALITY) /\
        r_crawl res = Some cr /\ r_extraction res = Some (summaryOf e cr) /\
        r_synthesis res = None) \/
     (exists cr n s,
        let e := extractionOf W raAware input cr in
        Extract.ok e = true /\
        (0.3 <= qOr0 (Extract.qualityScore e))%Q /\
        Normalize.normalizeProducts (normalizeW W)
          [productOf (manufacturer input) e]
          (if raAware then Some (canonicalize (mpn input)) else None)
          = Returned n /\
        Synth.synthesizeProductContent (synthW W)
          (buildSynthesisInput (fst n)) = Returned s /\
        final res =
          Some (Complete (patched raAware input (finalRecord d cr e s))) /\
        r_crawl res = Some cr /\ r_extraction res = Some (summaryOf e cr) /\
        r_synthesis res = Some s)).
Proof.
  unfold runProductPipeline, patched, extractionOf.
  fold (PipelineProps.canonicalMpnOf input).
  fold (PipelineProps.isRAOf raAware input).
  fold (PipelineProps.lookupMpnOf raAware input).
  destruct (Discovery.discoverProductSources _ _ _) as [d|]; [|discriminate].
  cbn [bind]. intro H.
  destruct (negb _ && _).
  { injection H as <-. cbn. repeat split. exists d. split; [reflexivity|].
    left. exists NO_PRODUCT_URLS. repeat split. now left. }
  destruct (crawlLoop W _ None) as [[cr|]|]; cbn [bind] in H;
    [ | | discriminate].
  2:{ injection H as <-. cbn. repeat split. exists d. split; [reflexivity|].
      left. exists CRAWL_FAILED. repeat split. now right. }
  destruct (negb (Normalize.truthyOpt (Crawl.html cr))).
  { injection H as <-. cbn. repeat split. exists d. split; [reflexivity|].
    left. exists CRAWL_FAILED. repeat split. now right. }
  fold (PipelineProps.paramsOf raAware input cr) in H.
  set (e := Extract.extractFromHtml (extractW W)
              (PipelineProps.paramsOf raAware input cr)) in *.
  destruct (Extract.ok e) eqn:Ok; cbn [negb orb] in H.
  2:{ injection H as <-. cbn. repeat split. exists d. split; [reflexivity|].
      right. left. exists cr. repeat split. now left. }
  destruct (Qltb (qOr0 (Extract.qualityScore e)) 0.3) eqn:Q.
  { injection H as <-. cbn. repeat split. exists d. split; [reflexivity|].
    right. left. exists cr. repeat split. right. now apply Qltb_true. }
  apply Qltb_false in Q.
  destruct (Normalize.normalizeProducts _ _ _) as [n|] eqn:N;
    cbn [bind] in H; [|discriminate].
  destruct (Synth.synthesizeProductContent _ _) as [s|] eqn:S;
    cbn [bind] in H; [|discriminate].
  injection H as <-. cbn. repeat split. exists d. split; [reflexivity|].
  right. right. exists cr, n, s. repeat split; assumption.
Qed.





(** X25. Every returned record carries the canonical MPN, the manufacturer,
    the discovery result and a final verdict; the synthesis is recorded
    exactly for completed runs, and the crawl exactly when the extraction
    is. *)
Theorem run_record_stages (W : World) (raAware : bool) (input : Input)
  (res : Result) :
  runProductPipeline W raAware input = Returned res ->
  r_mpn res = canonicalize (mpn input) /\
  r_manufacturer res = manufacturer input /\
  r_discovery res <> None /\
  final res <> None /\
  (r_synthesis res <> None <-> exists c, final res = Some (Complete c)) /\
  (r_crawl res <> None <-> r_extraction res <> None).
Proof.
  intro Hrun.
  destruct (run_cases W raAware input res Hrun)
    as (Hm & Hman & d & Hd &
        [(r & _ & Hf & Hc & He & Hs)
        | [(cr & _ & Hf & Hc & He & Hs)
          | (cr & n & s & _ & _ & _ & _ & Hf & Hc & He & Hs)]]);
    rewrite Hf, Hc, He, Hs, Hd; repeat split; try assumption;
    try discriminate; try tauto.
  - intros (c & Hcx). discriminate.
  - intros (c & Hcx). discriminate.
  - intros _. eauto.
Qed.

Lemma run_record_stages_witness :
  exists res,
    runProductPipeline (PipelineProps.shopWorld true) true
      PipelineProps.plainInput = Returned res /\
    r_mpn res = canonicalize (mpn PipelineProps.plainInput) /\
    r_manufacturer res = manufacturer PipelineProps.plainInput /\
    r_discovery res <> None /\
    final res <> None /\
    (r_synthesis res <> None <-> exists c, final res = Some (Complete c)) /\
    (r_crawl res <> None <-> r_extraction res <> None).
Proof.
  eexists. split; [vm_compute; reflexivity|].
  eapply (run_record_stages (PipelineProps.shopWorld true) true
            PipelineProps.plainInput).
  vm_compute. reflexivity.
Defined.

(** *** The confidence of a completed run *)





(** *** The spec table *)

Lemma somes_app {A : Type} (l1 l2 : list (option A)) :
  somes (l1 ++ l2) = (somes l1 ++ somes l2)%list.
Proof.
  induction l1 as [|[a|] l1 IH]; cbn; [reflexivity | now rewrite IH | exact IH].
Qed.

(** X27. The spec table of a completed run holds one row for each key feature
    with a colon, in order, and nothing else; the RA step, which appends
    to both lists, keeps it so. *)
Theorem spec_table_follows_key_features (W : World) (raAware : bool)
  (input : Input) (res : Result) (c : Completed) :
  runProductPipeline W raAware input = Returned res ->
  final res = Some (Complete c) ->
  specTable c = somes (map specRow (keyFeatures c)).
Proof.
  intros Hrun Hfin.
  destruct (run_cases W raAware input res Hrun)
    as (_ & _ & d & _ &
        [(r & _ & Hf & _)
        | [(cr & _ & Hf & _)
          | (cr & n & s & _ & _ & _ & _ & Hf & _)]]);
    rewrite Hf in Hfin; try discriminate.
  injection Hfin as <-. unfold patched.
  destruct (_ && _); [|reflexivity].
  cbn [raPatch specTable keyFeatures finalRecord].
  rewrite map_app, somes_app. reflexivity.
Qed.

Lemma spec_table_follows_key_features_witness :
  exists res c,
    runProductPipeline (PipelineProps.shopWorld true) true
      PipelineProps.raInput = Returned res /\
    final res = Some (Complete c) /\
    specTable c = somes (map specRow (keyFeatures c)).
Proof.
  eexists. eexists. split; [vm_compute; reflexivity|].
  split; [reflexivity|].
  eapply (spec_table_follows_key_features (PipelineProps.shopWorld true) true
            PipelineProps.raInput).
  - vm_compute. reflexivity.
  - reflexivity.
Defined.

End PipelineFacts.

(* ------------------------------------------------------------------ *)
(** ** The enrichment endpoint *)

Module ApiFacts.
Import Api.

Definition inputOf (manufacturer m : string) : Pipeline.Input :=
  {| Pipeline.mpn := m; Pipeline.manufacturer := manufacturer |}.

Lemma runAll_returns (W : Pipeline.World) (raAware : bool)
  (manufacturer : string) (l : list string) :
  forall acc results,
    runAll W raAware manufacturer l acc = Returned results ->
    exists rs,
      results = (acc ++ rs)%list /\
      Forall2 (fun m r =>
                 Pipeline.runProductPipeline W raAware (inputOf manufacturer m)
                   = Returned r) l rs.
Proof.
  induction l as [|m l IH]; intros acc results; cbn [runAll].
  - intros [= <-]. exists []. split; [now rewrite app_nil_r | constructor].
  - fold (inputOf manufacturer m).
    destruct (Pipeline.runProductPipeline W raAware (inputOf manufacturer m))
      as [r|] eqn:R; cbn [bind]; [|discriminate].
    intro H. destruct (IH _ _ H) as (rs & -> & Hrs).
    exists (r :: rs). split; [now rewrite <- app_assoc|].
    constructor; assumption.
Qed.

(** X28. A successful response holds one record per MPN of the request, in
    the order of the request, each the record of the run for that MPN
    with the manufacturer of the request. *)
Theorem enrich_one_record_per_mpn (W : Pipeline.World) (raAware : bool)
  (body : Body) (results : list Pipeline.Result) :
  enrichHandler W raAware body = Ok results ->
  JS.truthy (manufacturer body) = true /\
  exists l,
    mpns body = Some l /\
    Forall2 (fun m r =>
               Pipeline.runProductPipeline W raAware
                 (inputOf (manufacturer body) m) = Returned r) l results.
Proof.
  unfold enrichHandler. destruct (mpns body) as [l|]; [|discriminate].
  destruct (JS.truthy (manufacturer body)); cbn [negb]; [|discriminate].
  destruct (runAll W raAware (manufacturer body) l []) as [rs|] eqn:R;
    [|discriminate].
  intros [= <-]. split; [reflexivity|]. exists l. split; [reflexivity|].
  destruct (runAll_returns W raAware (manufacturer body) l [] rs R)
    as (rs' & -> & H). exact H.
Qed.

Lemma enrich_one_record_per_mpn_witness :
  exists results,
    enrichHandler (PipelineProps.shopWorld true) true
      {| mpns := Some ["M1-1120-3"; "m1 1120 3ra"];
         manufacturer := "SurgePure" |} = Ok results /\
    exists l,
      Some ["M1-1120-3"; "m1 1120 3ra"] = Some l /\
      Forall2 (fun m r =>
                 Pipeline.runProductPipeline (PipelineProps.shopWorld true) true
                   (inputOf "SurgePure" m) = Returned r) l results.
Proof.
  eexists. split; [vm_compute; reflexivity|].
  eapply (enrich_one_record_per_mpn (PipelineProps.shopWorld true) true
            {| mpns := Some ["M1-1120-3"; "m1 1120 3ra"];
               manufacturer := "SurgePure" |}).
  vm_compute. reflexivity.
Defined.

Lemma runAll_throws (W : Pipeline.World) (raAware : bool)
  (manufacturer : string) (pre post : list string) (m e : string) :
  Forall (fun x => exists r,
            Pipeline.runProductPipeline W raAware (inputOf manufacturer x)
              = Returned r) pre ->
  Pipeline.runProductPipeline W raAware (inputOf manufacturer m) = Thrown e ->
  forall acc,
    runAll W raAware manufacturer (pre ++ m :: post) acc = Thrown e.
Proof.
  intros Hpre Hm. induction Hpre as [|x pre (r & Hx) _ IH]; intro acc;
    cbn [runAll app].
  - fold (inputOf manufacturer m). rewrite Hm. reflexivity.
  - fold (inputOf manufacturer x). rewrite Hx. cbn [bind]. apply IH.
Qed.

(** X29. The first run that throws ends the request with status 500 and the
    message thrown: the records of the runs before it are not sent, and
    the MPNs after it are not run. *)
Theorem enrich_first_failure_aborts (W : Pipeline.World) (raAware : bool)
  (body : Body) (pre post : list string) (m e : string) :
  mpns body = Some (pre ++ m :: post)%list ->
  JS.truthy (manufacturer body) = true ->
  Forall (fun x => exists r,
            Pipeline.runProductPipeline W raAware
              (inputOf (manufacturer body) x) = Returned r) pre ->
  Pipeline.runProductPipeline W raAware (inputOf (manufacturer body) m)
    = Thrown e ->
  enrichHandler W raAware body =
    ServerError (if JS.truthy e then e else "Internal error").
Proof.
  intros Hl Hman Hpre Hm. unfold enrichHandler. rewrite Hl, Hman. cbn [negb].
  rewrite (runAll_throws W raAware (manufacturer body) pre post m e Hpre Hm).
  reflexivity.
Qed.

(** A world whose search service is down for one MPN. *)
Definition flakyWorld : Pipeline.World :=
  {| Pipeline.discoveryW :=
       {| Discovery.runSerperQuery := fun q =>
            if JS.includes q "M2"
            then Thrown "Serper request failed: 503"
            else Discovery.runSerperQuery
                   (Pipeline.discoveryW (PipelineProps.shopWorld true)) q;
          Discovery.hostname := fun _ => Some "shop.example.com";
          Discovery.mathExp := fun _ => 1%Q |};
     Pipeline.crawlW := Pipeline.crawlW (PipelineProps.shopWorld true);
     Pipeline.extractW := Pipeline.extractW (PipelineProps.shopWorld true);
     Pipeline.normalizeW := Pipeline.normalizeW (PipelineProps.shopWorld true);
     Pipeline.synthW := Pipeline.synthW (PipelineProps.shopWorld true) |}.

Lemma enrich_first_failure_aborts_witness :
  enrichHandler flakyWorld true
    {| mpns := Some ["M1-1120-3"; "M2-1120-3"; "M1-1240-3"];
       manufacturer := "SurgePure" |} =
  ServerError "Serper request failed: 503".
Proof.
  apply (enrich_first_failure_aborts flakyWorld true
           {| mpns := Some ["M1-1120-3"; "M2-1120-3"; "M1-1240-3"];
              manufacturer := "SurgePure" |}
           ["M1-1120-3"] ["M1-1240-3"] "M2-1120-3"
           "Serper request failed: 503").
  - reflexivity.
  - reflexivity.
  - constructor; [|constructor]. eexists. vm_compute. reflexivity.
  - vm_compute. reflexivity.
Defined.

End ApiFacts.

(* ------------------------------------------------------------------ *)
(** ** The canonical MPN *)

Module MpnFacts.
Import Pipeline.

Definition byte (n : nat) : ascii := ascii_of_nat n.

(** The head of [s] is an en dash or an em dash. *)
Definition dashHead (s : string) : bool := prefix enDash s || prefix emDash s.

Lemma prefix_nil (s : string) : prefix EmptyString s = true.
Proof. now destruct s. Qed.

Lemma prefix_cons (a b : ascii) (s1 s2 : string) :
  prefix (String a s1) (String b s2) =
  if Ascii.eqb a b then prefix s1 s2 else false.
Proof.
  cbn [prefix]. destruct (ascii_dec a b), (Ascii.eqb_spec a b);
    congruence.
Qed.

Lemma dashHead_spec (c : ascii) (rest : string) :
  dashHead (String c rest) = true <->
  c = byte 226 /\
  exists x r, rest = String (byte 128) (String x r) /\
              (x = byte 147 \/ x = byte 148).
Proof.
  unfold dashHead, enDash, emDash.
  fold (byte 226). fold (byte 128). fold (byte 147). fold (byte 148).
  rewrite !prefix_cons.
  destruct (Ascii.eqb_spec (byte 226) c) as [<- | Hc].
  2:{ split; [discriminate|]. intros (-> & _). congruence. }
  destruct rest as [|c2 rest].
  { split; [discriminate|]. intros (_ & x & r & H & _). discriminate. }
  rewrite !prefix_cons.
  destruct (Ascii.eqb_spec (byte 128) c2) as [<- | Hc2].
  2:{ split; [discriminate|]. intros (_ & x & r & [= -> _] & _). congruence. }
  destruct rest as [|c3 rest].
  { split; [discriminate|]. intros (_ & x & r & H & _). discriminate. }
  rewrite !prefix_cons, !prefix_nil.
  destruct (Ascii.eqb_spec (byte 147) c3) as [<- | H3].
  { split; [|reflexivity]. intros _. split; [reflexivity|].
    exists (byte 147), rest. split; [reflexivity | now left]. }
  destruct (Ascii.eqb_spec (byte 148) c3) as [<- | H4].
  { split; [|reflexivity]. intros _. split; [reflexivity|].
    exists (byte 148), rest. split; [reflexivity | now right]. }
  split; [discriminate|].
  intros (_ & x & r & [= -> _] & [-> | ->]); congruence.
Qed.

Lemma separatorLength_zero (c : ascii) (rest : string) :
  separatorLength (String c rest) = 0%nat <->
  dashHead (String c rest) = false /\ JS.isSpace c = false.
Proof.
  unfold separatorLength. fold (dashHead (String c rest)).
  destruct (dashHead (String c rest)); [split; [discriminate | intros [? _]; discriminate]|].
  destruct (JS.isSpace c); split; try discriminate; try tauto.
  intros [_ H]. discriminate.
Qed.

(** No separator starts anywhere in the string. *)
Fixpoint free (s : string) : Prop :=
  match s with
  | EmptyString => True
  | String _ t => separatorLength s = 0%nat /\ free t
  end.

Lemma dashRuns_free_id (s : string) (inRun : bool) :
  free s -> dashRuns inRun 0 s = s.
Proof.
  revert inRun. induction s as [|c t IH]; intros inRun H; [reflexivity|].
  destruct H as [H0 Ht]. cbn [dashRuns]. rewrite H0.
  now rewrite (IH false Ht).
Qed.

(** The first two characters of what [dashRuns] leaves, when they are
    the last two bytes of a dash, are those of its argument. *)
Lemma dashRuns_head (t : string) (x : ascii) (r : string) :
  x = byte 147 \/ x = byte 148 ->
  dashRuns false 0 t = String (byte 128) (String x r) ->
  exists r', t = String (byte 128) (String x r').
Proof.
  intros Hx. destruct t as [|c2 t2]; [discriminate|]. cbn [dashRuns].
  destruct (separatorLength (String c2 t2)) as [|k] eqn:S2.
  - intros [= -> H]. destruct t2 as [|c3 t3]; [discriminate|].
    cbn [dashRuns] in H.
    destruct (separatorLength (String c3 t3)) as [|k3].
    + injection H as -> _. eauto.
    + injection H as <- _. destruct Hx as [Hx | Hx]; discriminate Hx.
  - intros [= H _].
Qed.

Lemma dashRuns_free (s : string) :
  forall inRun skip, free (dashRuns inRun skip s).
Proof.
  induction s as [|c t IH]; intros inRun skip; [exact I|].
  cbn [dashRuns]. destruct skip as [|k]; [|apply IH].
  destruct (separatorLength (String c t)) as [|k] eqn:S0.
  - split; [|apply IH]. apply separatorLength_zero in S0.
    destruct S0 as [Hd Hs]. apply separatorLength_zero. split; [|exact Hs].
    destruct (dashHead (String c (dashRuns false 0 t))) eqn:D; [|reflexivity].
    apply dashHead_spec in D. destruct D as (-> & x & r & Hr & Hx).
    destruct (dashRuns_head t x r Hx Hr) as (r' & ->).
    assert (Hin : dashHead (String (byte 226)
                              (String (byte 128) (String x r'))) = true)
      by (apply dashHead_spec; split; [reflexivity | eauto]).
    congruence.
  - destruct inRun; [apply IH|]. split; [reflexivity | apply IH].
Qed.

(** Upper-casing moves no character onto or off a byte of a dash or a
    white-space character. *)
Lemma upperChar_keeps (c : ascii) :
  JS.isSpace (JS.upperChar c) = JS.isSpace c /\
  JS.isLower (JS.upperChar c) = false /\
  JS.upperChar (JS.upperChar c) = JS.upperChar c /\
  (forall k, k = byte 226 \/ k = byte 128 \/ k = byte 147 \/ k = byte 148 ->
             JS.upperChar c = k -> c = k).
Proof.
  destruct c as [[] [] [] [] [] [] [] []];
    (split; [reflexivity|]); (split; [reflexivity|]);
    (split; [reflexivity|]);
    intros k [-> | [-> | [-> | ->]]] H; solve [reflexivity | discriminate H].
Qed.

Lemma toUpperCase_free (s : string) : free s -> free (JS.toUpperCase s).
Proof.
  induction s as [|c t IH]; [trivial|]. intros [H0 Ht].
  split; [|now apply IH]. apply separatorLength_zero in H0.
  destruct H0 as [Hd Hs]. apply separatorLength_zero.
  destruct (upperChar_keeps c) as (Hsp & _ & _ & Hk).
  split; [|now rewrite Hsp].
  cbn [JS.mapStr].
  destruct (dashHead (String (JS.upperChar c) (JS.mapStr JS.upperChar t)))
    eqn:D; [|reflexivity].
  apply dashHead_spec in D. destruct D as (Hc & x & r & Hr & Hx).
  apply Hk in Hc; [|now left]. subst c.
  destruct t as [|c2 [|c3 t3]]; try discriminate Hr.
  cbn [JS.mapStr] in Hr. injection Hr as H2 H3 _.
  apply (proj2 (proj2 (proj2 (upperChar_keeps c2)))) in H2;
    [|right; now left].
  apply (proj2 (proj2 (proj2 (upperChar_keeps c3)))) in H3;
    [|destruct Hx as [-> | ->]; [right; right; now left | now repeat right]].
  subst c2 c3.
  assert (Hin : dashHead (String (byte 226)
                            (String (byte 128) (String x t3))) = true)
    by (apply dashHead_spec; split; [reflexivity | eauto]).
  congruence.
Qed.

Lemma toUpperCase_idempotent (s : string) :
  JS.toUpperCase (JS.toUpperCase s) = JS.toUpperCase s.
Proof.
  unfold JS.toUpperCase. induction s as [|c t IH]; [reflexivity|].
  cbn [JS.mapStr]. rewrite IH.
  now rewrite (proj1 (proj2 (proj2 (upperChar_keeps c)))).
Qed.

Lemma free_no_space (s : string) (c : ascii) :
  free s -> In c (list_ascii_of_string s) -> JS.isSpace c = false.
Proof.
  induction s as [|d t IH]; cbn [list_ascii_of_string]; [intros _ []|].
  intros [H0 Ht] [<- | Hin]; [|now apply IH].
  apply separatorLength_zero in H0. tauto.
Qed.

(** X30. The canonical MPN is a fixed point of the canonicalization, holds no
    white-space character and no lower-case letter, and no en dash or em
    dash starts anywhere in it. *)
Theorem canonical_mpn_is_stable (mpn : string) :
  canonicalize (canonicalize mpn) = canonicalize mpn /\
  (forall c, In c (list_ascii_of_string (canonicalize mpn)) ->
             JS.isSpace c = false /\ JS.isLower c = false) /\
  (forall n, dashHead (JS.dropStr n (canonicalize mpn)) = false).
Proof.
  assert (Hfree : free (canonicalize mpn))
    by (apply toUpperCase_free, dashRuns_free).
  split; [|split].
  - unfold canonicalize at 1. rewrite (dashRuns_free_id _ false Hfree).
    apply toUpperCase_idempotent.
  - intros c Hc. split; [now apply (free_no_space (canonicalize mpn))|].
    unfold canonicalize, JS.toUpperCase in Hc.
    revert Hc. generalize (dashRuns false 0 mpn).
    induction s as [|d t IH]; cbn [JS.mapStr list_ascii_of_string];
      [intros []|].
    intros [<- | Hin]; [|now apply IH].
    exact (proj1 (proj2 (upperChar_keeps d))).
  - intro n. revert Hfree. generalize (canonicalize mpn). intros s.
    revert s. induction n as [|n IH]; intros s Hs; cbn [JS.dropStr].
    + destruct s as [|c t]; [reflexivity|]. destruct Hs as [H0 _].
      apply separatorLength_zero in H0. tauto.
    + destruct s as [|c t]; [reflexivity|]. destruct Hs as [_ Ht].
      now apply IH.
Qed.

End MpnFacts.
